(** * ssbench worker: a shallow embedding of [ssbench/worker.py]

    The worker pulls benchmark jobs, runs each one as a storage operation
    through a per-endpoint connection pool with a bounded retry loop, and
    queues one result record per job.  This file embeds the module's data
    (dicts, the payload reader, the connection pool, the worker object) and
    its methods as state-passing functions, and proves the properties the
    specification states about them.

    Conventions.
    - A Python [int] is a [Z]; a Python 2 [str] is a [string]; a [float] is
      carried as its IEEE-754 binary64 bit pattern (only [0.0] and clock
      readings occur, and no arithmetic is done on them).
    - A [dict] with string keys is a [gmap string _].
    - The attributes of [Worker] that [__init__] sets and nothing assigns
      again ([worker_id], [max_retries], [concurrency]) form the record
      [Worker]; what the methods mutate forms [State].
    - A method is a function from the state to an [Outcome] and the new
      state: it returns, raises, or waits on a queue.
    - Exceptions are the instances of Python's [Exception] class, which is
      what every [except] clause of the module names.
    - The storage client, the HTTP connections, the clock, msgpack and the
      builtins [int] and [repr] are collaborators: the class
      [Collaborators] lists what the module calls, and every definition and
      theorem is parametric in it. *)

From stdpp Require Import gmap strings list fin_maps pretty.
From Stdlib Require Import Ascii String ZArith Lia.
From Equations Require Import Equations.

Local Open Scope Z_scope.

(** ** Python strings *)

Module PyStr.

(** [s[:n]] for a natural [n]. *)
Fixpoint take (n : nat) (s : string) : string :=
  match n, s with
  | S n', String c s' => String c (take n' s')
  | _, _ => EmptyString
  end.

(** [s * n] for a natural [n]. *)
Fixpoint replicate (n : nat) (s : string) : string :=
  match n with
  | O => EmptyString
  | S n' => s +:+ replicate n' s
  end.

(** [s * n]: a count below one gives the empty string. *)
Definition mul (s : string) (n : Z) : string := replicate (Z.to_nat n) s.

(** [s[:n]]: a negative bound counts from the end of the string. *)
Definition slice_to (s : string) (n : Z) : string :=
  if n <? 0 then take (String.length s - Z.to_nat (- n)) s
  else take (Z.to_nat n) s.

End PyStr.

(** ** ChunkedReader *)

Record ChunkedReader := mkChunkedReader {
  size : Z;
  letter : string;
  chunk : string
}.

Module Reader.

Definition chunk_size : Z := 2 ^ 21.

(** [ChunkedReader.__init__] *)
Definition init (letter : string) (size : Z) : ChunkedReader :=
  {| size := size; letter := letter; chunk := PyStr.mul letter chunk_size |}.

(** [ChunkedReader.read]: the slice, and the reader as the call leaves it. *)
Definition read (self : ChunkedReader) (chunk_size : Z) : string * ChunkedReader :=
  (PyStr.slice_to (chunk self) chunk_size, self).

(** A sequence of [read] calls on one reader: the data of each call and
    the reader after the last. *)
Fixpoint read_all (self : ChunkedReader) (sizes : list Z) : list string * ChunkedReader :=
  match sizes with
  | [] => ([], self)
  | n :: rest =>
      let '(data, self1) := read self n in
      let '(datas, self2) := read_all self1 rest in
      (data :: datas, self2)
  end.

End Reader.

(** ** Values, dicts, exceptions *)

(** The scalars a msgpack record carries. *)
Inductive PyVal :=
| VNone
| VBool (b : bool)
| VInt (n : Z)
| VFloat (bits : Z)
| VStr (s : string).

#[global] Instance PyVal_eq_dec : EqDecision PyVal.
Proof. solve_decision. Defined.

Definition PyVal_to_sum (v : PyVal) : unit + bool + Z + Z + string :=
  match v with
  | VNone => inl (inl (inl (inl tt)))
  | VBool b => inl (inl (inl (inr b)))
  | VInt n => inl (inl (inr n))
  | VFloat bits => inl (inr bits)
  | VStr s => inr s
  end.

Definition PyVal_of_sum (x : unit + bool + Z + Z + string) : PyVal :=
  match x with
  | inl (inl (inl (inl _))) => VNone
  | inl (inl (inl (inr b))) => VBool b
  | inl (inl (inr n)) => VInt n
  | inl (inr bits) => VFloat bits
  | inr s => VStr s
  end.

#[global] Instance PyVal_countable : Countable PyVal.
Proof.
  apply (inj_countable' PyVal_to_sum PyVal_of_sum).
  intros []; reflexivity.
Defined.

(** A dict with string keys and scalar values: a job, a result, response
    headers. *)
Abbreviation PyDict := (gmap string PyVal).

(** What msgpack can carry: an integer has to fit 64 bits, signed or
    unsigned. *)
Definition packable (v : PyVal) : bool :=
  match v with
  | VInt n => (- 2 ^ 63 <=? n) && (n <? 2 ^ 64)
  | _ => true
  end.

Definition packable_dict (d : PyDict) : Prop :=
  map_Forall (fun _ v => packable v = true) d.

(** The bit pattern of [0.0]. *)
Definition float_zero : Z := 0.
(** The bit pattern of [-0.0]. *)
Definition float_neg_zero : Z := 2 ^ 63.

(** Truth value of a scalar, as [if v:] tests it. *)
Definition truthy (v : PyVal) : bool :=
  match v with
  | VNone => false
  | VBool b => b
  | VInt n => negb (n =? 0)
  | VFloat bits => negb ((bits =? float_zero) || (bits =? float_neg_zero))
  | VStr s => negb (String.eqb s "")
  end.

(** [d.get(key, default)] *)
Definition dict_get (d : PyDict) (key : string) (default : PyVal) : PyVal :=
  match d !! key with
  | Some v => v
  | None => default
  end.

(** [add_dicts]: the positional dicts are merged in order, later ones
    overriding earlier ones, and the keywords override them all. *)
Definition add_dicts (args : list PyDict) (kwargs : PyDict) : PyDict :=
  let result := foldl (fun result d => d ∪ result) ∅ args in
  kwargs ∪ result.

Inductive PyExc :=
| SocketError (msg : string)
| ClientException (msg : string) (http_status : Z)
| CannotSendRequest (msg : string)
| HTTPConnectionClosed (msg : string)
| KeyError (key : PyVal)
| NameError (msg : string)
| ValueError (msg : string)
| RuntimeError (msg : string)
| Exception_ (msg : string)
| OtherException (class_name msg : string).

(** What a call does: it returns a value, raises, or waits on a queue that
    nothing running will serve. *)
Inductive Outcome (A : Type) :=
| Return (a : A)
| Raise (e : PyExc)
| Blocked.
Arguments Return {A} a.
Arguments Raise {A} e.
Arguments Blocked {A}.

(** The truth value of an object, as [if x:] tests it. *)
Class Truthy (R : Type) := truth : R -> bool.

(** A dict is true when it is not empty. *)
#[global] Instance dict_truthy : Truthy PyDict := fun d => negb (bool_decide (d = ∅)).
(** A tuple of two is always true. *)
#[global] Instance pair_truthy {A B : Type} : Truthy (A * B) := fun _ => true.

(** A keyword argument of a storage call: a scalar or the payload reader. *)
Inductive ArgVal :=
| AVal (v : PyVal)
| AReader (r : ChunkedReader).

(** ** Collaborators *)

(** A function of the storage client: how it prints ([%r]) and what a call
    with a connection and keyword arguments does to the outside world. *)
Record StorageFn (World Conn R : Type) := mkStorageFn {
  fn_repr : string;
  fn_call : Conn -> gmap string ArgVal -> World -> Outcome R * World
}.
Arguments fn_repr {World Conn R} _.
Arguments fn_call {World Conn R} _ _ _ _.

Class Collaborators (World Conn : Type) := {
  (** [client.http_connection(url)]: it builds a connection object and
      returns it *)
  http_connection : PyVal -> World -> Conn * World;
  (** [hc.close()]: the exception it raised, if any *)
  conn_close : Conn -> World -> option PyExc * World;
  (** [client.put_object], [client.delete_object]: the response headers *)
  put_object : StorageFn World Conn PyDict;
  delete_object : StorageFn World Conn PyDict;
  (** [client.get_object]: the response headers and the body *)
  get_object : StorageFn World Conn (PyDict * string);
  (** [time.time()] *)
  time_time : World -> Z * World;
  (** [msgpack.dumps], which raises for a value it cannot encode (an
      integer outside 64 bits), and [msgpack.loads] *)
  msgpack_dumps : PyDict -> PyExc + string;
  msgpack_loads : string -> PyExc + PyDict;
  (** [int(v)] *)
  py_int : PyVal -> PyExc + Z;
  (** [repr(v)], [repr(e)], [traceback.format_exc()] while [e] is handled *)
  repr_val : PyVal -> string;
  repr_exc : PyExc -> string;
  format_exc : PyExc -> string
}.

(** ** The worker and its state *)

Record Worker := mkWorker {
  worker_id : PyVal;
  max_retries : Z;
  concurrency : Z
}.

Section State.

Context {World Conn : Type}.

(** [ConnectionPool]: a [gevent.queue.Queue] of connections with its
    factory.  [queue] lists the connections at rest, oldest first. *)
Record ConnectionPool := mkConnectionPool {
  create : World -> Conn * World;
  maxsize : Z;
  queue : list Conn
}.

(** [conn_pools] and [result_queue] are the attributes of the worker;
    [outside] is the world of the collaborators.  [result_queue] lists the
    encoded results in the order they were put (the writer task that sends
    them on is not part of the model).  [fn_calls] is not an attribute: it
    counts the calls made to storage functions, so that the number of
    attempts of a retry loop can be stated. *)
Record State := mkState {
  conn_pools : gmap PyVal ConnectionPool;
  result_queue : list string;
  outside : World;
  fn_calls : nat
}.

Definition set_conn_pools (pools : gmap PyVal ConnectionPool) (st : State) : State :=
  {| conn_pools := pools; result_queue := result_queue st;
     outside := outside st; fn_calls := fn_calls st |}.

Definition set_outside (w : World) (st : State) : State :=
  {| conn_pools := conn_pools st; result_queue := result_queue st;
     outside := w; fn_calls := fn_calls st |}.

Definition push_result (r : string) (st : State) : State :=
  {| conn_pools := conn_pools st; result_queue := result_queue st ++ [r];
     outside := outside st; fn_calls := fn_calls st |}.

Definition count_call (st : State) : State :=
  {| conn_pools := conn_pools st; result_queue := result_queue st;
     outside := outside st; fn_calls := S (fn_calls st) |}.

Definition set_queue (conns : list Conn) (pool : ConnectionPool) : ConnectionPool :=
  {| create := create pool; maxsize := maxsize pool; queue := conns |}.

(** [self.conn_pools[storage_url] = pool] *)
Definition set_pool (storage_url : PyVal) (pool : ConnectionPool) (st : State) : State :=
  set_conn_pools (<[storage_url := pool]> (conn_pools st)) st.

(** [Queue.get()]: the oldest connection, or [None] when the queue is empty
    and the caller has to wait. *)
Definition pool_get (pool : ConnectionPool) : option (Conn * ConnectionPool) :=
  match queue pool with
  | [] => None
  | hc :: rest => Some (hc, set_queue rest pool)
  end.

(** [Queue.full()], as [put] tests it.  [Queue.__init__] takes a [maxsize]
    of zero or less for no bound, so only a queue with a positive [maxsize]
    is ever full. *)
Definition pool_full (pool : ConnectionPool) : bool :=
  (0 <? maxsize pool) && (maxsize pool <=? Z.of_nat (List.length (queue pool))).

(** [Queue.put(hc)]: [None] when the queue is full and the caller has to
    wait. *)
Definition pool_put (pool : ConnectionPool) (hc : Conn) : option ConnectionPool :=
  if pool_full pool then None else Some (set_queue (queue pool ++ [hc]) pool).

(** A pool from which a task can borrow at once and to which it can give
    back: it exists for the endpoint, holds a connection, and holds no more
    than its capacity. *)
Definition pool_ready (storage_url : PyVal) (st : State) : bool :=
  match conn_pools st !! storage_url with
  | Some pool =>
      match queue pool with
      | [] => false
      | _ :: _ => Z.of_nat (List.length (queue pool)) <=? maxsize pool
      end
  | None => false
  end.

(** The loop of [ConnectionPool.__init__]: [n] times [self.put(self.create())]. *)
Fixpoint pool_fill (n : nat) (pool : ConnectionPool) (w : World)
  : Outcome ConnectionPool * World :=
  match n with
  | O => (Return pool, w)
  | S n' =>
      let '(hc, w1) := create pool w in
      match pool_put pool hc with
      | None => (Blocked, w1)
      | Some pool1 => pool_fill n' pool1 w1
      end
  end.

(** [n] connections made one after the other by [factory], oldest first,
    and the world after the last: what a pool is to be filled with. *)
Fixpoint make_connections (factory : World -> Conn * World) (n : nat) (w : World)
  : list Conn * World :=
  match n with
  | O => ([], w)
  | S n' =>
      let '(hc, w1) := factory w in
      let '(conns, w2) := make_connections factory n' w1 in
      (hc :: conns, w2)
  end.

(** [ConnectionPool.__init__(factory, maxsize)]; [xrange(maxsize)] is empty
    for a [maxsize] below one. *)
Definition ConnectionPool_init (factory : World -> Conn * World) (maxsize : Z) (w : World)
  : Outcome ConnectionPool * World :=
  pool_fill (Z.to_nat maxsize) {| create := factory; maxsize := maxsize; queue := [] |} w.

End State.

Arguments ConnectionPool : clear implicits.
Arguments State : clear implicits.

(** ** Methods of the worker *)

(** The ways the body of a [with] statement ends. *)
Inductive BodyExit :=
| ExitNormally
| ExitRaising (e : PyExc).

(** The classes the [except] clause of [Worker.connection] names. *)
Definition is_broken_connection (e : PyExc) : bool :=
  match e with
  | CannotSendRequest _ | HTTPConnectionClosed _ => true
  | _ => false
  end.

Section Model.

Context {World Conn : Type} {env : Collaborators World Conn}.

#[local] Abbreviation State := (State World Conn).
#[local] Abbreviation ConnectionPool := (ConnectionPool World Conn).

(** *** [Worker.connection] *)

(** The [finally] clause: [self.conn_pools[storage_url].put(hc)]. *)
Definition connection_finally (storage_url : PyVal) (hc : Conn) (st : State)
  : Outcome unit * State :=
  match conn_pools st !! storage_url with
  | None => (Raise (KeyError storage_url), st)
  | Some pool =>
      match pool_put pool hc with
      | None => (Blocked, st)
      | Some pool1 => (Return tt, set_pool storage_url pool1 st)
      end
  end.

(** The generator up to its [yield]: the connection borrowed.  When the
    lookup of the pool fails, so does the one of the [finally] clause, with
    the same [KeyError]. *)
Definition connection_enter (storage_url : PyVal) (st : State) : Outcome Conn * State :=
  match conn_pools st !! storage_url with
  | None => (Raise (KeyError storage_url), st)
  | Some pool =>
      match pool_get pool with
      | None => (Blocked, st)
      | Some (hc, pool1) => (Return hc, set_pool storage_url pool1 st)
      end
  end.

(** The generator from its [yield] on, resumed when the body of the [with]
    statement ends.  It returns [true] when it swallowed the exception of
    the body, [false] when the body ended normally or its exception goes on
    to the caller. *)
Definition connection_exit (storage_url : PyVal) (hc : Conn) (how : BodyExit) (st : State)
  : Outcome bool * State :=
  match how with
  | ExitNormally =>
      match connection_finally storage_url hc st with
      | (Return _, st1) => (Return false, st1)
      | (Raise e, st1) => (Raise e, st1)
      | (Blocked, st1) => (Blocked, st1)
      end
  | ExitRaising e =>
      if is_broken_connection e then
        (* try: hc.close() / except Exception: pass *)
        let '(_, w1) := conn_close hc (outside st) in
        let st1 := set_outside w1 st in
        match conn_pools st1 !! storage_url with
        | None => (Raise (KeyError storage_url), st1)
        | Some pool =>
            let '(hc1, w2) := create pool (outside st1) in
            let st2 := set_outside w2 st1 in
            match connection_finally storage_url hc1 st2 with
            | (Return _, st3) => (Return true, st3)
            | (Raise e1, st3) => (Raise e1, st3)
            | (Blocked, st3) => (Blocked, st3)
            end
        end
      else
        match connection_finally storage_url hc st with
        | (Return _, st1) => (Return false, st1)
        | (Raise e1, st1) => (Raise e1, st1)
        | (Blocked, st1) => (Blocked, st1)
        end
  end.

(** [with self.connection(storage_url) as conn: body].  The value is
    [Some r] when the body returned [r], and [None] when the body raised and
    the context manager swallowed the exception, so that the statements
    after the [with] block run next. *)
Definition with_connection {R : Type} (storage_url : PyVal)
  (body : Conn -> State -> Outcome R * State) (st : State) : Outcome (option R) * State :=
  match connection_enter storage_url st with
  | (Return hc, st1) =>
      match body hc st1 with
      | (Return r, st2) =>
          match connection_exit storage_url hc ExitNormally st2 with
          | (Return _, st3) => (Return (Some r), st3)
          | (Raise e, st3) => (Raise e, st3)
          | (Blocked, st3) => (Blocked, st3)
          end
      | (Raise e, st2) =>
          match connection_exit storage_url hc (ExitRaising e) st2 with
          | (Return true, st3) => (Return None, st3)
          | (Return false, st3) => (Raise e, st3)
          | (Raise e1, st3) => (Raise e1, st3)
          | (Blocked, st3) => (Blocked, st3)
          end
      | (Blocked, st2) => (Blocked, st2)
      end
  | (Raise e, st1) => (Raise e, st1)
  | (Blocked, st1) => (Blocked, st1)
  end.

(** *** [Worker.ignoring_http_responses] *)

(** [dict(url=call_info['storage_url'], token=call_info['token'],
    container=call_info['container'], name=call_info['name'])], then
    [args.update(extra_keys)]. *)
Definition call_args (call_info : PyDict) (extra_keys : gmap string ArgVal)
  : PyExc + gmap string ArgVal :=
  match call_info !! "storage_url" with
  | None => inl (KeyError (VStr "storage_url"))
  | Some url =>
  match call_info !! "token" with
  | None => inl (KeyError (VStr "token"))
  | Some token =>
  match call_info !! "container" with
  | None => inl (KeyError (VStr "container"))
  | Some container =>
  match call_info !! "name" with
  | None => inl (KeyError (VStr "name"))
  | Some name =>
      inr (extra_keys ∪
           {[ "url" := AVal url; "token" := AVal token;
              "container" := AVal container; "name" := AVal name ]})
  end end end end.

(** [fn(http_conn=conn, **args)] *)
Definition call_fn {R : Type} (fn : StorageFn World Conn R) (args : gmap string ArgVal)
  (conn : Conn) (st : State) : Outcome R * State :=
  let '(o, w) := fn_call fn conn args (outside st) in
  (o, count_call (set_outside w st)).

(** One pass through the [try] block up to the [with] statement's end:
    [fn_results] is [None] unless the call returned. *)
Definition attempt {R : Type} (fn : StorageFn World Conn R) (call_info : PyDict)
  (args : gmap string ArgVal) (st : State) : Outcome (option R) * State :=
  match call_info !! "storage_url" with
  | None => (Raise (KeyError (VStr "storage_url")), st)
  | Some storage_url => with_connection storage_url (call_fn fn args) st
  end.

(** [if fn_results:] *)
Definition results_truth {R : Type} {truthy_R : Truthy R} (fn_results : option R) : option R :=
  match fn_results with
  | Some r => if truth r then Some r else None
  | None => None
  end.

Definition no_results_message {R : Type} (fn : StorageFn World Conn R) (self : Worker) : string :=
  "No fn_results for " +:+ fn_repr fn +:+ " after " +:+ pretty (max_retries self)
  +:+ " retries".

(** The [while True] loop, entered with the current value of [tries]. *)
Equations? retry_loop {R : Type} {truthy_R : Truthy R} (self : Worker) (statuses : list Z)
  (fn : StorageFn World Conn R) (call_info : PyDict) (args : gmap string ArgVal)
  (tries : Z) (st : State) : Outcome R * State
  by wf (Z.to_nat (max_retries self + 1 - tries)) lt :=
retry_loop self statuses fn call_info args tries st with attempt fn call_info args st := {
  | (Return fn_results, st1) with results_truth fn_results := {
      | Some r := (Return r, st1)
      | None with decide (tries + 1 > max_retries self) := {
          | left _ := (Raise (Exception_ (no_results_message fn self)), st1)
          | right _ := retry_loop self statuses fn call_info args (tries + 1) st1 } }
  | (Raise (SocketError msg), st1) with decide (tries + 1 > max_retries self) := {
      | left _ := (Raise (SocketError msg), st1)
      | right _ := retry_loop self statuses fn call_info args (tries + 1) st1 }
  | (Raise (ClientException msg http_status), st1)
      with decide (http_status ∈ statuses /\ tries + 1 <= max_retries self) := {
      | left _ := retry_loop self statuses fn call_info args (tries + 1) st1
      | right _ := (Raise (ClientException msg http_status), st1) }
  | (Raise e, st1) := (Raise e, st1)
  | (Blocked, st1) := (Blocked, st1) }.
Proof. all: lia. Qed.

Definition ignoring_http_responses {R : Type} {truthy_R : Truthy R} (self : Worker)
  (statuses : list Z) (fn : StorageFn World Conn R) (call_info : PyDict)
  (extra_keys : gmap string ArgVal) (st : State) : Outcome R * State :=
  match call_args call_info extra_keys with
  | inl e => (Raise e, st)
  | inr args => retry_loop self statuses fn call_info args 0 st
  end.

(** *** [Worker.put_results] and the handlers *)

(** The [TypeError] of a call that is given a keyword twice. *)
Definition multiple_values (key : string) : PyExc :=
  OtherException "TypeError"
    ("add_dicts() got multiple values for keyword argument '" +:+ key +:+ "'").

(** [put_results]: the clock is read, the positional dicts and the keywords
    are combined with the time of completion and the worker's id, and the
    result is encoded and queued.  The call of [add_dicts] names
    [completed_at] and [worker_id] itself, so it raises [TypeError] when the
    keywords have one of them too (the message names one of the two; here
    [completed_at] when both are given).  When the encoder raises, nothing
    is queued. *)
Definition put_results (self : Worker) (args : list PyDict) (kwargs : PyDict) (st : State)
  : Outcome unit * State :=
  let '(now, w) := time_time (outside st) in
  let st1 := set_outside w st in
  match kwargs !! "completed_at", kwargs !! "worker_id" with
  | Some _, _ => (Raise (multiple_values "completed_at"), st1)
  | None, Some _ => (Raise (multiple_values "worker_id"), st1)
  | None, None =>
      let result :=
        add_dicts args
          ({[ "completed_at" := VFloat now; "worker_id" := worker_id self ]} ∪ kwargs) in
      match msgpack_dumps result with
      | inl e => (Raise e, st1)
      | inr encoded => (Return tt, push_result encoded st1)
      end
  end.

Definition _put_results_from_response (self : Worker) (object_info resp_headers : PyDict)
  (st : State) : Outcome unit * State :=
  put_results self [object_info]
    {[ "first_byte_latency" := dict_get resp_headers "x-swiftstack-first-byte-latency" VNone;
       "last_byte_latency" := dict_get resp_headers "x-swiftstack-last-byte-latency" VNone;
       "trans_id" := dict_get resp_headers "x-trans-id" VNone ]}
    st.

(** What a handler leaves: its outcome, the job dict it was given (a
    handler may assign to its keys, and the caller holds the same dict) and
    the state. *)
Definition Handled : Type := Outcome unit * PyDict * State.

(** A handler ends with the call [done], holding the dict [object_info]. *)
Definition ends_with (done : Outcome unit * State) (object_info : PyDict) : Handled :=
  (done.1, object_info, done.2).

Definition handle_noop (self : Worker) (object_info : PyDict) (st : State) : Handled :=
  ends_with
    (put_results self [object_info]
       {[ "first_byte_latency" := VFloat float_zero;
          "last_byte_latency" := VFloat float_zero;
          "trans_id" := VNone ]}
       st)
    object_info.

Definition handle_upload_object (self : Worker) (object_info : PyDict) (letter : string)
  (st : State) : Handled :=
  match object_info !! "size" with
  | None => (Raise (KeyError (VStr "size")), object_info, st)
  | Some v =>
      match py_int v with
      | inl e => (Raise e, object_info, st)
      | inr n =>
          let object_info := <["size" := VInt n]> object_info in
          match
            ignoring_http_responses self [503] put_object object_info
              {[ "content_length" := AVal (VInt n);
                 "contents" := AReader (Reader.init letter n) ]} st
          with
          | (Return headers, st1) =>
              ends_with (_put_results_from_response self object_info headers st1)
                object_info
          | (Raise e, st1) => (Raise e, object_info, st1)
          | (Blocked, st1) => (Blocked, object_info, st1)
          end
      end
  end.

(** The default of the parameter [letter]. *)
Definition upload_letter : string := "A".

Definition handle_update_object (self : Worker) (object_info : PyDict) (st : State)
  : Handled :=
  handle_upload_object self object_info "B" st.

Definition handle_delete_object (self : Worker) (object_info : PyDict) (st : State)
  : Handled :=
  match ignoring_http_responses self [404; 503] delete_object object_info ∅ st with
  | (Return headers, st1) =>
      ends_with (_put_results_from_response self object_info headers st1) object_info
  | (Raise e, st1) => (Raise e, object_info, st1)
  | (Blocked, st1) => (Blocked, object_info, st1)
  end.

Definition handle_get_object (self : Worker) (object_info : PyDict) (st : State)
  : Handled :=
  match
    ignoring_http_responses self [404; 503] get_object object_info
      {[ "resp_chunk_size" := AVal (VInt (2 ^ 16)); "toss_body" := AVal (VBool true) ]} st
  with
  | (Return (headers, body_iter), st1) =>
      ends_with (_put_results_from_response self object_info headers st1) object_info
  | (Raise e, st1) => (Raise e, object_info, st1)
  | (Blocked, st1) => (Blocked, object_info, st1)
  end.

(** *** [Worker.handle_job] *)

(** The attributes of a worker whose name starts with [handle_]. *)
Inductive Handler :=
| HJob
| HNoop
| HUploadObject
| HUpdateObject
| HDeleteObject
| HGetObject.

(** [getattr(self, name, None)] for a name that starts with [handle_]. *)
Definition getattr_handler (name : string) : option Handler :=
  if String.eqb name "handle_job" then Some HJob
  else if String.eqb name "handle_noop" then Some HNoop
  else if String.eqb name "handle_upload_object" then Some HUploadObject
  else if String.eqb name "handle_update_object" then Some HUpdateObject
  else if String.eqb name "handle_delete_object" then Some HDeleteObject
  else if String.eqb name "handle_get_object" then Some HGetObject
  else None.

(** [getattr(self, 'handle_%s' % type, None)].  For a type that is not a
    string, [%s] prints [None], [True], [False] or a number, and no
    attribute has such a name. *)
Definition resolve_handler (type : PyVal) : option Handler :=
  match type with
  | VStr s => getattr_handler ("handle_" +:+ s)
  | _ => None
  end.

(** [handler(job_data)]; [handle_job] stands for the worker's own
    [handle_job], which the type [job] names. *)
Definition call_handler (handle_job : PyDict -> State -> Handled) (self : Worker)
  (handler : Handler) (job_data : PyDict) (st : State) : Handled :=
  match handler with
  | HJob => handle_job job_data st
  | HNoop => handle_noop self job_data st
  | HUploadObject => handle_upload_object self job_data upload_letter st
  | HUpdateObject => handle_update_object self job_data st
  | HDeleteObject => handle_delete_object self job_data st
  | HGetObject => handle_get_object self job_data st
  end.

(** The handler [handle_job] picks: [inl e] when picking raises, [inr None]
    when no attribute has the name. *)
Definition pick_handler (job_data : PyDict) : PyExc + option Handler :=
  if truthy (dict_get job_data "noop" (VBool false)) then inr (Some HNoop)
  else
    match job_data !! "type" with
    | None => inl (KeyError (VStr "type"))
    | Some type => inr (resolve_handler type)
    end.

Definition unknown_job_type (job_data : PyDict) : PyExc :=
  NameError ("Unknown job type " +:+ repr_val (dict_get job_data "type" VNone)).

(** The body of [handle_job], with [handle_job] itself as a parameter for
    the call it may make to itself. *)
Definition handle_job_body (handle_job : PyDict -> State -> Handled) (self : Worker)
  (job_data : PyDict) (st : State) : Handled :=
  match pick_handler job_data with
  | inl e => (Raise e, job_data, st)
  | inr None => (Raise (unknown_job_type job_data), job_data, st)
  | inr (Some handler) =>
      match call_handler handle_job self handler job_data st with
      | (Raise e, job_data1, st1) =>
          ends_with
            (put_results self [job_data1]
               {[ "exception" := VStr (repr_exc e);
                  "traceback" := VStr (format_exc e) ]}
               st1)
            job_data1
      | handled => handled
      end
  end.

(** [handle_job] with [depth] frames left on the interpreter's stack: a
    call that finds none left raises [RuntimeError]. *)
Fixpoint handle_job_at (depth : nat) (self : Worker) (job_data : PyDict) (st : State)
  : Handled :=
  match depth with
  | O => (Raise (RuntimeError "maximum recursion depth exceeded"), job_data, st)
  | S depth' => handle_job_body (handle_job_at depth' self) self job_data st
  end.

(** [sys.getrecursionlimit()] *)
Definition recursion_limit : nat := 1000.

Definition handle_job (self : Worker) (job_data : PyDict) (st : State) : Handled :=
  handle_job_at recursion_limit self job_data st.

(** The call [handler(job_data)] that [handle_job] makes. *)
Definition run_handler (self : Worker) (handler : Handler) (job_data : PyDict) (st : State)
  : Handled :=
  call_handler (handle_job_at (Nat.pred recursion_limit) self) self handler job_data st.

(** *** [Worker.go] *)

(** Lines 142 to 147: the pool of the job's endpoint is created when the
    endpoint is not yet a key of [conn_pools]. *)
Definition ensure_pool (self : Worker) (job_data : PyDict) (st : State)
  : Outcome unit * State :=
  match job_data !! "storage_url" with
  | None => (Raise (KeyError (VStr "storage_url")), st)
  | Some storage_url =>
      match conn_pools st !! storage_url with
      | Some _ => (Return tt, st)
      | None =>
          match
            ConnectionPool_init (http_connection storage_url) (concurrency self) (outside st)
          with
          | (Return pool, w) => (Return tt, set_pool storage_url pool (set_outside w st))
          | (Raise e, w) => (Raise e, set_outside w st)
          | (Blocked, w) => (Blocked, set_outside w st)
          end
      end
  end.

(** [pool.spawn(self.handle_job, job_data)] in the schedule where the task
    runs to its end before [go] receives the next message.  A pool of size
    zero never starts a task; a task that ends with an exception, or that
    waits for ever, leaves [go] running. *)
Definition spawn_handle_job (self : Worker) (job_data : PyDict) (st : State)
  : Outcome unit * State :=
  if concurrency self =? 0 then (Blocked, st)
  else (Return tt, snd (handle_job self job_data st)).

(** The arguments of the [logging.debug] call that opens the loop body. *)
Definition logged_keys (job_data : PyDict) : option PyExc :=
  match job_data !! "type", job_data !! "container", job_data !! "name" with
  | None, _, _ => Some (KeyError (VStr "type"))
  | _, None, _ => Some (KeyError (VStr "container"))
  | _, _, None => Some (KeyError (VStr "name"))
  | _, _, _ => None
  end.

(** One turn of the [while job:] loop, for a message that is not empty. *)
Definition go_step (self : Worker) (job : string) (st : State) : Outcome unit * State :=
  match msgpack_loads job with
  | inl e => (Raise e, st)
  | inr job_data =>
      match logged_keys job_data with
      | Some e => (Raise e, st)
      | None =>
          match ensure_pool self job_data st with
          | (Return _, st1) => spawn_handle_job self job_data st1
          | failed => failed
          end
      end
  end.

(** The [while job:] loop over the messages the work socket delivers, in
    order.  An empty message ends it; when the messages run out, [recv]
    waits. *)
Fixpoint go_loop (self : Worker) (inbox : list string) (st : State) : Outcome unit * State :=
  match inbox with
  | [] => (Blocked, st)
  | job :: inbox' =>
      if String.eqb job "" then (Return tt, st)
      else
        match go_step self job st with
        | (Return _, st1) => go_loop self inbox' st1
        | failed => failed
        end
  end.

(** *** Tasks sharing a pool

    The steps that concurrent tasks take on the pool of one endpoint, in the
    order the scheduler runs them: a task enters the connection context, a
    task leaves it (with the connection it borrowed and the way its body
    ended), or the collaborators change the world in between. *)
Inductive PoolEvent :=
| Enters
| Leaves (hc : Conn) (how : BodyExit)
| Elsewhere (w : World).

(** The state after the steps, with the number of tasks inside the context;
    [None] when a step cannot be taken there: the task would wait or raise,
    or no task is inside to leave. *)
Fixpoint run_events (storage_url : PyVal) (events : list PoolEvent) (st : State)
  (inside : nat) : option (State * nat) :=
  match events with
  | [] => Some (st, inside)
  | Enters :: events' =>
      match connection_enter storage_url st with
      | (Return _, st1) => run_events storage_url events' st1 (S inside)
      | _ => None
      end
  | Leaves hc how :: events' =>
      match inside with
      | O => None
      | S inside' =>
          match connection_exit storage_url hc how st with
          | (Return _, st1) => run_events storage_url events' st1 inside'
          | _ => None
          end
      end
  | Elsewhere w :: events' => run_events storage_url events' (set_outside w st) inside
  end.

(** [go]: [gevent.pool.Pool(self.concurrency)] refuses a negative size. *)
Definition go (self : Worker) (inbox : list string) (st : State) : Outcome unit * State :=
  if concurrency self <? 0 then (Raise (ValueError "invalid size for pool"), st)
  else go_loop self inbox st.

End Model.

Arguments Handled : clear implicits.
Arguments PoolEvent : clear implicits.

(** ** The rest of the module *)

(** [ChunkedReader.__eq__]: a bool for another reader, and [None] (the
    method reaches its end without a [return]) for any other object. *)
Definition ChunkedReader_eq (self : ChunkedReader) (other_reader : ArgVal) : option bool :=
  match other_reader with
  | AReader other =>
      Some (bool_decide (size self = size other)
            && bool_decide (letter self = letter other))
  | AVal _ => None
  end.

(** *** [Worker._result_writer]

    The result queue as its two ends see it: the encoded results waiting in
    it, oldest first, and those the writer has sent on the results socket,
    in the order it sent them. *)
Record Channel := mkChannel {
  pending : list string;
  sent : list string
}.

(** [self.result_queue.put(r)]: the queue has no bound. *)
Definition channel_put (r : string) (ch : Channel) : Channel :=
  {| pending := pending ch ++ [r]; sent := sent ch |}.

(** One turn of the [while True] loop of [_result_writer]:
    [result = self.result_queue.get()], then [self.results_push.send(result)].
    [None] when the queue is empty and [get] waits. *)
Definition writer_turn (ch : Channel) : option Channel :=
  match pending ch with
  | [] => None
  | result :: rest => Some {| pending := rest; sent := sent ch ++ [result] |}
  end.

(** What the scheduler lets happen to the queue: a handler puts a result,
    or the writer is given a turn (which changes nothing while it waits). *)
Inductive ChannelEvent :=
| Puts (r : string)
| WriterRuns.

Fixpoint run_channel (events : list ChannelEvent) (ch : Channel) : Channel :=
  match events with
  | [] => ch
  | Puts r :: events' => run_channel events' (channel_put r ch)
  | WriterRuns :: events' =>
      match writer_turn ch with
      | Some ch1 => run_channel events' ch1
      | None => run_channel events' ch
      end
  end.

(** The results put by the events, in order. *)
Fixpoint puts_of (events : list ChannelEvent) : list string :=
  match events with
  | [] => []
  | Puts r :: events' => r :: puts_of events'
  | WriterRuns :: events' => puts_of events'
  end.

(** *** Statements about the result queue *)

Section QueueStatements.

Context {World Conn : Type}.

(** What a call leaves in the result queue, by its outcome: one more
    record when it returns, nothing new otherwise. *)
Definition queue_grows_on_return (st : State World Conn) (handled : Handled World Conn)
  : Prop :=
  match handled with
  | (Return _, _, st1) => exists r, result_queue st1 = result_queue st ++ [r]
  | (_, _, st1) => result_queue st1 = result_queue st
  end.

End QueueStatements.

(** *** Statements about runs *)

Section RunStatements.

Context {World Conn : Type} {env : Collaborators World Conn}.

(** Every pool that was made can be borrowed from and given back to. *)
Definition all_pools_ready (st : State World Conn) : Prop :=
  forall storage_url, is_Some (conn_pools st !! storage_url) ->
    pool_ready storage_url st = true.

(** A storage function whose calls always end, by a return or an
    exception. *)
Definition comes_back {R : Type} (fn : StorageFn World Conn R) : Prop :=
  forall conn args w, (fn_call fn conn args w).1 <> Blocked.

(** The job names a handler, or is marked as a no-op. *)
Definition has_handler (job_data : PyDict) : bool :=
  match pick_handler job_data with
  | inr (Some _) => true
  | _ => false
  end.

(** A message that [go] takes up to the start of its job: it is not the
    empty message, it decodes to a job, and the job has the keys that [go]
    reads. *)
Definition accepted (job : string) (job_data : PyDict) : Prop :=
  job <> ""%string /\ msgpack_loads job = inr job_data
  /\ logged_keys job_data = None /\ is_Some (job_data !! "storage_url").

(** The pools of [before] are pools of [after], with the factory and the
    capacity they had. *)
Definition pools_kept (before after : gmap PyVal (ConnectionPool World Conn)) : Prop :=
  forall storage_url pool, before !! storage_url = Some pool ->
    exists pool1, after !! storage_url = Some pool1
                  /\ create pool1 = create pool /\ maxsize pool1 = maxsize pool.

(** The statuses a handler passes to [ignoring_http_responses]. *)
Definition retried_statuses (handler : Handler) : list Z :=
  match handler with
  | HUploadObject | HUpdateObject => [503]
  | HDeleteObject | HGetObject => [404; 503]
  | HNoop | HJob => []
  end.

(** Every call of the storage function that the handler uses raises [e]. *)
Definition storage_always_raises (handler : Handler) (e : PyExc) : Prop :=
  match handler with
  | HUploadObject | HUpdateObject =>
      forall conn args w, (fn_call put_object conn args w).1 = Raise e
  | HDeleteObject => forall conn args w, (fn_call delete_object conn args w).1 = Raise e
  | HGetObject => forall conn args w, (fn_call get_object conn args w).1 = Raise e
  | HNoop | HJob => False
  end.

(** The encoder takes every dict whose values msgpack can carry. *)
Definition encoder_takes_packable : Prop :=
  forall d : PyDict, packable_dict d -> exists encoded, msgpack_dumps d = inr encoded.

(** A job that msgpack can carry back: its values as they came, and its
    [size] as [int] converts it. *)
Definition job_fits (job_data : PyDict) : Prop :=
  packable_dict job_data
  /\ forall v n, job_data !! "size" = Some v -> py_int v = inr n ->
       packable (VInt n) = true.

(** The storage function that the handler uses, called on [conn] with
    [args] in the world [w], returns the response headers [resp_headers]
    and leaves the world [w1]. *)
Definition storage_answers (handler : Handler) (conn : Conn) (args : gmap string ArgVal)
  (w : World) (resp_headers : PyDict) (w1 : World) : Prop :=
  match handler with
  | HUploadObject | HUpdateObject =>
      fn_call put_object conn args w = (Return resp_headers, w1)
  | HDeleteObject => fn_call delete_object conn args w = (Return resp_headers, w1)
  | HGetObject =>
      exists body_iter, fn_call get_object conn args w = (Return (resp_headers, body_iter), w1)
  | HNoop | HJob => False
  end.

(** The arguments name the object of the job. *)
Definition names_object (args : gmap string ArgVal) (job_data : PyDict) : Prop :=
  args !! "url" = AVal <$> job_data !! "storage_url"
  /\ args !! "token" = AVal <$> job_data !! "token"
  /\ args !! "container" = AVal <$> job_data !! "container"
  /\ args !! "name" = AVal <$> job_data !! "name".

End RunStatements.

(** ** An example environment

    A small world for running the model on concrete inputs: connections are
    numbered as they are opened, closing records the connection, the clock
    ticks once per reading, and the storage functions answer their [k]-th
    call (counted together, from zero) with [script k]. *)

Module Example.

Record World := mkWorld {
  opened : nat;
  closed : list nat;
  clock : Z;
  served : nat
}.

Definition open_connection (url : PyVal) (w : World) : nat * World :=
  (opened w,
   {| opened := S (opened w); closed := closed w; clock := clock w; served := served w |}).

Definition close_connection (hc : nat) (w : World) : option PyExc * World :=
  (None,
   {| opened := opened w; closed := closed w ++ [hc]; clock := clock w;
      served := served w |}).

Definition read_clock (w : World) : Z * World :=
  (clock w,
   {| opened := opened w; closed := closed w; clock := clock w + 1; served := served w |}).

Definition serve {R : Type} (answer : nat -> Outcome R) (w : World) : Outcome R * World :=
  (answer (served w),
   {| opened := opened w; closed := closed w; clock := clock w; served := S (served w) |}).

Definition scripted (name : string) (script : nat -> Outcome PyDict)
  : StorageFn World nat PyDict :=
  {| fn_repr := name; fn_call := fun _ _ => serve script |}.

Definition with_body (o : Outcome PyDict) : Outcome (PyDict * string) :=
  match o with
  | Return headers => Return (headers, ""%string)
  | Raise e => Raise e
  | Blocked => Blocked
  end.

Definition scripted_get (script : nat -> Outcome PyDict)
  : StorageFn World nat (PyDict * string) :=
  {| fn_repr := "<function get_object>";
     fn_call := fun _ _ => serve (fun k => with_body (script k)) |}.

Definition show_val (v : PyVal) : string :=
  match v with
  | VNone => "None"
  | VBool true => "True"
  | VBool false => "False"
  | VInt n => pretty n
  | VFloat bits => "float:" +:+ pretty bits
  | VStr s => "'" +:+ s +:+ "'"
  end.

Definition show_exc (e : PyExc) : string :=
  match e with
  | SocketError msg => "error(" +:+ msg +:+ ")"
  | ClientException msg status => "ClientException(" +:+ msg +:+ ")"
  | CannotSendRequest msg => "CannotSendRequest(" +:+ msg +:+ ")"
  | HTTPConnectionClosed msg => "HTTPConnectionClosed(" +:+ msg +:+ ")"
  | KeyError key => "KeyError(" +:+ show_val key +:+ ",)"
  | NameError msg => "NameError(" +:+ msg +:+ ")"
  | ValueError msg => "ValueError(" +:+ msg +:+ ")"
  | RuntimeError msg => "RuntimeError(" +:+ msg +:+ ")"
  | Exception_ msg => "Exception(" +:+ msg +:+ ")"
  | OtherException class_name msg => class_name +:+ "(" +:+ msg +:+ ")"
  end.

Definition show_dict (d : PyDict) : string :=
  String.concat ", " ((fun kv => "'" +:+ kv.1 +:+ "': " +:+ show_val kv.2) <$> map_to_list d).

(** [msgpack.dumps]: an integer outside 64 bits is refused. *)
Definition pack (d : PyDict) : PyExc + string :=
  if bool_decide (packable_dict d) then inr (show_dict d)
  else inl (OtherException "OverflowError" "Integer value out of range").

(** [int(s)] for a string: blanks around the number and after its sign are
    skipped, and the digits are decimal. *)
Definition is_space (c : ascii) : bool :=
  bool_decide (N_of_ascii c ∈ [32; 9; 10; 11; 12; 13]%N).

Fixpoint lstrip (s : string) : string :=
  match s with
  | String c s' => if is_space c then lstrip s' else s
  | EmptyString => EmptyString
  end.

Fixpoint rstrip (s : string) : string :=
  match s with
  | String c s' =>
      match rstrip s' with
      | EmptyString => if is_space c then EmptyString else String c EmptyString
      | rest => String c rest
      end
  | EmptyString => EmptyString
  end.

Fixpoint digits_value (acc : Z) (s : string) : option Z :=
  match s with
  | EmptyString => Some acc
  | String c s' =>
      let d := Z.of_N (N_of_ascii c) - 48 in
      if (0 <=? d) && (d <=? 9) then digits_value (10 * acc + d) s' else None
  end.

Definition number_value (s : string) : option Z :=
  match s with
  | EmptyString => None
  | _ => digits_value 0 s
  end.

Definition parse_int (s : string) : option Z :=
  match rstrip (lstrip s) with
  | String "-" digits => Z.opp <$> number_value (lstrip digits)
  | String "+" digits => number_value (lstrip digits)
  | digits => number_value digits
  end.

(** [int(x)] for a float given by its bits: the value with its fraction
    dropped; an infinity and a NaN are refused. *)
Definition float_to_int (bits : Z) : PyExc + Z :=
  let negative := Z.testbit bits 63 in
  let exponent := Z.land (Z.shiftr bits 52) (2 ^ 11 - 1) in
  let fraction := Z.land bits (2 ^ 52 - 1) in
  if exponent =? 2 ^ 11 - 1 then
    if fraction =? 0
    then inl (OtherException "OverflowError" "cannot convert float infinity to integer")
    else inl (ValueError "cannot convert float NaN to integer")
  else
    let magnitude :=
      if exponent =? 0 then 0
      else Z.shiftl (2 ^ 52 + fraction) (exponent - 1075) in
    inr (if negative then - magnitude else magnitude).

Definition to_int (v : PyVal) : PyExc + Z :=
  match v with
  | VInt n => inr n
  | VBool b => inr (if b then 1 else 0)
  | VFloat bits => float_to_int bits
  | VStr s =>
      match parse_int s with
      | Some n => inr n
      | None =>
          inl (ValueError ("invalid literal for int() with base 10: " +:+ show_val (VStr s)))
      end
  | VNone =>
      inl (OtherException "TypeError"
             "int() argument must be a string or a number, not 'NoneType'")
  end.

(** The environment: the storage functions follow [script], and a message
    decodes to the dict [decode] gives for it. *)
Definition env (script : nat -> Outcome PyDict) (decode : string -> PyExc + PyDict)
  : Collaborators World nat :=
  {| http_connection := open_connection;
     conn_close := close_connection;
     put_object := scripted "<function put_object>" script;
     delete_object := scripted "<function delete_object>" script;
     get_object := scripted_get script;
     time_time := read_clock;
     msgpack_dumps := pack;
     msgpack_loads := decode;
     py_int := to_int;
     repr_val := show_val;
     repr_exc := show_exc;
     format_exc := fun e => "Traceback (most recent call last): " +:+ show_exc e |}.

Definition no_messages (s : string) : PyExc + PyDict := inl (ValueError "unpack failed").

Definition world0 : World := {| opened := 2; closed := []; clock := 100; served := 0 |}.

Definition url : PyVal := VStr "http://storage/v1/AUTH_test".

(** A state with one pool for [url], holding the connections [conns]. *)
Definition state_with_pool (capacity : Z) (conns : list nat) (w : World) : State World nat :=
  {| conn_pools := {[ url := {| create := open_connection url; maxsize := capacity;
                                queue := conns |} ]};
     result_queue := [];
     outside := w;
     fn_calls := 0 |}.

Definition empty_state (w : World) : State World nat :=
  {| conn_pools := ∅; result_queue := []; outside := w; fn_calls := 0 |}.

Definition worker (retries : Z) : Worker :=
  {| worker_id := VInt 7; max_retries := retries; concurrency := 2 |}.

Definition job (type : string) : PyDict :=
  {[ "type" := VStr type; "storage_url" := url; "token" := VStr "tok";
     "container" := VStr "c"; "name" := VStr "obj"; "size" := VInt 1024 ]}.

Definition headers : PyDict :=
  {[ "x-trans-id" := VStr "tx1"; "x-swiftstack-first-byte-latency" := VFloat 11;
     "x-swiftstack-last-byte-latency" := VFloat 12 ]}.

(** Scripts: every call succeeds; every call answers an empty dict; the
    first call finds the connection broken and the others succeed; every
    call is refused with status 500. *)
Definition always_ok (k : nat) : Outcome PyDict := Return headers.
Definition always_empty (k : nat) : Outcome PyDict := Return ∅.
Definition broken_once (k : nat) : Outcome PyDict :=
  match k with
  | O => Raise (CannotSendRequest "")
  | S _ => Return headers
  end.
Definition always_500 (k : nat) : Outcome PyDict := Raise (ClientException "Object DELETE failed" 500).

Definition env_ok : Collaborators World nat := env always_ok no_messages.
Definition env_empty : Collaborators World nat := env always_empty no_messages.
Definition env_broken : Collaborators World nat := env broken_once no_messages.
Definition env_500 : Collaborators World nat := env always_500 no_messages.

(** A pool of capacity two with its two connections, and the state that
    has it. *)
Definition pool0 : ConnectionPool World nat :=
  {| create := open_connection url; maxsize := 2; queue := [0%nat; 1%nat] |}.
Definition state0 : State World nat := state_with_pool 2 [0%nat; 1%nat] world0.

(** The arguments [ignoring_http_responses] builds for a delete job. *)
Definition delete_args : gmap string ArgVal :=
  ∅ ∪ {[ "url" := AVal url; "token" := AVal (VStr "tok");
         "container" := AVal (VStr "c"); "name" := AVal (VStr "obj") ]}.

(** More scripts: every call is refused at the socket; every call finds no
    such object; every call fails inside the client. *)
Definition always_refused (k : nat) : Outcome PyDict := Raise (SocketError "Connection refused").
Definition always_404 (k : nat) : Outcome PyDict := Raise (ClientException "Object DELETE failed" 404).
Definition always_crashes (k : nat) : Outcome PyDict := Raise (ValueError "bad header").

Definition env_refused : Collaborators World nat := env always_refused no_messages.
Definition env_404 : Collaborators World nat := env always_404 no_messages.
Definition env_crashes : Collaborators World nat := env always_crashes no_messages.

(** Every upload is refused with status 500. *)
Definition put_refused (k : nat) : Outcome PyDict :=
  Raise (ClientException "Object PUT failed" 500).
Definition env_put_refused : Collaborators World nat := env put_refused no_messages.

(** An upload job whose size is the decimal string of [2 ^ 64]. *)
Definition huge_upload : PyDict :=
  <["size" := VStr "18446744073709551616"]> (job "upload_object").

(** A message is the type of its job. *)
Definition decode_type (s : string) : PyExc + PyDict := inr (job s).
Definition env_intake : Collaborators World nat := env always_ok decode_type.

(** A message decodes to a job that has a type and nothing else. *)
Definition decode_bare (s : string) : PyExc + PyDict := inr {[ "type" := VStr s ]}.
Definition env_bare : Collaborators World nat := env always_ok decode_bare.

End Example.

(** * Properties *)

(** ** Strings and the payload reader *)

Lemma replicate_char_S (c : ascii) (m : nat) :
  PyStr.replicate (S m) (String c EmptyString)
  = String c (PyStr.replicate m (String c EmptyString)).
Proof. reflexivity. Qed.

Lemma take_replicate_char (c : ascii) (n m : nat) :
  PyStr.take n (PyStr.replicate m (String c EmptyString))
  = PyStr.replicate (n `min` m) (String c EmptyString).
Proof.
  revert m; induction n as [|n IH]; intros [|m]; try reflexivity.
  change (S n `min` S m)%nat with (S (n `min` m)).
  rewrite !replicate_char_S. cbn [PyStr.take]. now rewrite IH.
Qed.

Lemma slice_to_mul_char (c : ascii) (n m : Z) :
  0 <= n -> 0 <= m ->
  PyStr.slice_to (PyStr.mul (String c EmptyString) m) n
  = PyStr.mul (String c EmptyString) (Z.min n m).
Proof.
  intros Hn Hm. unfold PyStr.slice_to, PyStr.mul.
  destruct (Z.ltb_spec n 0) as [Hlt|_]; [lia|].
  rewrite take_replicate_char. f_equal. lia.
Qed.

Lemma read_all_reader (r : ChunkedReader) (sizes : list Z) :
  snd (Reader.read_all r sizes) = r.
Proof.
  induction sizes as [|n rest IH]; simpl; [reflexivity|].
  destruct (Reader.read_all r rest) as [datas r2]; simpl in *. exact IH.
Qed.

(** C10. A reader built with a one-character fill letter answers [read n],
    for [n >= 0], with [min n 2^21] copies of the letter and is left as it
    was; so the answer is the same for every constructed size and after any
    earlier reads. *)
Theorem chunked_reader_read (c : ascii) (sz n : Z) :
  0 <= n ->
  let fill := String c EmptyString in
  Reader.read (Reader.init fill sz) n
    = (PyStr.mul fill (Z.min n (2 ^ 21)), Reader.init fill sz)
  /\ (forall (sz' : Z) (earlier : list Z),
        fst (Reader.read (snd (Reader.read_all (Reader.init fill sz') earlier)) n)
        = fst (Reader.read (Reader.init fill sz) n)).
Proof.
  intros Hn fill.
  assert (Hread : forall s, Reader.read (Reader.init fill s) n
                            = (PyStr.mul fill (Z.min n (2 ^ 21)), Reader.init fill s)).
  { intros s. unfold Reader.read, Reader.init; cbn [chunk].
    unfold fill. rewrite slice_to_mul_char; [reflexivity | lia | ].
    unfold Reader.chunk_size. lia. }
  split; [apply Hread|].
  intros sz' earlier. rewrite read_all_reader, !Hread. reflexivity.
Qed.

Lemma chunked_reader_read_witness :
  0 <= 3 /\
  Reader.read (Reader.init "A" 10) 3 = ("AAA"%string, Reader.init "A" 10).
Proof.
  split; [lia|].
  exact (proj1 (chunked_reader_read "A"%char 10 3 ltac:(lia))).
Defined.

(** ** The connection context *)

Section ConnectionFacts.

Context {World Conn : Type} {env : Collaborators World Conn}.

#[local] Abbreviation State := (State World Conn).
#[local] Abbreviation ConnectionPool := (ConnectionPool World Conn).

Lemma pool_ready_inv (storage_url : PyVal) (st : State) :
  pool_ready storage_url st = true ->
  exists pool hc rest,
    conn_pools st !! storage_url = Some pool /\ queue pool = hc :: rest
    /\ Z.of_nat (List.length (queue pool)) <= maxsize pool.
Proof.
  unfold pool_ready. destruct (conn_pools st !! storage_url) as [pool|]; [|done].
  destruct (queue pool) as [|hc rest] eqn:Hq; [done|].
  intros Hle. exists pool, hc, rest. rewrite Hq. repeat split. lia.
Qed.

Lemma connection_enter_borrows (storage_url : PyVal) (st : State) pool hc rest :
  conn_pools st !! storage_url = Some pool -> queue pool = hc :: rest ->
  connection_enter storage_url st
  = (Return hc, set_pool storage_url (set_queue rest pool) st).
Proof.
  intros Hpool Hq. unfold connection_enter, pool_get. now rewrite Hpool, Hq.
Qed.

Lemma connection_finally_gives_back (storage_url : PyVal) (hc : Conn) (st : State) pool :
  conn_pools st !! storage_url = Some pool -> pool_full pool = false ->
  connection_finally storage_url hc st
  = (Return tt, set_pool storage_url (set_queue (queue pool ++ [hc]) pool) st).
Proof.
  intros Hpool Hroom. unfold connection_finally, pool_put. now rewrite Hpool, Hroom.
Qed.

(** The generator's second half gives exactly one connection back: the
    borrowed one, or a new one from the pool's factory after it closed a
    broken one. *)
Lemma connection_exit_gives_back (storage_url : PyVal) (hc : Conn) (how : BodyExit)
  (st : State) pool :
  conn_pools st !! storage_url = Some pool -> pool_full pool = false ->
  connection_exit storage_url hc how st
  = match how with
    | ExitNormally =>
        (Return false, set_pool storage_url (set_queue (queue pool ++ [hc]) pool) st)
    | ExitRaising e =>
        if is_broken_connection e then
          let w1 := (conn_close hc (outside st)).2 in
          let fresh := create pool w1 in
          (Return true,
           set_pool storage_url (set_queue (queue pool ++ [fresh.1]) pool)
             (set_outside fresh.2 st))
        else
          (Return false, set_pool storage_url (set_queue (queue pool ++ [hc]) pool) st)
    end.
Proof.
  intros Hpool Hroom. unfold connection_exit.
  destruct how as [|e].
  - now rewrite (connection_finally_gives_back _ _ _ pool).
  - destruct (is_broken_connection e).
    + destruct (conn_close hc (outside st)) as [closing w1]; cbn [snd].
      cbn [set_outside conn_pools outside]. rewrite Hpool.
      destruct (create pool w1) as [hc1 w2]; cbn [fst snd].
      now rewrite (connection_finally_gives_back _ _ _ pool).
    + now rewrite (connection_finally_gives_back _ _ _ pool).
Qed.

Lemma set_pool_twice (storage_url : PyVal) (p q : ConnectionPool) (st : State) :
  set_pool storage_url q (set_pool storage_url p st) = set_pool storage_url q st.
Proof.
  unfold set_pool, set_conn_pools; cbn. now rewrite insert_insert_eq.
Qed.

End ConnectionFacts.

Section ConnectionContext.

Context {World Conn : Type} {env : Collaborators World Conn}.

#[local] Abbreviation State := (State World Conn).
#[local] Abbreviation ConnectionPool := (ConnectionPool World Conn).

(** What the [with] statement does on a pool that holds a connection and
    no more than its capacity, around a body that leaves [conn_pools] alone,
    by the ways the body can end. *)
Lemma with_connection_ways_out {R : Type} (storage_url : PyVal)
  (body : Conn -> State -> Outcome R * State) (st : State)
  (pool : ConnectionPool) (hc : Conn) (rest : list Conn) :
  conn_pools st !! storage_url = Some pool ->
  queue pool = hc :: rest ->
  Z.of_nat (List.length (queue pool)) <= maxsize pool ->
  (forall c s, conn_pools (body c s).2 = conn_pools s) ->
  let st1 := set_pool storage_url (set_queue rest pool) st in
  let back := fun c s => set_pool storage_url (set_queue (rest ++ [c]) pool) s in
  match body hc st1 with
  | (Return r, st2) =>
      with_connection storage_url body st = (Return (Some r), back hc st2)
  | (Raise e, st2) =>
      if is_broken_connection e then
        let w1 := (conn_close hc (outside st2)).2 in
        let fresh := create pool w1 in
        with_connection storage_url body st
        = (Return None, back fresh.1 (set_outside fresh.2 st2))
      else with_connection storage_url body st = (Raise e, back hc st2)
  | (Blocked, st2) => with_connection storage_url body st = (Blocked, st2)
  end.
Proof.
  intros Hpool Hq Hcap Hframe st1 back.
  assert (Hpool2 : forall st2, conn_pools st2 = conn_pools st1 ->
            conn_pools st2 !! storage_url = Some (set_queue rest pool)).
  { intros st2 ->. unfold st1, set_pool, set_conn_pools; cbn.
    apply lookup_insert_eq. }
  assert (Hroom : pool_full (set_queue rest pool) = false).
  { unfold pool_full; cbn. rewrite Hq in Hcap; cbn [List.length] in Hcap.
    apply andb_false_iff. right. apply Z.leb_gt. lia. }
  unfold with_connection.
  rewrite (connection_enter_borrows _ _ pool hc rest Hpool Hq). fold st1.
  pose proof (Hframe hc st1) as Hf.
  destruct (body hc st1) as [[r|e|] st2]; cbn [snd] in Hf.
  - rewrite (connection_exit_gives_back _ _ _ _ _ (Hpool2 _ Hf) Hroom).
    reflexivity.
  - rewrite (connection_exit_gives_back _ _ _ _ _ (Hpool2 _ Hf) Hroom).
    destruct (is_broken_connection e); reflexivity.
  - reflexivity.
Qed.

(** C4. A use of the connection context on a pool that holds a connection
    and no more than its capacity, around a body that leaves [conn_pools]
    alone, borrows the oldest connection [hc] and gives exactly one
    connection back at the end of the queue on each way out: [hc] when the
    body returns, [hc] when the body raises another exception (which goes on
    to the caller), and, when the body raises [CannotSendRequest] or
    [HTTPConnectionClosed], a connection made by the pool's factory after
    [hc.close()] (and the exception is swallowed).  So whenever the body
    ends, the pool has its capacity and as many connections as before. *)
Theorem connection_gives_one_back {R : Type} (storage_url : PyVal)
  (body : Conn -> State -> Outcome R * State) (st : State)
  (pool : ConnectionPool) (hc : Conn) (rest : list Conn) :
  conn_pools st !! storage_url = Some pool ->
  queue pool = hc :: rest ->
  Z.of_nat (List.length (queue pool)) <= maxsize pool ->
  (forall c s, conn_pools (body c s).2 = conn_pools s) ->
  let st1 := set_pool storage_url (set_queue rest pool) st in
  let back := fun c s => set_pool storage_url (set_queue (rest ++ [c]) pool) s in
  match body hc st1 with
  | (Return r, st2) =>
      with_connection storage_url body st = (Return (Some r), back hc st2)
  | (Raise e, st2) =>
      if is_broken_connection e then
        let w1 := (conn_close hc (outside st2)).2 in
        let fresh := create pool w1 in
        with_connection storage_url body st
        = (Return None, back fresh.1 (set_outside fresh.2 st2))
      else with_connection storage_url body st = (Raise e, back hc st2)
  | (Blocked, st2) => with_connection storage_url body st = (Blocked, st2)
  end
  /\ ((body hc st1).1 <> Blocked ->
      exists pool1,
        conn_pools (with_connection storage_url body st).2 !! storage_url = Some pool1
        /\ maxsize pool1 = maxsize pool
        /\ List.length (queue pool1) = List.length (queue pool)).
Proof.
  intros Hpool Hq Hcap Hframe st1 back.
  pose proof (with_connection_ways_out storage_url body st pool hc rest
                Hpool Hq Hcap Hframe) as Hmain.
  cbn zeta in Hmain. fold st1 in Hmain. fold back in Hmain.
  split; [exact Hmain|].
  intros Hends.
  assert (Hback : forall c s, conn_pools (back c s) !! storage_url
                              = Some (set_queue (rest ++ [c]) pool)).
  { intros c s. unfold back, set_pool, set_conn_pools; cbn. apply lookup_insert_eq. }
  assert (Hlen : forall c : Conn, List.length (rest ++ [c]) = List.length (queue pool)).
  { intros c. rewrite Hq, length_app; cbn. lia. }
  destruct (body hc st1) as [[r|e|] st2]; cbn [fst] in Hends.
  - rewrite Hmain; cbn [snd]. eexists; split; [apply Hback|]. split; [reflexivity|apply Hlen].
  - destruct (is_broken_connection e); rewrite Hmain; cbn [snd];
      (eexists; split; [apply Hback|]; split; [reflexivity|apply Hlen]).
  - contradiction.
Qed.

End ConnectionContext.

(** ** The retry loop *)

Section RetryLoop.

Context {World Conn : Type} {env : Collaborators World Conn}.
Context {R : Type} {truthy_R : Truthy R}.

#[local] Abbreviation State := (State World Conn).
#[local] Abbreviation ConnectionPool := (ConnectionPool World Conn).

(** One turn of the loop, by the ways its [try] block can end. *)
Lemma retry_loop_step (self : Worker) (statuses : list Z) (fn : StorageFn World Conn R)
  (call_info : PyDict) (args : gmap string ArgVal) (tries : Z) (st : State) :
  retry_loop self statuses fn call_info args tries st
  = match attempt fn call_info args st with
    | (Return fn_results, st1) =>
        match results_truth fn_results with
        | Some r => (Return r, st1)
        | None =>
            if decide (tries + 1 > max_retries self)
            then (Raise (Exception_ (no_results_message fn self)), st1)
            else retry_loop self statuses fn call_info args (tries + 1) st1
        end
    | (Raise e, st1) =>
        match e with
        | SocketError _ =>
            if decide (tries + 1 > max_retries self) then (Raise e, st1)
            else retry_loop self statuses fn call_info args (tries + 1) st1
        | ClientException _ http_status =>
            if decide (http_status ∈ statuses /\ tries + 1 <= max_retries self)
            then retry_loop self statuses fn call_info args (tries + 1) st1
            else (Raise e, st1)
        | _ => (Raise e, st1)
        end
    | (Blocked, st1) => (Blocked, st1)
    end.
Proof.
  rewrite retry_loop_unfold_eq. unfold retry_loop_unfold.
  destruct (attempt fn call_info args st) as [[fn_results|e|] st1]; simpl.
  - destruct (results_truth fn_results); simpl; [reflexivity|].
    destruct (decide (tries + 1 > max_retries self)); reflexivity.
  - destruct e; simpl; try reflexivity.
    + destruct (decide (tries + 1 > max_retries self)); reflexivity.
    + destruct (decide (http_status ∈ statuses /\ tries + 1 <= max_retries self));
        reflexivity.
  - reflexivity.
Qed.

(** A rule for the loop: an invariant on [tries] and the state that each
    turn either keeps or leaves with the postcondition. *)
Lemma retry_loop_rule (self : Worker) (statuses : list Z) (fn : StorageFn World Conn R)
  (call_info : PyDict) (args : gmap string ArgVal)
  (Inv : Z -> State -> Prop) (Post : Outcome R * State -> Prop) :
  (forall tries s, Inv tries s ->
     match attempt fn call_info args s with
     | (Return fn_results, s1) =>
         match results_truth fn_results with
         | Some r => Post (Return r, s1)
         | None =>
             if decide (tries + 1 > max_retries self)
             then Post (Raise (Exception_ (no_results_message fn self)), s1)
             else Inv (tries + 1) s1
         end
     | (Raise e, s1) =>
         match e with
         | SocketError _ =>
             if decide (tries + 1 > max_retries self) then Post (Raise e, s1)
             else Inv (tries + 1) s1
         | ClientException _ http_status =>
             if decide (http_status ∈ statuses /\ tries + 1 <= max_retries self)
             then Inv (tries + 1) s1
             else Post (Raise e, s1)
         | _ => Post (Raise e, s1)
         end
     | (Blocked, s1) => Post (Blocked, s1)
     end) ->
  forall (n : nat) (tries : Z) (st : State),
    (Z.to_nat (max_retries self + 1 - tries) <= n)%nat ->
    Inv tries st -> Post (retry_loop self statuses fn call_info args tries st).
Proof.
  intros Hturn. induction n as [|n IH]; intros tries st Hn HI;
    rewrite retry_loop_step; pose proof (Hturn tries st HI) as Hstep;
    destruct (attempt fn call_info args st) as [[fn_results|e|] st1]; try exact Hstep.
  - destruct (results_truth fn_results); [exact Hstep|].
    destruct (decide (tries + 1 > max_retries self)); [exact Hstep|lia].
  - destruct e; try exact Hstep.
    + destruct (decide (tries + 1 > max_retries self)); [exact Hstep|lia].
    + destruct (decide (http_status ∈ statuses /\ tries + 1 <= max_retries self));
        [lia|exact Hstep].
  - destruct (results_truth fn_results); [exact Hstep|].
    destruct (decide (tries + 1 > max_retries self)); [exact Hstep|].
    apply IH; [lia|exact Hstep].
  - destruct e; try exact Hstep.
    + destruct (decide (tries + 1 > max_retries self)); [exact Hstep|].
      apply IH; [lia|exact Hstep].
    + destruct (decide (http_status ∈ statuses /\ tries + 1 <= max_retries self));
        [|exact Hstep].
      apply IH; [lia|exact Hstep].
Qed.

(** An attempt that has a result leaves the world as the storage call that
    returned the result left it. *)
Lemma attempt_answer (fn : StorageFn World Conn R) (call_info : PyDict)
  (args : gmap string ArgVal) (st st1 : State) (r : R) :
  attempt fn call_info args st = (Return (Some r), st1) ->
  exists conn w, fn_call fn conn args w = (Return r, outside st1).
Proof.
  unfold attempt. destruct (call_info !! "storage_url") as [storage_url|]; [|discriminate].
  unfold with_connection, connection_enter.
  destruct (conn_pools st !! storage_url) as [pool|]; [|discriminate].
  destruct (pool_get pool) as [[hc pool1]|]; [|discriminate].
  unfold call_fn.
  destruct (fn_call fn hc args (outside (set_pool storage_url pool1 st)))
    as [[r0|e|] w] eqn:Hcall; [| |discriminate].
  - unfold connection_exit, connection_finally.
    destruct (conn_pools _ !! storage_url) as [pool2|]; [|discriminate].
    destruct (pool_put pool2 hc) as [pool3|]; [|discriminate].
    intros [= <- <-]. exists hc, (outside (set_pool storage_url pool1 st)). exact Hcall.
  - destruct (connection_exit storage_url hc (ExitRaising e) _) as [[[|]|e1|] st3];
      discriminate.
Qed.

(** The value the loop returns is true, and it is the answer of a call of
    the storage function with the arguments of the loop; nothing changed the
    world after that call. *)
Lemma retry_loop_answer (self : Worker) (statuses : list Z) (fn : StorageFn World Conn R)
  (call_info : PyDict) (args : gmap string ArgVal) (tries : Z) (st st1 : State) (r : R) :
  retry_loop self statuses fn call_info args tries st = (Return r, st1) ->
  truth r = true /\ exists conn w, fn_call fn conn args w = (Return r, outside st1).
Proof.
  pose (Post := fun out : Outcome R * State =>
          forall r st1, out = (Return r, st1) ->
            truth r = true /\ exists conn w, fn_call fn conn args w = (Return r, outside st1)).
  enough (Hpost : Post (retry_loop self statuses fn call_info args tries st))
    by (intros Hrun; exact (Hpost r st1 Hrun)).
  apply (retry_loop_rule self statuses fn call_info args (fun _ _ => True) Post)
    with (n := Z.to_nat (max_retries self + 1 - tries)); [|lia|exact I].
  intros t s _.
  destruct (attempt fn call_info args s) as [[fn_results|e|] s1] eqn:Hatt.
  - destruct fn_results as [r0|]; cbn [results_truth].
    + destruct (truth r0) eqn:Htruth.
      * intros r' st' [= <- <-]. split; [exact Htruth|].
        exact (attempt_answer _ _ _ _ _ _ Hatt).
      * destruct (decide (t + 1 > max_retries self)); [intros ? ? [=]|exact I].
    + destruct (decide (t + 1 > max_retries self)); [intros ? ? [=]|exact I].
  - destruct e; try (intros ? ? [=]).
    + destruct (decide (t + 1 > max_retries self)); [intros ? ? [=]|exact I].
    + destruct (decide (http_status ∈ statuses /\ t + 1 <= max_retries self));
        [exact I|intros ? ? [=]].
  - intros ? ? [=].
Qed.

Lemma ignoring_http_responses_answer (self : Worker) (statuses : list Z)
  (fn : StorageFn World Conn R) (call_info : PyDict) (extra_keys : gmap string ArgVal)
  (st st1 : State) (r : R) :
  ignoring_http_responses self statuses fn call_info extra_keys st = (Return r, st1) ->
  truth r = true
  /\ exists args conn w,
       call_args call_info extra_keys = inr args
       /\ fn_call fn conn args w = (Return r, outside st1).
Proof.
  unfold ignoring_http_responses.
  destruct (call_args call_info extra_keys) as [e|args]; [discriminate|].
  intros Hrun. destruct (retry_loop_answer _ _ _ _ _ _ _ _ _ Hrun) as (Ht & conn & w & Hc).
  split; [exact Ht|]. exists args, conn, w. split; [reflexivity|exact Hc].
Qed.

Lemma call_fn_frame (fn : StorageFn World Conn R) (args : gmap string ArgVal)
  (c : Conn) (s : State) :
  conn_pools (call_fn fn args c s).2 = conn_pools s.
Proof. unfold call_fn. destruct (fn_call fn c args (outside s)); reflexivity. Qed.

(** An attempt on a ready pool calls the storage function once, with the
    oldest connection of the pool, and leaves the pool ready unless the call
    never ends. *)
Lemma attempt_ready (fn : StorageFn World Conn R) (call_info : PyDict)
  (args : gmap string ArgVal) (st : State) (storage_url : PyVal) :
  call_info !! "storage_url" = Some storage_url ->
  pool_ready storage_url st = true ->
  exists pool hc rest st1,
    conn_pools st !! storage_url = Some pool /\ queue pool = hc :: rest
    /\ attempt fn call_info args st
       = (match (fn_call fn hc args (outside st)).1 with
          | Return r => Return (Some r)
          | Raise e => if is_broken_connection e then Return None else Raise e
          | Blocked => Blocked
          end, st1)
    /\ fn_calls st1 = S (fn_calls st)
    /\ result_queue st1 = result_queue st
    /\ ((fn_call fn hc args (outside st)).1 <> Blocked ->
        pool_ready storage_url st1 = true
        /\ exists c, conn_pools st1 = <[storage_url := set_queue (rest ++ [c]) pool]>
                                        (conn_pools st)).
Proof.
  intros Hurl Hready.
  destruct (pool_ready_inv _ _ Hready) as (pool & hc & rest & Hpool & Hq & Hcap).
  exists pool, hc, rest.
  pose proof (with_connection_ways_out storage_url (call_fn fn args) st pool hc rest
                Hpool Hq Hcap (call_fn_frame fn args)) as Hmain.
  cbn zeta in Hmain.
  unfold attempt. rewrite Hurl.
  assert (Hready1 : forall c (s : State),
            pool_ready storage_url (set_pool storage_url (set_queue (rest ++ [c]) pool) s)
            = true).
  { intros c s. unfold pool_ready, set_pool, set_conn_pools; cbn.
    rewrite lookup_insert_eq; cbn.
    destruct (rest ++ [c]) as [|x l] eqn:Hl; [destruct rest; discriminate|].
    rewrite <- Hl. apply Z.leb_le. rewrite Hq in Hcap. rewrite length_app.
    cbn [List.length] in *. lia. }
  assert (Hpools1 : forall c (s : State),
            conn_pools s = conn_pools (set_pool storage_url (set_queue rest pool) st) ->
            conn_pools (set_pool storage_url (set_queue (rest ++ [c]) pool) s)
            = <[storage_url := set_queue (rest ++ [c]) pool]> (conn_pools st)).
  { intros c s Hs. unfold set_pool, set_conn_pools in *; cbn in *.
    rewrite Hs. apply insert_insert_eq. }
  pose proof (call_fn_frame fn args hc (set_pool storage_url (set_queue rest pool) st))
    as Hframe.
  unfold call_fn in Hmain, Hframe. cbn [set_pool set_conn_pools outside] in Hmain, Hframe.
  destruct (fn_call fn hc args (outside st)) as [[r|e|] w]; cbn [fst snd] in *.
  - eexists; split; [done|]. split; [done|]. split; [exact Hmain|].
    split; [reflexivity|]. split; [reflexivity|]. intros _.
    split; [apply Hready1|]. exists hc. now apply Hpools1.
  - destruct (is_broken_connection e).
    + eexists; split; [done|]. split; [done|]. split; [exact Hmain|].
      split; [reflexivity|]. split; [reflexivity|]. intros _.
      split; [apply Hready1|]. eexists. now apply Hpools1.
    + eexists; split; [done|]. split; [done|]. split; [exact Hmain|].
      split; [reflexivity|]. split; [reflexivity|]. intros _.
      split; [apply Hready1|]. exists hc. now apply Hpools1.
  - eexists; split; [done|]. split; [done|]. split; [exact Hmain|].
    split; [reflexivity|]. split; [reflexivity|]. intros Hb. contradiction.
Qed.

(** A turn whose attempt leaves no usable result: an empty answer, or a
    broken connection that the context manager swallowed. *)
Lemma retry_loop_no_results (self : Worker) (statuses : list Z)
  (fn : StorageFn World Conn R) (call_info : PyDict) (args : gmap string ArgVal)
  (tries : Z) (st st1 : State) (fn_results : option R) :
  attempt fn call_info args st = (Return fn_results, st1) ->
  results_truth fn_results = None ->
  retry_loop self statuses fn call_info args tries st
  = if decide (tries + 1 > max_retries self)
    then (Raise (Exception_ (no_results_message fn self)), st1)
    else retry_loop self statuses fn call_info args (tries + 1) st1.
Proof. intros Hatt Hnone. rewrite retry_loop_step, Hatt, Hnone. reflexivity. Qed.

Section AlwaysEmpty.

Variables (self : Worker) (statuses : list Z) (fn : StorageFn World Conn R).
Variables (call_info : PyDict) (args : gmap string ArgVal) (storage_url : PyVal).
Hypothesis Hurl : call_info !! "storage_url" = Some storage_url.
Hypothesis Hempty : forall conn a w, exists r, (fn_call fn conn a w).1 = Return r /\ truth r = false.

Lemma empty_attempt (st : State) :
  pool_ready storage_url st = true ->
  exists st1 fn_results,
    attempt fn call_info args st = (Return fn_results, st1)
    /\ results_truth fn_results = None
    /\ pool_ready storage_url st1 = true
    /\ fn_calls st1 = S (fn_calls st).
Proof.
  intros Hready.
  destruct (attempt_ready fn call_info args st storage_url Hurl Hready)
    as (pool & hc & rest & st1 & _ & _ & Hatt & Hcalls & _ & Hnext).
  destruct (Hempty hc args (outside st)) as (r & Hr & Hfalse).
  rewrite Hr in Hatt, Hnext.
  exists st1, (Some r). split; [exact Hatt|].
  split; [unfold results_truth; now rewrite Hfalse|].
  split; [now apply Hnext|exact Hcalls].
Qed.

Lemma always_empty_exhausts (n : nat) :
  forall (tries : Z) (st : State),
    tries <= max_retries self -> n = Z.to_nat (max_retries self - tries) ->
    pool_ready storage_url st = true ->
    exists st',
      retry_loop self statuses fn call_info args tries st
      = (Raise (Exception_ (no_results_message fn self)), st')
      /\ fn_calls st' = (fn_calls st + n + 1)%nat.
Proof.
  induction n as [|n IH]; intros tries st Hle Hn Hready;
    destruct (empty_attempt st Hready) as (st1 & fr & Hatt & Hnone & Hready1 & Hcalls);
    rewrite (retry_loop_no_results _ _ _ _ _ _ _ _ _ Hatt Hnone);
    destruct (decide (tries + 1 > max_retries self)) as [Hgt|Hngt]; try lia.
  - exists st1. split; [reflexivity|lia].
  - destruct (IH (tries + 1) st1) as (st' & Hloop & Hcalls'); [lia|lia|exact Hready1|].
    exists st'. split; [exact Hloop|lia].
Qed.

Lemma always_empty_keeps_trying (k : nat) :
  forall (st : State),
    Z.of_nat k <= max_retries self ->
    pool_ready storage_url st = true ->
    exists st_k,
      retry_loop self statuses fn call_info args 0 st
      = retry_loop self statuses fn call_info args (Z.of_nat k) st_k
      /\ fn_calls st_k = (fn_calls st + k)%nat
      /\ pool_ready storage_url st_k = true.
Proof.
  induction k as [|k IH]; intros st Hle Hready.
  - exists st. split; [reflexivity|]. split; [lia|exact Hready].
  - destruct (IH st) as (st_k & Hloop & Hcalls & Hready_k); [lia|exact Hready|].
    destruct (empty_attempt st_k Hready_k) as (st1 & fr & Hatt & Hnone & Hready1 & Hcalls1).
    exists st1. rewrite Hloop, (retry_loop_no_results _ _ _ _ _ _ _ _ _ Hatt Hnone).
    destruct (decide (Z.of_nat k + 1 > max_retries self)) as [Hgt|Hngt]; [lia|].
    split; [f_equal; lia|]. split; [lia|exact Hready1].
Qed.

End AlwaysEmpty.

End RetryLoop.

Section RetryPolicy.

Context {World Conn : Type} {env : Collaborators World Conn}.
Context {R : Type} {truthy_R : Truthy R}.

#[local] Abbreviation State := (State World Conn).

(** C2. With [max_retries = N >= 0], a job that has its four keys and a
    ready pool, and a storage function that answers every call with a false
    (empty) value: [ignoring_http_responses] raises the exception
    [No fn_results ... after N retries] after exactly [N + 1] calls of the
    function; and for every [k <= N] the loop, after [k] calls, is still
    running, with [tries = k]: no earlier attempt raised. *)
Theorem empty_results_exhaust_retries (self : Worker) (statuses : list Z)
  (fn : StorageFn World Conn R) (call_info : PyDict) (extra_keys args : gmap string ArgVal)
  (storage_url : PyVal) (st : State) (N : Z) :
  max_retries self = N -> 0 <= N ->
  call_info !! "storage_url" = Some storage_url ->
  call_args call_info extra_keys = inr args ->
  pool_ready storage_url st = true ->
  (forall conn a w, exists r, (fn_call fn conn a w).1 = Return r /\ truth r = false) ->
  (exists st',
     ignoring_http_responses self statuses fn call_info extra_keys st
     = (Raise (Exception_ (no_results_message fn self)), st')
     /\ fn_calls st' = (fn_calls st + Z.to_nat N + 1)%nat)
  /\ (forall k : nat, Z.of_nat k <= N ->
      exists st_k,
        ignoring_http_responses self statuses fn call_info extra_keys st
        = retry_loop self statuses fn call_info args (Z.of_nat k) st_k
        /\ fn_calls st_k = (fn_calls st + k)%nat).
Proof.
  intros HN Hpos Hurl Hargs Hready Hempty.
  unfold ignoring_http_responses. rewrite Hargs. split.
  - destruct (always_empty_exhausts self statuses fn call_info args storage_url Hurl Hempty
                (Z.to_nat N) 0 st) as (st' & Hloop & Hcalls); [lia|f_equal; lia|exact Hready|].
    exists st'. split; [exact Hloop|exact Hcalls].
  - intros k Hk.
    destruct (always_empty_keeps_trying self statuses fn call_info args storage_url Hurl
                Hempty k st) as (st_k & Hloop & Hcalls & _); [lia|exact Hready|].
    exists st_k. split; [exact Hloop|exact Hcalls].
Qed.

(** C3. When an attempt ends with a [ClientException], the loop goes on to
    another attempt if and only if the exception's [http_status] is among
    [statuses] and [tries + 1 <= max_retries]; otherwise it raises that very
    exception.  So when the first call of the function raises a
    [ClientException] whose status is not among [statuses],
    [ignoring_http_responses] raises it after exactly one call. *)
Theorem client_error_retried_only_if_listed (self : Worker) (statuses : list Z)
  (fn : StorageFn World Conn R) (call_info : PyDict) (extra_keys args : gmap string ArgVal)
  (storage_url : PyVal) (st : State) :
  call_info !! "storage_url" = Some storage_url ->
  call_args call_info extra_keys = inr args ->
  pool_ready storage_url st = true ->
  (forall (tries : Z) (s s1 : State) (msg : string) (http_status : Z),
     attempt fn call_info args s = (Raise (ClientException msg http_status), s1) ->
     retry_loop self statuses fn call_info args tries s
     = if decide (http_status ∈ statuses /\ tries + 1 <= max_retries self)
       then retry_loop self statuses fn call_info args (tries + 1) s1
       else (Raise (ClientException msg http_status), s1))
  /\ (forall (msg : string) (http_status : Z),
       (forall conn, (fn_call fn conn args (outside st)).1
                     = Raise (ClientException msg http_status)) ->
       http_status ∉ statuses ->
       exists st',
         ignoring_http_responses self statuses fn call_info extra_keys st
         = (Raise (ClientException msg http_status), st')
         /\ fn_calls st' = S (fn_calls st)).
Proof.
  intros Hurl Hargs Hready. split.
  - intros tries s s1 msg http_status Hatt.
    rewrite retry_loop_step, Hatt. reflexivity.
  - intros msg http_status Hraise Hnot.
    destruct (attempt_ready fn call_info args st storage_url Hurl Hready)
      as (pool & hc & rest & st1 & _ & _ & Hatt & Hcalls & _ & _).
    rewrite (Hraise hc) in Hatt. cbn [is_broken_connection] in Hatt.
    exists st1. split; [|exact Hcalls].
    unfold ignoring_http_responses. rewrite Hargs, retry_loop_step, Hatt.
    destruct (decide (http_status ∈ statuses /\ 0 + 1 <= max_retries self)) as [[Hin _]|_];
      [contradiction|reflexivity].
Qed.

(** C6, as the code has it.  When the call made with the borrowed
    connection raises [CannotSendRequest] or [HTTPConnectionClosed], the
    [with] statement ends without an exception: the connection is closed, a
    new one from the pool's factory takes its place at the end of the queue,
    and no result is assigned.  The loop then treats the attempt as it
    treats an empty answer: it adds one to [tries], raises
    [No fn_results ...] when [tries] then exceeds [max_retries], and
    otherwise tries again. *)
Theorem broken_connection_is_a_failed_attempt (self : Worker) (statuses : list Z)
  (fn : StorageFn World Conn R) (call_info : PyDict) (args : gmap string ArgVal)
  (storage_url : PyVal) (tries : Z) (st : State) (e : PyExc) :
  call_info !! "storage_url" = Some storage_url ->
  pool_ready storage_url st = true ->
  (forall conn, (fn_call fn conn args (outside st)).1 = Raise e) ->
  is_broken_connection e = true ->
  exists pool hc rest st1,
    conn_pools st !! storage_url = Some pool /\ queue pool = hc :: rest
    /\ with_connection storage_url (call_fn fn args) st = (Return None, st1)
    /\ (let w1 := (conn_close hc (fn_call fn hc args (outside st)).2).2 in
        conn_pools st1 !! storage_url
        = Some (set_queue (rest ++ [(create pool w1).1]) pool))
    /\ retry_loop self statuses fn call_info args tries st
       = if decide (tries + 1 > max_retries self)
         then (Raise (Exception_ (no_results_message fn self)), st1)
         else retry_loop self statuses fn call_info args (tries + 1) st1.
Proof.
  intros Hurl Hready Hraise Hbroken.
  destruct (pool_ready_inv _ _ Hready) as (pool & hc & rest & Hpool & Hq & Hcap).
  pose proof (with_connection_ways_out storage_url (call_fn fn args) st pool hc rest
                Hpool Hq Hcap (call_fn_frame fn args)) as Hmain.
  cbn zeta in Hmain.
  pose proof (Hraise hc) as Hr.
  assert (Hbody : call_fn fn args hc (set_pool storage_url (set_queue rest pool) st)
                  = (Raise e, count_call (set_outside (fn_call fn hc args (outside st)).2
                                            (set_pool storage_url (set_queue rest pool) st)))).
  { unfold call_fn. cbn [set_pool set_conn_pools outside].
    destruct (fn_call fn hc args (outside st)) as [o w]; cbn [fst snd] in *. now subst o. }
  rewrite Hbody, Hbroken in Hmain.
  exists pool, hc, rest. eexists.
  split; [exact Hpool|]. split; [exact Hq|]. split; [exact Hmain|].
  split.
  { unfold set_pool, set_conn_pools; cbn. apply lookup_insert_eq. }
  apply retry_loop_no_results with (fn_results := None); [|reflexivity].
  unfold attempt. rewrite Hurl. exact Hmain.
Qed.

End RetryPolicy.

(** ** Results *)

Section Results.

Context {World Conn : Type} {env : Collaborators World Conn}.

#[local] Abbreviation State := (State World Conn).
#[local] Abbreviation Handled := (Handled World Conn).

(** The record [put_results] encodes, for keywords that leave the two
    stamps alone. *)
Lemma put_results_pushes (self : Worker) (args : list PyDict) (kwargs : PyDict) (st : State) :
  kwargs !! "completed_at" = None -> kwargs !! "worker_id" = None ->
  put_results self args kwargs st
  = match
      msgpack_dumps
        (add_dicts args
           ({[ "completed_at" := VFloat (time_time (outside st)).1;
               "worker_id" := worker_id self ]} ∪ kwargs))
    with
    | inl e => (Raise e, set_outside (time_time (outside st)).2 st)
    | inr encoded =>
        (Return tt, push_result encoded (set_outside (time_time (outside st)).2 st))
    end.
Proof.
  intros Hc Hw. unfold put_results. destruct (time_time (outside st)) as [now w].
  rewrite Hc, Hw. reflexivity.
Qed.

(** [put_results] reads the clock and then either queues the encoded record
    or raises, having queued nothing; it never waits. *)
Lemma put_results_cases (self : Worker) (args : list PyDict) (kwargs : PyDict) (st : State) :
  let st0 := set_outside (time_time (outside st)).2 st in
  (exists encoded,
     msgpack_dumps
       (add_dicts args
          ({[ "completed_at" := VFloat (time_time (outside st)).1;
              "worker_id" := worker_id self ]} ∪ kwargs)) = inr encoded
     /\ put_results self args kwargs st = (Return tt, push_result encoded st0))
  \/ (exists e, put_results self args kwargs st = (Raise e, st0)).
Proof.
  unfold put_results. destruct (time_time (outside st)) as [now w]; cbn [fst snd].
  destruct (kwargs !! "completed_at"); [right; eauto|].
  destruct (kwargs !! "worker_id"); [right; eauto|].
  destruct (msgpack_dumps _) as [e|encoded]; [right; eauto|left; eauto].
Qed.

(** The queue after [put_results], by its outcome. *)
Lemma put_results_queue (self : Worker) (args : list PyDict) (kwargs : PyDict) (st : State) :
  match put_results self args kwargs st with
  | (Return _, st1) =>
      exists encoded,
        msgpack_dumps
          (add_dicts args
             ({[ "completed_at" := VFloat (time_time (outside st)).1;
                 "worker_id" := worker_id self ]} ∪ kwargs)) = inr encoded
        /\ result_queue st1 = result_queue st ++ [encoded]
  | (Raise _, st1) => result_queue st1 = result_queue st
  | (Blocked, _) => False
  end.
Proof.
  destruct (put_results_cases self args kwargs st) as [(encoded & Hd & ->)|(e & ->)];
    [exists encoded; split; [exact Hd|reflexivity]|reflexivity].
Qed.

(** [put_results] touches neither the pools nor the count of storage
    calls. *)
Lemma put_results_frame (self : Worker) (args : list PyDict) (kwargs : PyDict) (st : State) :
  conn_pools (put_results self args kwargs st).2 = conn_pools st
  /\ fn_calls (put_results self args kwargs st).2 = fn_calls st.
Proof.
  destruct (put_results_cases self args kwargs st) as [(encoded & _ & ->)|(e & ->)];
    split; reflexivity.
Qed.

(** A key of the keywords reads the keyword's value in the combined dict. *)
Lemma add_dicts_kwarg (args : list PyDict) (stamps kwargs : PyDict) (key : string) (v : PyVal) :
  stamps !! key = None -> kwargs !! key = Some v ->
  add_dicts args (stamps ∪ kwargs) !! key = Some v.
Proof.
  intros Hs Hk. unfold add_dicts.
  apply lookup_union_Some_l. rewrite lookup_union_r; assumption.
Qed.

(** A key that is no keyword reads what the one positional dict holds. *)
Lemma add_dicts_positional (d kwargs : PyDict) (key : string) :
  kwargs !! key = None -> add_dicts [d] kwargs !! key = d !! key.
Proof.
  intros Hk. unfold add_dicts; cbn.
  rewrite lookup_union_r by assumption. now rewrite (right_id_L ∅ (∪)).
Qed.

Lemma connection_finally_queue (storage_url : PyVal) (hc : Conn) (st : State) :
  result_queue (connection_finally storage_url hc st).2 = result_queue st.
Proof.
  unfold connection_finally. repeat case_match; reflexivity.
Qed.

Lemma connection_exit_queue (storage_url : PyVal) (hc : Conn) (how : BodyExit) (st : State) :
  result_queue (connection_exit storage_url hc how st).2 = result_queue st.
Proof.
  unfold connection_exit.
  destruct how as [|e].
  - pose proof (connection_finally_queue storage_url hc st).
    destruct (connection_finally storage_url hc st) as [[?|?|] ?]; assumption.
  - destruct (is_broken_connection e).
    + destruct (conn_close hc (outside st)) as [closing w1].
      destruct (conn_pools (set_outside w1 st) !! storage_url) as [pool|]; [|reflexivity].
      destruct (create pool (outside (set_outside w1 st))) as [hc1 w2].
      pose proof (connection_finally_queue storage_url hc1
                    (set_outside w2 (set_outside w1 st))).
      destruct (connection_finally storage_url hc1 _) as [[?|?|] ?]; assumption.
    + pose proof (connection_finally_queue storage_url hc st).
      destruct (connection_finally storage_url hc st) as [[?|?|] ?]; assumption.
Qed.

Lemma attempt_queue {R : Type} (fn : StorageFn World Conn R) (call_info : PyDict)
  (args : gmap string ArgVal) (st : State) :
  result_queue (attempt fn call_info args st).2 = result_queue st.
Proof.
  unfold attempt. destruct (call_info !! "storage_url") as [storage_url|]; [|reflexivity].
  unfold with_connection, connection_enter.
  destruct (conn_pools st !! storage_url) as [pool|]; [|reflexivity].
  destruct (pool_get pool) as [[hc pool1]|]; [|reflexivity].
  unfold call_fn.
  destruct (fn_call fn hc args (outside (set_pool storage_url pool1 st))) as [[r|e|] w].
  - pose proof (connection_exit_queue storage_url hc ExitNormally
                  (count_call (set_outside w (set_pool storage_url pool1 st)))).
    destruct (connection_exit storage_url hc ExitNormally _) as [[?|?|] ?]; assumption.
  - pose proof (connection_exit_queue storage_url hc (ExitRaising e)
                  (count_call (set_outside w (set_pool storage_url pool1 st)))).
    destruct (connection_exit storage_url hc (ExitRaising e) _) as [[[|]|?|] ?]; assumption.
  - reflexivity.
Qed.

(** A property of the state that every attempt keeps holds when the loop
    ends. *)
Lemma retry_loop_keeps {R : Type} {truthy_R : Truthy R} (P : State -> Prop) (self : Worker)
  (statuses : list Z) (fn : StorageFn World Conn R) (call_info : PyDict)
  (args : gmap string ArgVal) :
  (forall s, P s -> P (attempt fn call_info args s).2) ->
  forall (n : nat) (tries : Z) (st : State),
    (Z.to_nat (max_retries self + 1 - tries) <= n)%nat ->
    P st -> P (retry_loop self statuses fn call_info args tries st).2.
Proof.
  intros Hkeep. induction n as [|n IH]; intros tries st Hn HP;
    rewrite retry_loop_step; pose proof (Hkeep st HP) as HP1;
    destruct (attempt fn call_info args st) as [[fn_results|e|] st1]; cbn [snd] in HP1;
    try exact HP1.
  - destruct (results_truth fn_results); [exact HP1|].
    destruct (decide (tries + 1 > max_retries self)); [exact HP1|lia].
  - destruct e; try exact HP1.
    + destruct (decide (tries + 1 > max_retries self)); [exact HP1|lia].
    + destruct (decide (http_status ∈ statuses /\ tries + 1 <= max_retries self));
        [lia|exact HP1].
  - destruct (results_truth fn_results); [exact HP1|].
    destruct (decide (tries + 1 > max_retries self)); [exact HP1|].
    apply IH; [lia|exact HP1].
  - destruct e; try exact HP1.
    + destruct (decide (tries + 1 > max_retries self)); [exact HP1|].
      apply IH; [lia|exact HP1].
    + destruct (decide (http_status ∈ statuses /\ tries + 1 <= max_retries self));
        [|exact HP1].
      apply IH; [lia|exact HP1].
Qed.

Lemma ignoring_http_responses_queue {R : Type} {truthy_R : Truthy R} (self : Worker)
  (statuses : list Z) (fn : StorageFn World Conn R) (call_info : PyDict)
  (extra_keys : gmap string ArgVal) (st : State) :
  result_queue (ignoring_http_responses self statuses fn call_info extra_keys st).2
  = result_queue st.
Proof.
  unfold ignoring_http_responses.
  destruct (call_args call_info extra_keys) as [e|args]; [reflexivity|].
  apply (retry_loop_keeps (fun s => result_queue s = result_queue st) self statuses fn
           call_info args) with (n := Z.to_nat (max_retries self + 1 - 0));
    [|lia|reflexivity].
  intros s Hs. now rewrite attempt_queue.
Qed.

End Results.

(** ** The dispatcher *)

Section Dispatcher.

Context {World Conn : Type} {env : Collaborators World Conn}.

#[local] Abbreviation State := (State World Conn).
#[local] Abbreviation Handled := (Handled World Conn).

Lemma recursion_limit_S : recursion_limit = S (Nat.pred recursion_limit).
Proof. reflexivity. Qed.

Lemma handle_job_unfold (self : Worker) (job_data : PyDict) (st : State) :
  handle_job self job_data st
  = match pick_handler job_data with
    | inl e => (Raise e, job_data, st)
    | inr None => (Raise (unknown_job_type job_data), job_data, st)
    | inr (Some handler) =>
        match run_handler self handler job_data st with
        | (Raise e, job_data1, st1) =>
            ends_with
              (put_results self [job_data1]
                 {[ "exception" := VStr (repr_exc e);
                    "traceback" := VStr (format_exc e) ]}
                 st1)
              job_data1
        | handled => handled
        end
    end.
Proof. unfold handle_job. rewrite recursion_limit_S. reflexivity. Qed.

(** A handler that ends with [put_results] has queued one record when
    it returns and none when it raises. *)
Lemma ends_with_put_results_queue (self : Worker) (args : list PyDict) (kwargs : PyDict)
  (job_data : PyDict) (st st1 : State) :
  result_queue st1 = result_queue st ->
  queue_grows_on_return st (ends_with (put_results self args kwargs st1) job_data).
Proof.
  intros Hq. pose proof (put_results_queue self args kwargs st1) as Hput.
  unfold ends_with. destruct (put_results self args kwargs st1) as [[[]|e|] st2];
    cbn [fst snd queue_grows_on_return].
  - destruct Hput as (encoded & _ & ->). exists encoded. now rewrite Hq.
  - now rewrite Hput.
  - contradiction.
Qed.

Lemma after_storage_call {R : Type} (self : Worker) (st : State) (job_data : PyDict)
  (responded : Outcome R * State) (headers_of : R -> PyDict) :
  result_queue responded.2 = result_queue st ->
  queue_grows_on_return st
    match responded with
    | (Return r, st1) =>
        ends_with (_put_results_from_response self job_data (headers_of r) st1) job_data
    | (Raise e, st1) => (Raise e, job_data, st1)
    | (Blocked, st1) => (Blocked, job_data, st1)
    end.
Proof.
  destruct responded as [[r|e|] st1]; cbn [snd]; intros Hq; try exact Hq.
  apply ends_with_put_results_queue. exact Hq.
Qed.

Lemma handlers_queue (recur : PyDict -> State -> Handled) (self : Worker)
  (handler : Handler) (job_data : PyDict) (st : State) :
  handler <> HJob ->
  queue_grows_on_return st (call_handler recur self handler job_data st).
Proof.
  intros Hnot. destruct handler; [contradiction| | | | |]; cbn [call_handler].
  - unfold handle_noop. now apply ends_with_put_results_queue.
  - unfold handle_upload_object.
    destruct (job_data !! "size") as [v|]; [|reflexivity].
    destruct (py_int v) as [e|n]; [reflexivity|].
    apply (after_storage_call self st _ _ (fun headers => headers)).
    apply ignoring_http_responses_queue.
  - unfold handle_update_object, handle_upload_object.
    destruct (job_data !! "size") as [v|]; [|reflexivity].
    destruct (py_int v) as [e|n]; [reflexivity|].
    apply (after_storage_call self st _ _ (fun headers => headers)).
    apply ignoring_http_responses_queue.
  - unfold handle_delete_object.
    apply (after_storage_call self st _ _ (fun headers => headers)).
    apply ignoring_http_responses_queue.
  - unfold handle_get_object.
    pose proof (after_storage_call self st job_data
                  (ignoring_http_responses self [404; 503] get_object job_data
                     {[ "resp_chunk_size" := AVal (VInt (2 ^ 16));
                        "toss_body" := AVal (VBool true) ]} st)
                  fst (ignoring_http_responses_queue _ _ _ _ _ _)) as H.
    destruct (ignoring_http_responses self [404; 503] get_object job_data _ st)
      as [[[headers body]|e|] st1]; exact H.
Qed.

Lemma handle_job_at_queue (depth : nat) (self : Worker) :
  forall (job_data : PyDict) (st : State),
    queue_grows_on_return st (handle_job_at depth self job_data st).
Proof.
  induction depth as [|depth IH]; intros job_data st; cbn [handle_job_at];
    [reflexivity|].
  unfold handle_job_body.
  destruct (pick_handler job_data) as [e|[handler|]]; try reflexivity.
  assert (Hcall : queue_grows_on_return st
                    (call_handler (handle_job_at depth self) self handler job_data st)).
  { destruct handler; [apply IH|..]; apply handlers_queue; discriminate. }
  destruct (call_handler (handle_job_at depth self) self handler job_data st)
    as [[[[]|e|] job_data1] st1]; cbn [queue_grows_on_return] in Hcall.
  - exact Hcall.
  - apply ends_with_put_results_queue. exact Hcall.
  - exact Hcall.
Qed.

(** A handler that raises has queued nothing. *)
Lemma run_handler_raises_queue (self : Worker) (handler : Handler)
  (job_data job_data1 : PyDict) (st st1 : State) (e : PyExc) :
  run_handler self handler job_data st = (Raise e, job_data1, st1) ->
  result_queue st1 = result_queue st.
Proof.
  intros Hrun.
  assert (Hq : queue_grows_on_return st (run_handler self handler job_data st)).
  { unfold run_handler. destruct handler; [apply handle_job_at_queue|..];
      apply handlers_queue; discriminate. }
  rewrite Hrun in Hq. exact Hq.
Qed.

(** The failure record: the job's dict with the stamps of [put_results]
    and the two keywords of [handle_job]. *)
Lemma failure_record_fields (self : Worker) (job_data : PyDict) (now : Z) (e : PyExc) :
  let result :=
    add_dicts [job_data]
      ({[ "completed_at" := VFloat now; "worker_id" := worker_id self ]}
       ∪ {[ "exception" := VStr (repr_exc e); "traceback" := VStr (format_exc e) ]}) in
  result !! "exception" = Some (VStr (repr_exc e))
  /\ result !! "traceback" = Some (VStr (format_exc e))
  /\ result !! "completed_at" = Some (VFloat now)
  /\ result !! "worker_id" = Some (worker_id self)
  /\ (forall key : string,
        key ∉ ["completed_at"; "worker_id"; "exception"; "traceback"]%string ->
        result !! key = job_data !! key).
Proof.
  intros result. unfold result.
  split; [apply add_dicts_kwarg; reflexivity|].
  split; [apply add_dicts_kwarg; reflexivity|].
  split; [unfold add_dicts; apply lookup_union_Some_l, lookup_union_Some_l; reflexivity|].
  split; [unfold add_dicts; apply lookup_union_Some_l, lookup_union_Some_l; reflexivity|].
  intros key Hkey. apply add_dicts_positional.
  apply lookup_union_None. split.
  - rewrite lookup_insert_ne by (intros <-; apply Hkey; set_solver).
    apply lookup_singleton_ne. intros <-; apply Hkey; set_solver.
  - rewrite lookup_insert_ne by (intros <-; apply Hkey; set_solver).
    apply lookup_singleton_ne. intros <-; apply Hkey; set_solver.
Qed.

(** X23. When the handler that [handle_job] picked raises an exception
    [e], [handle_job] makes the failure record: the job's dict with
    [exception] set to [repr(e)] and [traceback] set to the formatted
    traceback.  When the encoder takes the record, [handle_job] returns and
    the result queue holds exactly this one more record; when the encoder
    raises, [handle_job] raises that exception and has queued nothing.
    Either way [go], which ran [handle_job] for a message, goes on with the
    messages that follow. *)
Theorem handler_exception_becomes_failure_result (self : Worker) (job_data : PyDict)
  (st : State) (handler : Handler) (e : PyExc) (job_data1 : PyDict) (st1 : State) :
  pick_handler job_data = inr (Some handler) ->
  run_handler self handler job_data st = (Raise e, job_data1, st1) ->
  let result :=
    add_dicts [job_data1]
      ({[ "completed_at" := VFloat (time_time (outside st1)).1;
          "worker_id" := worker_id self ]}
       ∪ {[ "exception" := VStr (repr_exc e); "traceback" := VStr (format_exc e) ]}) in
  let done := handle_job self job_data st in
  result !! "exception" = Some (VStr (repr_exc e))
  /\ result !! "traceback" = Some (VStr (format_exc e))
  /\ match msgpack_dumps result with
     | inr encoded =>
         done.1 = (Return tt, job_data1)
         /\ result_queue done.2 = result_queue st ++ [encoded]
     | inl e1 =>
         done.1 = (Raise e1, job_data1) /\ result_queue done.2 = result_queue st
     end
  /\ (forall (job : string) (inbox : list string) (st0 : State),
        job <> ""%string -> msgpack_loads job = inr job_data ->
        logged_keys job_data = None ->
        ensure_pool self job_data st0 = (Return tt, st) ->
        0 < concurrency self ->
        go self (job :: inbox) st0 = go_loop self inbox done.2).
Proof.
  intros Hpick Hraise result done.
  assert (Hjob : done
                 = ends_with
                     (put_results self [job_data1]
                        {[ "exception" := VStr (repr_exc e);
                           "traceback" := VStr (format_exc e) ]} st1)
                     job_data1).
  { unfold done. rewrite handle_job_unfold, Hpick, Hraise. reflexivity. }
  destruct (failure_record_fields self job_data1 (time_time (outside st1)).1 e)
    as (Hexc & Htb & _).
  split; [exact Hexc|]. split; [exact Htb|].
  split.
  { rewrite Hjob, put_results_pushes by reflexivity. fold result.
    rewrite <- (run_handler_raises_queue _ _ _ _ _ _ _ Hraise).
    destruct (msgpack_dumps result) as [e1|encoded]; split; reflexivity. }
  intros job inbox st0 Hne Hloads Hkeys Hpool Hconc.
  unfold go. destruct (Z.ltb_spec (concurrency self) 0) as [Hneg|_]; [lia|].
  cbn [go_loop]. destruct (String.eqb_spec job "") as [Hempty|_]; [contradiction|].
  unfold go_step. rewrite Hloads, Hkeys, Hpool. unfold spawn_handle_job.
  destruct (Z.eqb_spec (concurrency self) 0) as [Hzero|_]; [lia|]. reflexivity.
Qed.

(** C5. A job whose [noop] entry is true goes to [handle_noop], whatever
    its type.  Otherwise the handler is the attribute named [handle_] plus
    the job's type.  [handle_job] calls the handler and answers an exception
    it raises with the call of [put_results] for the failure record.  When
    no attribute has that name, [handle_job] raises [NameError] with the
    message [Unknown job type ...] and leaves the state, and so the result
    queue, as it was. *)
Theorem handle_job_resolves_handler (self : Worker) (job_data : PyDict) (st : State) :
  (truthy (dict_get job_data "noop" (VBool false)) = true ->
   pick_handler job_data = inr (Some HNoop)
   /\ handle_job self job_data st
      = match handle_noop self job_data st with
        | (Raise e, job_data1, st1) =>
            ends_with
              (put_results self [job_data1]
                 {[ "exception" := VStr (repr_exc e);
                    "traceback" := VStr (format_exc e) ]} st1)
              job_data1
        | handled => handled
        end)
  /\ (truthy (dict_get job_data "noop" (VBool false)) = false ->
      forall type : PyVal, job_data !! "type" = Some type ->
        match resolve_handler type with
        | Some handler =>
            handle_job self job_data st
            = match run_handler self handler job_data st with
              | (Raise e, job_data1, st1) =>
                  ends_with
                    (put_results self [job_data1]
                       {[ "exception" := VStr (repr_exc e);
                          "traceback" := VStr (format_exc e) ]} st1)
                    job_data1
              | handled => handled
              end
        | None =>
            handle_job self job_data st
            = (Raise (NameError ("Unknown job type " +:+ repr_val type)), job_data, st)
        end)
  /\ (forall name : string,
        resolve_handler (VStr name) = getattr_handler ("handle_" +:+ name))
  /\ resolve_handler (VStr "noop") = Some HNoop
  /\ resolve_handler (VStr "upload_object") = Some HUploadObject
  /\ resolve_handler (VStr "update_object") = Some HUpdateObject
  /\ resolve_handler (VStr "delete_object") = Some HDeleteObject
  /\ resolve_handler (VStr "get_object") = Some HGetObject.
Proof.
  split; [|split; [|repeat split]].
  - intros Hnoop.
    assert (Hpick : pick_handler job_data = inr (Some HNoop))
      by (unfold pick_handler; now rewrite Hnoop).
    split; [exact Hpick|]. rewrite handle_job_unfold, Hpick. reflexivity.
  - intros Hnoop type Htype. rewrite handle_job_unfold. unfold pick_handler.
    rewrite Hnoop, Htype.
    destruct (resolve_handler type) as [handler|]; [reflexivity|].
    unfold unknown_job_type, dict_get. rewrite Htype. reflexivity.
Qed.

End Dispatcher.

(** ** The handlers *)

Section Handlers.

Context {World Conn : Type} {env : Collaborators World Conn}.

#[local] Abbreviation State := (State World Conn).
#[local] Abbreviation Handled := (Handled World Conn).

(** The record [_put_results_from_response] encodes, and its three fields. *)
Lemma response_record_fields (self : Worker) (object_info resp_headers : PyDict) (now : Z) :
  let result :=
    add_dicts [object_info]
      ({[ "completed_at" := VFloat now; "worker_id" := worker_id self ]}
       ∪ {[ "first_byte_latency" :=
              dict_get resp_headers "x-swiftstack-first-byte-latency" VNone;
            "last_byte_latency" :=
              dict_get resp_headers "x-swiftstack-last-byte-latency" VNone;
            "trans_id" := dict_get resp_headers "x-trans-id" VNone ]}) in
  result !! "first_byte_latency"
  = Some (dict_get resp_headers "x-swiftstack-first-byte-latency" VNone)
  /\ result !! "last_byte_latency"
     = Some (dict_get resp_headers "x-swiftstack-last-byte-latency" VNone)
  /\ result !! "trans_id" = Some (dict_get resp_headers "x-trans-id" VNone).
Proof. repeat split; apply add_dicts_kwarg; reflexivity. Qed.

(** The arguments of a storage call name the object of the job, when
    the handler's own keywords are none of the four names. *)
Lemma call_args_names_object (call_info : PyDict) (extra_keys args : gmap string ArgVal) :
  extra_keys !! "url" = None -> extra_keys !! "token" = None ->
  extra_keys !! "container" = None -> extra_keys !! "name" = None ->
  call_args call_info extra_keys = inr args ->
  names_object args call_info.
Proof.
  intros Hu Ht Hc Hn. unfold call_args, names_object.
  destruct (call_info !! "storage_url") as [url|]; [|discriminate].
  destruct (call_info !! "token") as [token|]; [|discriminate].
  destruct (call_info !! "container") as [container|]; [|discriminate].
  destruct (call_info !! "name") as [name|]; [|discriminate].
  intros [= <-].
  rewrite !lookup_union_r by assumption. repeat split; reflexivity.
Qed.

(** A key that is none of the keywords a handler passes. *)
Ltac not_a_keyword :=
  rewrite ?lookup_insert_ne by done;
  first [apply lookup_singleton_ne; done | apply lookup_empty].

(** What a storage call that returned leaves: the record
    [_put_results_from_response] makes from the job's dict and the headers
    that the call answered, stamped with the reading of the clock in the
    world the call left. *)
Lemma storage_call_record {R : Type} {truthy_R : Truthy R} (self : Worker)
  (statuses : list Z) (fn : StorageFn World Conn R) (headers_of : R -> PyDict)
  (object_info : PyDict) (extra_keys : gmap string ArgVal) (st st1 : State)
  (job_data1 : PyDict) :
  extra_keys !! "url" = None -> extra_keys !! "token" = None ->
  extra_keys !! "container" = None -> extra_keys !! "name" = None ->
  match ignoring_http_responses self statuses fn object_info extra_keys st with
  | (Return r, st0) =>
      ends_with (_put_results_from_response self object_info (headers_of r) st0) object_info
  | (Raise e, st0) => (Raise e, object_info, st0)
  | (Blocked, st0) => (Blocked, object_info, st0)
  end = (Return tt, job_data1, st1) ->
  job_data1 = object_info
  /\ exists conn args w r w1 encoded,
       fn_call fn conn args w = (Return r, w1)
       /\ names_object args object_info
       /\ msgpack_dumps
            (add_dicts [object_info]
               ({[ "completed_at" := VFloat (time_time w1).1;
                   "worker_id" := worker_id self ]}
                ∪ {[ "first_byte_latency" :=
                       dict_get (headers_of r) "x-swiftstack-first-byte-latency" VNone;
                     "last_byte_latency" :=
                       dict_get (headers_of r) "x-swiftstack-last-byte-latency" VNone;
                     "trans_id" := dict_get (headers_of r) "x-trans-id" VNone ]}))
          = inr encoded
       /\ result_queue st1 = result_queue st ++ [encoded]
       /\ outside st1 = (time_time w1).2.
Proof.
  intros Hu Ht Hc Hn.
  pose proof (ignoring_http_responses_queue self statuses fn object_info extra_keys st) as Hq.
  destruct (ignoring_http_responses self statuses fn object_info extra_keys st)
    as [[r|e|] st0] eqn:Hrun; [|discriminate|discriminate].
  destruct (ignoring_http_responses_answer _ _ _ _ _ _ _ _ Hrun)
    as (_ & args & conn & w & Hargs & Hcall).
  cbn [snd] in Hq. unfold _put_results_from_response, ends_with.
  rewrite put_results_pushes by reflexivity.
  destruct (msgpack_dumps _) as [e|encoded] eqn:Hdumps; cbn [fst snd]; [discriminate|].
  intros [= <- <-]. split; [reflexivity|].
  exists conn, args, w, r, (outside st0), encoded.
  split; [exact Hcall|].
  split; [exact (call_args_names_object _ _ _ Hu Ht Hc Hn Hargs)|].
  split; [exact Hdumps|]. split; [cbn; now rewrite Hq|reflexivity].
Qed.

(** A handler other than the no-op that returns has made its one record
    from the headers its storage function answered. *)
Lemma run_handler_returns (self : Worker) (handler : Handler) (job_data job_data1 : PyDict)
  (st st1 : State) :
  handler ∈ [HUploadObject; HUpdateObject; HDeleteObject; HGetObject] ->
  run_handler self handler job_data st = (Return tt, job_data1, st1) ->
  exists conn args w resp_headers w1 encoded,
    storage_answers handler conn args w resp_headers w1
    /\ names_object args job_data1
    /\ msgpack_dumps
         (add_dicts [job_data1]
            ({[ "completed_at" := VFloat (time_time w1).1;
                "worker_id" := worker_id self ]}
             ∪ {[ "first_byte_latency" :=
                    dict_get resp_headers "x-swiftstack-first-byte-latency" VNone;
                  "last_byte_latency" :=
                    dict_get resp_headers "x-swiftstack-last-byte-latency" VNone;
                  "trans_id" := dict_get resp_headers "x-trans-id" VNone ]}))
       = inr encoded
    /\ result_queue st1 = result_queue st ++ [encoded]
    /\ outside st1 = (time_time w1).2.
Proof.
  intros Hin. unfold run_handler.
  destruct handler; cbn [call_handler storage_answers];
    try (rewrite !elem_of_cons, elem_of_nil in Hin;
         destruct Hin as [|[|[|[|[]]]]]; discriminate).
  - unfold handle_upload_object.
    destruct (job_data !! "size") as [v|]; [|discriminate].
    destruct (py_int v) as [e0|n]; [discriminate|].
    intros Hrun.
    apply (storage_call_record self [503] put_object (fun headers => headers)) in Hrun
      as (-> & conn & args & w & r & w1 & encoded & H); try not_a_keyword.
    exists conn, args, w, r, w1, encoded. exact H.
  - unfold handle_update_object, handle_upload_object.
    destruct (job_data !! "size") as [v|]; [|discriminate].
    destruct (py_int v) as [e0|n]; [discriminate|].
    intros Hrun.
    apply (storage_call_record self [503] put_object (fun headers => headers)) in Hrun
      as (-> & conn & args & w & r & w1 & encoded & H); try not_a_keyword.
    exists conn, args, w, r, w1, encoded. exact H.
  - unfold handle_delete_object. intros Hrun.
    apply (storage_call_record self [404; 503] delete_object (fun headers => headers))
      in Hrun as (-> & conn & args & w & r & w1 & encoded & H); try not_a_keyword.
    exists conn, args, w, r, w1, encoded. exact H.
  - unfold handle_get_object. intros Hrun.
    assert (Hrun' :
              match
                ignoring_http_responses self [404; 503] get_object job_data
                  {[ "resp_chunk_size" := AVal (VInt (2 ^ 16));
                     "toss_body" := AVal (VBool true) ]} st
              with
              | (Return r, st0) =>
                  ends_with (_put_results_from_response self job_data (fst r) st0) job_data
              | (Raise e, st0) => (Raise e, job_data, st0)
              | (Blocked, st0) => (Blocked, job_data, st0)
              end = (Return tt, job_data1, st1)).
    { destruct (ignoring_http_responses self [404; 503] get_object job_data _ st)
        as [[[headers body]|e|] st0]; exact Hrun. }
    apply (storage_call_record self [404; 503] get_object fst) in Hrun'
      as (-> & conn & args & w & [headers body] & w1 & encoded & Hcall & H);
      try not_a_keyword.
    exists conn, args, w, headers, w1, encoded. split; [exists body; exact Hcall|exact H].
Qed.

(** C7, as the code has it.  The record a handler makes when its storage
    call succeeded carries [first_byte_latency], [last_byte_latency] and
    [trans_id], each read from the headers that the handler's storage
    function answered for the job's object, and [None] when the header is
    absent.  The no-op handler's record carries [0.0], [0.0] and [None].
    The failure record, which [handle_job] makes when a handler raises,
    carries [exception] and [traceback] and is given none of the three
    fields: under those keys it holds what the job's dict held. *)
Theorem results_carry_response_fields (self : Worker) (job_data : PyDict) (st : State) :
  (forall (handler : Handler) (job_data1 : PyDict) (st1 : State),
     handler ∈ [HUploadObject; HUpdateObject; HDeleteObject; HGetObject] ->
     run_handler self handler job_data st = (Return tt, job_data1, st1) ->
     exists conn args w resp_headers w1 result encoded,
       storage_answers handler conn args w resp_headers w1
       /\ names_object args job_data1
       /\ outside st1 = (time_time w1).2
       /\ msgpack_dumps result = inr encoded
       /\ result_queue st1 = result_queue st ++ [encoded]
       /\ result !! "first_byte_latency"
          = Some (dict_get resp_headers "x-swiftstack-first-byte-latency" VNone)
       /\ result !! "last_byte_latency"
          = Some (dict_get resp_headers "x-swiftstack-last-byte-latency" VNone)
       /\ result !! "trans_id" = Some (dict_get resp_headers "x-trans-id" VNone))
  /\ (forall (job_data1 : PyDict) (st1 : State),
        run_handler self HNoop job_data st = (Return tt, job_data1, st1) ->
        exists result encoded,
          msgpack_dumps result = inr encoded
          /\ result_queue st1 = result_queue st ++ [encoded]
          /\ result !! "first_byte_latency" = Some (VFloat float_zero)
          /\ result !! "last_byte_latency" = Some (VFloat float_zero)
          /\ result !! "trans_id" = Some VNone)
  /\ (forall (handler : Handler) (e : PyExc) (job_data1 : PyDict) (st1 st2 : State),
        pick_handler job_data = inr (Some handler) ->
        run_handler self handler job_data st = (Raise e, job_data1, st1) ->
        handle_job self job_data st = (Return tt, job_data1, st2) ->
        exists result encoded,
          msgpack_dumps result = inr encoded
          /\ result_queue st2 = result_queue st ++ [encoded]
          /\ result !! "exception" = Some (VStr (repr_exc e))
          /\ result !! "traceback" = Some (VStr (format_exc e))
          /\ result !! "first_byte_latency" = job_data1 !! "first_byte_latency"
          /\ result !! "last_byte_latency" = job_data1 !! "last_byte_latency"
          /\ result !! "trans_id" = job_data1 !! "trans_id").
Proof.
  split; [|split].
  - intros handler job_data1 st1 Hin Hret.
    destruct (run_handler_returns _ _ _ _ _ _ Hin Hret)
      as (conn & args & w & headers & w1 & encoded & Hans & Hnames & Hd & Hq & Hw).
    destruct (response_record_fields self job_data1 headers (time_time w1).1)
      as (Hf & Hl & Ht).
    exists conn, args, w, headers, w1. eexists. exists encoded.
    split; [exact Hans|]. split; [exact Hnames|]. split; [exact Hw|].
    split; [exact Hd|]. split; [exact Hq|]. split; [exact Hf|]. split; [exact Hl|exact Ht].
  - intros job_data1 st1. unfold run_handler; cbn [call_handler]. unfold handle_noop, ends_with.
    rewrite put_results_pushes by reflexivity.
    destruct (msgpack_dumps _) as [e|encoded] eqn:Hd; cbn [fst snd]; [discriminate|].
    intros [= <- <-]. eexists. exists encoded. split; [exact Hd|]. split; [reflexivity|].
    repeat split; apply add_dicts_kwarg; reflexivity.
  - intros handler e job_data1 st1 st2 Hpick Hraise.
    destruct (failure_record_fields self job_data1 (time_time (outside st1)).1 e)
      as (Hexc & Htb & _ & _ & Hother).
    rewrite handle_job_unfold, Hpick, Hraise. unfold ends_with.
    rewrite put_results_pushes by reflexivity.
    destruct (msgpack_dumps _) as [e1|encoded] eqn:Hd; cbn [fst snd]; [discriminate|].
    intros [= <-]. eexists. exists encoded. split; [exact Hd|].
    split; [cbn; now rewrite (run_handler_raises_queue _ _ _ _ _ _ _ Hraise)|].
    split; [exact Hexc|]. split; [exact Htb|].
    repeat split; apply Hother; intros Hin;
      rewrite !elem_of_cons, elem_of_nil in Hin;
      destruct Hin as [|[|[|[|[]]]]]; discriminate.
Qed.

End Handlers.

(** ** Upload and update *)

Section UploadUpdate.

Context {World Conn : Type} {env : Collaborators World Conn}.

#[local] Abbreviation State := (State World Conn).

Lemma with_connection_ext {R : Type} (storage_url : PyVal)
  (body1 body2 : Conn -> State -> Outcome R * State) (st : State) :
  (forall c s, body1 c s = body2 c s) ->
  with_connection storage_url body1 st = with_connection storage_url body2 st.
Proof.
  intros Hext. unfold with_connection.
  destruct (connection_enter storage_url st) as [[hc|e|] st1]; [|reflexivity|reflexivity].
  now rewrite Hext.
Qed.

(** Two argument dicts on which the storage function does the same give
    the same loop. *)
Lemma retry_loop_args_ext {R : Type} {truthy_R : Truthy R} (self : Worker)
  (statuses : list Z) (fn : StorageFn World Conn R) (call_info : PyDict)
  (args1 args2 : gmap string ArgVal) :
  (forall conn w, fn_call fn conn args1 w = fn_call fn conn args2 w) ->
  forall (n : nat) (tries : Z) (st : State),
    (Z.to_nat (max_retries self + 1 - tries) <= n)%nat ->
    retry_loop self statuses fn call_info args1 tries st
    = retry_loop self statuses fn call_info args2 tries st.
Proof.
  intros Hext.
  assert (Hatt : forall s, attempt fn call_info args1 s = attempt fn call_info args2 s).
  { intros s. unfold attempt. destruct (call_info !! "storage_url"); [|reflexivity].
    apply with_connection_ext. intros c s'. unfold call_fn. now rewrite Hext. }
  induction n as [|n IH]; intros tries st Hn;
    rewrite !retry_loop_step, Hatt;
    destruct (attempt fn call_info args2 st) as [[fn_results|e|] st1]; try reflexivity.
  - destruct (results_truth fn_results); [reflexivity|].
    destruct (decide (tries + 1 > max_retries self)); [reflexivity|lia].
  - destruct e; try reflexivity.
    + destruct (decide (tries + 1 > max_retries self)); [reflexivity|lia].
    + destruct (decide (http_status ∈ statuses /\ tries + 1 <= max_retries self));
        [lia|reflexivity].
  - destruct (results_truth fn_results); [reflexivity|].
    destruct (decide (tries + 1 > max_retries self)); [reflexivity|].
    apply IH; lia.
  - destruct e; try reflexivity.
    + destruct (decide (tries + 1 > max_retries self)); [reflexivity|].
      apply IH; lia.
    + destruct (decide (http_status ∈ statuses /\ tries + 1 <= max_retries self));
        [|reflexivity].
      apply IH; lia.
Qed.

(** The keyword arguments of an upload, with the payload reader set apart. *)
Lemma upload_call_args (call_info : PyDict) (n : Z) (reader : ChunkedReader) :
  call_args call_info
    {[ "content_length" := AVal (VInt n); "contents" := AReader reader ]}
  = match call_args call_info {[ "content_length" := AVal (VInt n) ]} with
    | inl e => inl e
    | inr args => inr (<["contents" := AReader reader]> args)
    end.
Proof.
  unfold call_args.
  destruct (call_info !! "storage_url"); [|reflexivity].
  destruct (call_info !! "token"); [|reflexivity].
  destruct (call_info !! "container"); [|reflexivity].
  destruct (call_info !! "name"); [|reflexivity].
  reflexivity.
Qed.

(** C9. [handle_update_object] is [handle_upload_object] with the letter
    [B], and the handler of an upload job is [handle_upload_object] with the
    letter [A].  The letter reaches the storage call only as the fill letter
    of the payload reader: when [put_object] does the same for two readers
    of one size, an upload does the same for any two letters. *)
Theorem update_is_upload_with_letter_B (self : Worker) (job_data : PyDict) (st : State) :
  handle_update_object self job_data st = handle_upload_object self job_data "B" st
  /\ run_handler self HUpdateObject job_data st = handle_upload_object self job_data "B" st
  /\ run_handler self HUploadObject job_data st = handle_upload_object self job_data "A" st
  /\ ((forall conn args (r1 r2 : ChunkedReader) w,
         size r1 = size r2 ->
         fn_call put_object conn (<["contents" := AReader r1]> args) w
         = fn_call put_object conn (<["contents" := AReader r2]> args) w) ->
      forall letter1 letter2 : string,
        handle_upload_object self job_data letter1 st
        = handle_upload_object self job_data letter2 st).
Proof.
  split; [reflexivity|]. split; [reflexivity|]. split; [reflexivity|].
  intros Hpayload letter1 letter2. unfold handle_upload_object.
  destruct (job_data !! "size") as [v|]; [|reflexivity].
  destruct (py_int v) as [e|n]; [reflexivity|].
  unfold ignoring_http_responses. rewrite !upload_call_args.
  destruct (call_args (<["size" := VInt n]> job_data) {[ "content_length" := AVal (VInt n) ]})
    as [e|args]; [reflexivity|].
  rewrite (retry_loop_args_ext self [503] put_object (<["size" := VInt n]> job_data)
             (<["contents" := AReader (Reader.init letter1 n)]> args)
             (<["contents" := AReader (Reader.init letter2 n)]> args))
    with (n := Z.to_nat (max_retries self + 1 - 0)); [reflexivity| |lia].
  intros conn w. apply Hpayload. reflexivity.
Qed.

End UploadUpdate.

(** ** The intake loop *)

Section Intake.

Context {World Conn : Type} {env : Collaborators World Conn}.

#[local] Abbreviation State := (State World Conn).
#[local] Abbreviation ConnectionPool := (ConnectionPool World Conn).

Lemma make_connections_length (factory : World -> Conn * World) (n : nat) (w : World) :
  List.length (make_connections factory n w).1 = n.
Proof.
  revert w; induction n as [|n IH]; intros w; cbn [make_connections]; [reflexivity|].
  destruct (factory w) as [hc w1]. specialize (IH w1).
  destruct (make_connections factory n w1) as [conns w2]; cbn in *. now rewrite IH.
Qed.

(** The loop of [__init__] puts [n] new connections behind those the queue
    holds, when there is room for them. *)
Lemma pool_fill_makes (n : nat) :
  forall (pool : ConnectionPool) (w : World),
    Z.of_nat (List.length (queue pool)) + Z.of_nat n <= maxsize pool ->
    pool_fill n pool w
    = (Return (set_queue (queue pool ++ (make_connections (create pool) n w).1) pool),
       (make_connections (create pool) n w).2).
Proof.
  induction n as [|n IH]; intros pool w Hroom; cbn [pool_fill make_connections].
  - cbn [fst snd]. rewrite app_nil_r. destruct pool; reflexivity.
  - destruct (create pool w) as [hc w1] eqn:Hc.
    unfold pool_put, pool_full.
    destruct (Z.leb_spec (maxsize pool) (Z.of_nat (List.length (queue pool)))) as [Hfull|_];
      [lia|]. rewrite andb_false_r.
    rewrite IH by (cbn; rewrite length_app; cbn [List.length]; lia).
    cbn [create queue set_queue].
    destruct (make_connections (create pool) n w1) as [conns w2]; cbn [fst snd].
    now rewrite <- app_assoc.
Qed.

(** C8. For a job whose endpoint is not yet a key of [conn_pools], and a
    concurrency that is not negative, the loop body first stores a new pool
    for the endpoint: its factory makes connections to that endpoint, its
    capacity is the concurrency, and it holds exactly that many connections,
    each made by the factory, in the order they were made; [handle_job] is
    then started from the state that has the pool.  For a job whose
    endpoint is already a key, the state is left as it is (no pool and no
    connection is made) and [handle_job] is started from it. *)
Theorem pool_created_on_first_reference (self : Worker) (job_data : PyDict) (st : State)
  (storage_url : PyVal) :
  job_data !! "storage_url" = Some storage_url ->
  0 <= concurrency self ->
  let made :=
    make_connections (http_connection storage_url) (Z.to_nat (concurrency self))
      (outside st) in
  let pool :=
    {| create := http_connection storage_url; maxsize := concurrency self;
       queue := made.1 |} in
  let st1 := set_pool storage_url pool (set_outside made.2 st) in
  (conn_pools st !! storage_url = None ->
     ensure_pool self job_data st = (Return tt, st1)
     /\ Z.of_nat (List.length (queue pool)) = concurrency self
     /\ conn_pools st1 !! storage_url = Some pool
     /\ (forall job : string,
           msgpack_loads job = inr job_data -> logged_keys job_data = None ->
           go_step self job st = spawn_handle_job self job_data st1))
  /\ (is_Some (conn_pools st !! storage_url) ->
      ensure_pool self job_data st = (Return tt, st)
      /\ (forall job : string,
            msgpack_loads job = inr job_data -> logged_keys job_data = None ->
            go_step self job st = spawn_handle_job self job_data st)).
Proof.
  intros Hurl Hconc made pool st1. split.
  - intros Hnew.
    assert (Hens : ensure_pool self job_data st = (Return tt, st1)).
    { unfold ensure_pool. rewrite Hurl, Hnew. unfold ConnectionPool_init.
      rewrite pool_fill_makes by (cbn; lia). reflexivity. }
    split; [exact Hens|]. split.
    { unfold pool; cbn [queue]. unfold made. rewrite make_connections_length. lia. }
    split.
    { unfold st1, set_pool, set_conn_pools; cbn. apply lookup_insert_eq. }
    intros job Hloads Hkeys. unfold go_step. now rewrite Hloads, Hkeys, Hens.
  - intros [known Hknown].
    assert (Hens : ensure_pool self job_data st = (Return tt, st)).
    { unfold ensure_pool. now rewrite Hurl, Hknown. }
    split; [exact Hens|].
    intros job Hloads Hkeys. unfold go_step. now rewrite Hloads, Hkeys, Hens.
Qed.

End Intake.

(** ** Tasks sharing a pool *)

Section SharedPool.

Context {World Conn : Type} {env : Collaborators World Conn}.

#[local] Abbreviation State := (State World Conn).
#[local] Abbreviation ConnectionPool := (ConnectionPool World Conn).

Lemma lookup_set_pool (storage_url : PyVal) (pool : ConnectionPool) (st : State) :
  conn_pools (set_pool storage_url pool st) !! storage_url = Some pool.
Proof. unfold set_pool, set_conn_pools; cbn. apply lookup_insert_eq. Qed.

(** However the tasks' entries to and exits from the connection context
    interleave, the connections at rest and the tasks inside the context add
    up to the capacity: the queue never holds more than the capacity, and
    holds exactly the capacity whenever no task is inside. *)
Lemma pool_size_under_interleaving (storage_url : PyVal) (events : list (PoolEvent World Conn)) :
  forall (st st' : State) (inside inside' : nat) (pool : ConnectionPool),
    conn_pools st !! storage_url = Some pool ->
    Z.of_nat (List.length (queue pool)) + Z.of_nat inside = maxsize pool ->
    run_events storage_url events st inside = Some (st', inside') ->
    exists pool',
      conn_pools st' !! storage_url = Some pool'
      /\ maxsize pool' = maxsize pool
      /\ Z.of_nat (List.length (queue pool')) + Z.of_nat inside' = maxsize pool.
Proof.
  induction events as [|event events IH]; intros st st' inside inside' pool Hpool Hsum;
    cbn [run_events].
  - intros [= <- <-]. exists pool. done.
  - destruct event as [|hc how|w].
    + unfold connection_enter, pool_get. rewrite Hpool.
      destruct (queue pool) as [|hc rest] eqn:Hq; [discriminate|].
      intros Hrun.
      assert (Hsum1 : Z.of_nat (List.length (queue (set_queue rest pool)))
                      + Z.of_nat (S inside) = maxsize (set_queue rest pool)).
      { cbn [queue maxsize set_queue List.length] in *. lia. }
      destruct (IH _ _ _ _ (set_queue rest pool) (lookup_set_pool _ _ _) Hsum1 Hrun)
        as (pool' & H1 & H2 & H3).
      exists pool'. done.
    + destruct inside as [|inside]; [discriminate|].
      assert (Hroom : pool_full pool = false).
      { unfold pool_full. apply andb_false_iff. right. apply Z.leb_gt. lia. }
      rewrite (connection_exit_gives_back _ _ _ _ pool Hpool Hroom).
      assert (Hlen : forall c : Conn,
                Z.of_nat (List.length (queue (set_queue (queue pool ++ [c]) pool)))
                + Z.of_nat inside = maxsize (set_queue (queue pool ++ [c]) pool)).
      { intros c. cbn [queue maxsize set_queue]. rewrite length_app.
        cbn [List.length]. lia. }
      destruct how as [|e]; [|destruct (is_broken_connection e)]; cbn zeta; intros Hrun;
        (destruct (IH _ _ _ _ _ (lookup_set_pool _ _ _) (Hlen _) Hrun)
           as (pool' & H1 & H2 & H3); exists pool'; done).
    + intros Hrun.
      destruct (IH (set_outside w st) _ _ _ pool Hpool Hsum Hrun)
        as (pool' & H1 & H2 & H3).
      exists pool'. done.
Qed.

End SharedPool.

(** ** Runs on the example environment *)

(** An equation between closed terms, settled by evaluating both sides. *)
Ltac by_evaluation :=
  lazymatch goal with
  | |- ?lhs = ?rhs => vm_cast_no_check (@eq_refl _ rhs)
  end.

(** C6 as the specification states it: a broken connection that the
    context absorbed would leave the count of attempts as it was, so the
    loop would go on with the same [tries].  It does not: with
    [max_retries = 0] and a storage function whose first call finds the
    connection broken and whose later calls succeed, the loop raises
    [No fn_results ...], whereas with the count unchanged it would have
    returned the headers of the second call. *)
Lemma broken_connection_is_counted :
  ~ (forall (World Conn : Type) (env : Collaborators World Conn) (self : Worker)
       (statuses : list Z) (fn : StorageFn World Conn PyDict) (call_info : PyDict)
       (args : gmap string ArgVal) (tries : Z) (st st1 : State World Conn),
       attempt fn call_info args st = (Return None, st1) ->
       retry_loop self statuses fn call_info args tries st
       = retry_loop self statuses fn call_info args tries st1).
Proof.
  intros Hclaim.
  pose (fn := delete_object (Collaborators := Example.env_broken)).
  pose (call_info := Example.job "delete_object").
  assert (Hatt : attempt (env := Example.env_broken) fn call_info Example.delete_args
                   Example.state0
                 = (Return None,
                    (attempt (env := Example.env_broken) fn call_info Example.delete_args
                       Example.state0).2))
    by (by_evaluation).
  specialize (Hclaim _ _ Example.env_broken (Example.worker 0) [404; 503] fn call_info
                Example.delete_args 0 Example.state0 _ Hatt).
  apply (f_equal fst) in Hclaim.
  assert (Hcounted :
    (retry_loop (env := Example.env_broken) (Example.worker 0) [404; 503] fn call_info
       Example.delete_args 0 Example.state0).1
    = Raise (Exception_ "No fn_results for <function delete_object> after 0 retries"))
    by (by_evaluation).
  assert (Huncounted :
    (retry_loop (env := Example.env_broken) (Example.worker 0) [404; 503] fn call_info
       Example.delete_args 0
       (attempt (env := Example.env_broken) fn call_info Example.delete_args
          Example.state0).2).1
    = Return Example.headers)
    by (by_evaluation).
  pose proof (eq_trans (eq_sym Hcounted) (eq_trans Hclaim Huncounted)) as Hbad.
  discriminate Hbad.
Qed.

(** The same run seen from the dispatcher: the job ends with a failure
    record, and the pool holds the connection that replaced the broken one. *)
Lemma broken_connection_fails_the_job :
  let handled :=
    handle_job (env := Example.env_broken) (Example.worker 0)
      (Example.job "delete_object") Example.state0 in
  handled.1.1 = Return tt
  /\ fn_calls handled.2 = 1%nat
  /\ queue <$> (conn_pools handled.2 !! Example.url) = Some [1%nat; 2%nat]
  /\ Example.closed (outside handled.2) = [0%nat]
  /\ exists result,
       result_queue handled.2 = [Example.show_dict result]
       /\ result !! "exception"
          = Some (VStr "Exception(No fn_results for <function delete_object> after 0 retries)")
       /\ result !! "trans_id" = None.
Proof.
  cbn zeta. split; [by_evaluation|]. split; [by_evaluation|].
  split; [by_evaluation|]. split; [by_evaluation|].
  exists (add_dicts [Example.job "delete_object"]
            ({[ "completed_at" := VFloat 100; "worker_id" := VInt 7 ]}
             ∪ {[ "exception" :=
                    VStr "Exception(No fn_results for <function delete_object> after 0 retries)";
                  "traceback" :=
                    VStr "Traceback (most recent call last): Exception(No fn_results for <function delete_object> after 0 retries)" ]})).
  split; [by_evaluation|]. split; by_evaluation.
Qed.

(** C7 as the specification states it: every record queued for a job
    would carry the three response fields.  The failure record does not:
    for a delete job that the service refuses with status 500, the record
    [handle_job] queues has no [first_byte_latency]. *)
Lemma failure_result_lacks_response_fields :
  ~ (forall (World Conn : Type) (env : Collaborators World Conn) (self : Worker)
       (job_data : PyDict) (st : State World Conn) (result : PyDict) (encoded : string),
       msgpack_dumps result = inr encoded ->
       result_queue (handle_job self job_data st).2 = result_queue st ++ [encoded] ->
       is_Some (result !! "first_byte_latency")
       /\ is_Some (result !! "last_byte_latency")
       /\ is_Some (result !! "trans_id")).
Proof.
  intros Hclaim.
  pose (e := ClientException "Object DELETE failed" 500).
  pose (result :=
          add_dicts [Example.job "delete_object"]
            ({[ "completed_at" := VFloat 100; "worker_id" := VInt 7 ]}
             ∪ {[ "exception" := VStr (Example.show_exc e);
                  "traceback" :=
                    VStr ("Traceback (most recent call last): " +:+ Example.show_exc e) ]})).
  assert (Hencoded : msgpack_dumps (Collaborators := Example.env_500) result
                     = inr (Example.show_dict result)) by by_evaluation.
  destruct (Hclaim _ _ Example.env_500 (Example.worker 0) (Example.job "delete_object")
              Example.state0 result _ Hencoded ltac:(by_evaluation)) as [[v Hv] _].
  vm_compute in Hv. discriminate Hv.
Qed.

(** ** The theorems at work on the example environment *)

Lemma handler_exception_becomes_failure_result_witness :
  let handled :=
    handle_job (env := Example.env_500) (Example.worker 0)
      (Example.job "delete_object") Example.state0 in
  pick_handler (Example.job "delete_object") = inr (Some HDeleteObject)
  /\ exists encoded,
       handled.1 = (Return tt, Example.job "delete_object")
       /\ result_queue handled.2 = [encoded].
Proof.
  cbn zeta.
  assert (Hpick : pick_handler (Example.job "delete_object") = inr (Some HDeleteObject))
    by (by_evaluation).
  assert (Hraise :
    run_handler (env := Example.env_500) (Example.worker 0) HDeleteObject
      (Example.job "delete_object") Example.state0
    = (Raise (ClientException "Object DELETE failed" 500), Example.job "delete_object",
       (run_handler (env := Example.env_500) (Example.worker 0) HDeleteObject
          (Example.job "delete_object") Example.state0).2))
    by (by_evaluation).
  destruct (handler_exception_becomes_failure_result (env := Example.env_500)
              (Example.worker 0) (Example.job "delete_object") Example.state0
              HDeleteObject _ _ _ Hpick Hraise) as (_ & _ & Hdone & _).
  split; [exact Hpick|].
  destruct (msgpack_dumps _) as [e1|encoded] eqn:Hencoded in Hdone.
  - vm_compute in Hencoded. discriminate Hencoded.
  - exists encoded. exact Hdone.
Defined.

Lemma empty_results_exhaust_retries_witness :
  max_retries (Example.worker 2) = 2 /\ 0 <= 2
  /\ pool_ready Example.url Example.state0 = true
  /\ exists st',
       ignoring_http_responses (env := Example.env_empty) (Example.worker 2) [404; 503]
         (delete_object (Collaborators := Example.env_empty)) (Example.job "delete_object") ∅ Example.state0
       = (Raise (Exception_
                   (no_results_message (delete_object (Collaborators := Example.env_empty))
                      (Example.worker 2))), st')
       /\ fn_calls st' = 3%nat.
Proof.
  split; [reflexivity|]. split; [lia|]. split; [by_evaluation|].
  refine (proj1 (empty_results_exhaust_retries (env := Example.env_empty)
                   (Example.worker 2) [404; 503] (delete_object (Collaborators := Example.env_empty))
                   (Example.job "delete_object") ∅ Example.delete_args Example.url
                   Example.state0 2 eq_refl _ _ _ _ _)).
  - lia.
  - by_evaluation.
  - by_evaluation.
  - by_evaluation.
  - intros conn a w. exists ∅. split; reflexivity.
Defined.

Lemma client_error_retried_only_if_listed_witness :
  pool_ready Example.url Example.state0 = true
  /\ exists st',
       ignoring_http_responses (env := Example.env_500) (Example.worker 2) [404; 503]
         (delete_object (Collaborators := Example.env_500)) (Example.job "delete_object") ∅ Example.state0
       = (Raise (ClientException "Object DELETE failed" 500), st')
       /\ fn_calls st' = 1%nat.
Proof.
  split; [by_evaluation|].
  refine (proj2 (client_error_retried_only_if_listed (env := Example.env_500)
                   (Example.worker 2) [404; 503] (delete_object (Collaborators := Example.env_500))
                   (Example.job "delete_object") ∅ Example.delete_args Example.url
                   Example.state0 _ _ _) "Object DELETE failed"%string 500 _ _).
  - by_evaluation.
  - by_evaluation.
  - by_evaluation.
  - intros conn. reflexivity.
  - intros Hin. rewrite !elem_of_cons, elem_of_nil in Hin.
    destruct Hin as [Hin|[Hin|[]]]; discriminate Hin.
Defined.

Lemma connection_gives_one_back_witness :
  conn_pools Example.state0 !! Example.url = Some Example.pool0
  /\ exists pool1,
       conn_pools
         (with_connection (env := Example.env_broken) Example.url
            (call_fn (delete_object (Collaborators := Example.env_broken))
               Example.delete_args) Example.state0).2 !! Example.url = Some pool1
       /\ maxsize pool1 = 2
       /\ List.length (queue pool1) = 2%nat.
Proof.
  assert (Hpool : conn_pools Example.state0 !! Example.url = Some Example.pool0)
    by (by_evaluation).
  split; [exact Hpool|].
  refine (proj2 (connection_gives_one_back (env := Example.env_broken) Example.url
                   (call_fn (delete_object (Collaborators := Example.env_broken))
                      Example.delete_args)
                   Example.state0 Example.pool0 0%nat [1%nat] Hpool eq_refl _ _) _).
  - vm_compute. discriminate.
  - intros c s. unfold call_fn.
    destruct (fn_call (delete_object (Collaborators := Example.env_broken)) c
                Example.delete_args (outside s)); reflexivity.
  - vm_compute. discriminate.
Defined.

Lemma handle_job_resolves_handler_witness :
  let job_data := <["noop" := VBool true]> (Example.job "no_such_type") in
  truthy (dict_get job_data "noop" (VBool false)) = true
  /\ pick_handler job_data = inr (Some HNoop).
Proof.
  cbn zeta.
  assert (Hnoop : truthy (dict_get (<["noop" := VBool true]> (Example.job "no_such_type"))
                            "noop" (VBool false)) = true)
    by (by_evaluation).
  split; [exact Hnoop|].
  exact (proj1 (proj1 (handle_job_resolves_handler (env := Example.env_ok)
                         (Example.worker 0)
                         (<["noop" := VBool true]> (Example.job "no_such_type"))
                         Example.state0) Hnoop)).
Defined.

Lemma broken_connection_is_a_failed_attempt_witness :
  pool_ready Example.url Example.state0 = true
  /\ is_broken_connection (CannotSendRequest "") = true
  /\ exists st1,
       with_connection (env := Example.env_broken) Example.url
         (call_fn (delete_object (Collaborators := Example.env_broken))
            Example.delete_args) Example.state0
       = (Return None, st1)
       /\ retry_loop (env := Example.env_broken) (Example.worker 0) [404; 503]
            (delete_object (Collaborators := Example.env_broken)) (Example.job "delete_object") Example.delete_args 0
            Example.state0
          = (Raise (Exception_
                      (no_results_message
                         (delete_object (Collaborators := Example.env_broken))
                         (Example.worker 0))), st1).
Proof.
  assert (Hready : pool_ready Example.url Example.state0 = true)
    by (by_evaluation).
  split; [exact Hready|]. split; [reflexivity|].
  destruct (broken_connection_is_a_failed_attempt (env := Example.env_broken)
              (Example.worker 0) [404; 503] (delete_object (Collaborators := Example.env_broken))
              (Example.job "delete_object") Example.delete_args Example.url 0
              Example.state0 (CannotSendRequest "")
              ltac:(by_evaluation) Hready
              (fun conn => eq_refl) eq_refl)
    as (pool & hc & rest & st1 & _ & _ & Hwith & _ & Hloop).
  exists st1. split; [exact Hwith|]. exact Hloop.
Defined.

Lemma results_carry_response_fields_witness :
  let handled :=
    run_handler (env := Example.env_ok) (Example.worker 0) HDeleteObject
      (Example.job "delete_object") Example.state0 in
  HDeleteObject ∈ [HUploadObject; HUpdateObject; HDeleteObject; HGetObject]
  /\ handled.1.1 = Return tt
  /\ exists conn args w resp_headers w1 result encoded,
       fn_call (delete_object (Collaborators := Example.env_ok)) conn args w
       = (Return resp_headers, w1)
       /\ msgpack_dumps (Collaborators := Example.env_ok) result = inr encoded
       /\ result_queue handled.2 = result_queue Example.state0 ++ [encoded]
       /\ result !! "trans_id" = Some (dict_get resp_headers "x-trans-id" VNone).
Proof.
  cbn zeta.
  assert (Hin : HDeleteObject ∈ [HUploadObject; HUpdateObject; HDeleteObject; HGetObject]).
  { repeat constructor. }
  assert (Hret :
    run_handler (env := Example.env_ok) (Example.worker 0) HDeleteObject
      (Example.job "delete_object") Example.state0
    = (Return tt, Example.job "delete_object",
       (run_handler (env := Example.env_ok) (Example.worker 0) HDeleteObject
          (Example.job "delete_object") Example.state0).2))
    by (by_evaluation).
  split; [exact Hin|]. split; [rewrite Hret; reflexivity|].
  destruct (proj1 (results_carry_response_fields (env := Example.env_ok) (Example.worker 0)
                     (Example.job "delete_object") Example.state0)
              HDeleteObject _ _ Hin Hret)
    as (conn & args & w & resp_headers & w1 & result & encoded
        & Hanswer & _ & _ & Hencoded & Hqueue & _ & _ & Htrans).
  exists conn, args, w, resp_headers, w1, result, encoded.
  split; [exact Hanswer|]. split; [exact Hencoded|]. split; [exact Hqueue|exact Htrans].
Defined.

Lemma pool_created_on_first_reference_witness :
  Example.job "delete_object" !! "storage_url" = Some Example.url
  /\ 0 <= concurrency (Example.worker 0)
  /\ conn_pools (Example.empty_state Example.world0) !! Example.url = None
  /\ ensure_pool (env := Example.env_ok) (Example.worker 0) (Example.job "delete_object")
       (Example.empty_state Example.world0)
     = (Return tt,
        set_pool Example.url
          {| create := Example.open_connection Example.url; maxsize := 2;
             queue := [2%nat; 3%nat] |}
          (set_outside
             {| Example.opened := 4; Example.closed := []; Example.clock := 100;
                Example.served := 0 |}
             (Example.empty_state Example.world0))).
Proof.
  assert (Hurl : Example.job "delete_object" !! "storage_url" = Some Example.url)
    by (by_evaluation).
  assert (Hconc : 0 <= concurrency (Example.worker 0)) by (cbn; lia).
  assert (Hnew : conn_pools (Example.empty_state Example.world0) !! Example.url = None)
    by reflexivity.
  split; [exact Hurl|]. split; [exact Hconc|]. split; [exact Hnew|].
  exact (proj1 (proj1 (pool_created_on_first_reference (env := Example.env_ok)
                         (Example.worker 0) (Example.job "delete_object")
                         (Example.empty_state Example.world0) Example.url Hurl Hconc)
                  Hnew)).
Defined.

Lemma update_is_upload_with_letter_B_witness :
  (forall conn args (r1 r2 : ChunkedReader) w,
     size r1 = size r2 ->
     fn_call (put_object (Collaborators := Example.env_ok)) conn
       (<["contents" := AReader r1]> args) w
     = fn_call (put_object (Collaborators := Example.env_ok)) conn
         (<["contents" := AReader r2]> args) w)
  /\ handle_update_object (env := Example.env_ok) (Example.worker 0)
       (Example.job "update_object") Example.state0
     = handle_upload_object (env := Example.env_ok) (Example.worker 0)
         (Example.job "update_object") "A" Example.state0.
Proof.
  assert (Hpayload : forall conn args (r1 r2 : ChunkedReader) w,
            size r1 = size r2 ->
            fn_call (put_object (Collaborators := Example.env_ok)) conn
              (<["contents" := AReader r1]> args) w
            = fn_call (put_object (Collaborators := Example.env_ok)) conn
                (<["contents" := AReader r2]> args) w)
    by (intros conn args r1 r2 w _; reflexivity).
  split; [exact Hpayload|].
  exact (proj2 (proj2 (proj2 (update_is_upload_with_letter_B (env := Example.env_ok)
                                (Example.worker 0) (Example.job "update_object")
                                Example.state0)))
           Hpayload "B"%string "A"%string).
Defined.

(** * Further properties of the module *)

(** ** [add_dicts] *)

(** X1. With no positional dict the result is the keywords; a key of the
    keywords reads the keyword's value whatever the positional dicts hold;
    any other key reads the last positional dict that has it. *)
Theorem add_dicts_overrides (args : list PyDict) (d kwargs : PyDict) (key : string) :
  add_dicts [] kwargs = kwargs
  /\ (forall v, kwargs !! key = Some v -> add_dicts args kwargs !! key = Some v)
  /\ (kwargs !! key = None ->
      add_dicts (args ++ [d]) kwargs !! key
      = match d !! key with
        | Some v => Some v
        | None => add_dicts args kwargs !! key
        end).
Proof.
  unfold add_dicts. split; [|split].
  - cbn. apply (right_id_L ∅ (∪)).
  - intros v Hv. apply lookup_union_Some_l. exact Hv.
  - intros Hnone. rewrite foldl_snoc.
    rewrite (lookup_union_r kwargs _ key Hnone).
    rewrite (lookup_union_r kwargs (foldl _ _ args) key Hnone).
    destruct (d !! key) as [v|] eqn:Hd.
    + apply lookup_union_Some_l. exact Hd.
    + apply lookup_union_r. exact Hd.
Qed.

Lemma add_dicts_overrides_witness :
  ({[ "trans_id" := VNone ]} : PyDict) !! "name" = None
  /\ add_dicts ([Example.job "get_object"] ++ [{[ "name" := VStr "other" ]}])
       {[ "trans_id" := VNone ]} !! "name"
     = Some (VStr "other").
Proof.
  assert (Hnone : ({[ "trans_id" := VNone ]} : PyDict) !! "name" = None) by reflexivity.
  split; [exact Hnone|].
  exact (proj2 (proj2 (add_dicts_overrides [Example.job "get_object"]
                         {[ "name" := VStr "other" ]} {[ "trans_id" := VNone ]} "name"))
           Hnone).
Defined.

(** ** [ChunkedReader] *)

Lemma string_length_append (s1 s2 : string) :
  String.length (s1 +:+ s2) = (String.length s1 + String.length s2)%nat.
Proof.
  induction s1 as [|c s1 IH]; [reflexivity|].
  change (S (String.length (s1 +:+ s2)) = S (String.length s1 + String.length s2)).
  f_equal. exact IH.
Qed.

Lemma replicate_length (n : nat) (s : string) :
  String.length (PyStr.replicate n s) = (n * String.length s)%nat.
Proof.
  induction n as [|n IH]; cbn [PyStr.replicate]; [reflexivity|].
  rewrite string_length_append, IH. reflexivity.
Qed.

Lemma take_length (n : nat) (s : string) :
  String.length (PyStr.take n s) = (n `min` String.length s)%nat.
Proof.
  revert s; induction n as [|n IH]; intros [|c s]; try reflexivity.
  change (S (String.length (PyStr.take n s)) = S (n `min` String.length s)).
  f_equal. apply IH.
Qed.

(** X2. Two readers compare equal exactly when they were built with the same
    size and letter, and then all their fields agree, the chunk included,
    so that every [read] gives the same on both; compared with anything
    that is not a reader, [__eq__] gives [None], not [False]. *)
Theorem equal_readers_are_alike (letter1 letter2 : string) (size1 size2 : Z) (v : PyVal) :
  let r1 := Reader.init letter1 size1 in
  let r2 := Reader.init letter2 size2 in
  (ChunkedReader_eq r1 (AReader r2) = Some true <-> size1 = size2 /\ letter1 = letter2)
  /\ (ChunkedReader_eq r1 (AReader r2) = Some true ->
      r1 = r2 /\ forall n, Reader.read r1 n = Reader.read r2 n)
  /\ ChunkedReader_eq r1 (AVal v) = None.
Proof.
  intros r1 r2.
  assert (Hiff : ChunkedReader_eq r1 (AReader r2) = Some true
                 <-> size1 = size2 /\ letter1 = letter2).
  { unfold ChunkedReader_eq; cbn [size letter r1 r2 Reader.init]. split.
    - intros [= H]. apply andb_true_iff in H as [H1 H2].
      split; [exact (proj1 (bool_decide_eq_true _) H1)
             |exact (proj1 (bool_decide_eq_true _) H2)].
    - intros [-> ->]. f_equal. apply andb_true_iff.
      split; apply bool_decide_eq_true; reflexivity. }
  split; [exact Hiff|]. split; [|reflexivity].
  intros Heq. apply Hiff in Heq as [-> ->]. split; reflexivity.
Qed.

Lemma equal_readers_are_alike_witness :
  ChunkedReader_eq (Reader.init "A" 10) (AReader (Reader.init "A" 10)) = Some true
  /\ Reader.init "A" 10 = Reader.init "A" 10.
Proof.
  assert (Heq : ChunkedReader_eq (Reader.init "A" 10) (AReader (Reader.init "A" 10))
                = Some true) by reflexivity.
  split; [exact Heq|].
  exact (proj1 (proj1 (proj2 (equal_readers_are_alike "A" "A" 10 10 VNone)) Heq)).
Defined.

(** X3. The length of what [read(n)] returns, for any fill string and any [n]:
    the chunk holds [len(letter) * 2^21] characters whatever the size the
    reader was built with, a bound [n >= 0] cuts it there, and a negative
    [n] drops that many characters from its end. *)
Theorem read_length (fill : string) (sz n : Z) :
  let total := Z.of_nat (String.length fill) * 2 ^ 21 in
  Z.of_nat (String.length (Reader.read (Reader.init fill sz) n).1)
  = if n <? 0 then Z.max 0 (total + n) else Z.min n total.
Proof.
  intros total. unfold Reader.read, Reader.init; cbn [fst chunk].
  unfold PyStr.slice_to, PyStr.mul.
  assert (Hchunk : Z.of_nat (String.length
                               (PyStr.replicate (Z.to_nat Reader.chunk_size) fill))
                   = total).
  { rewrite replicate_length, Nat2Z.inj_mul, Z2Nat.id by (unfold Reader.chunk_size; lia).
    unfold total, Reader.chunk_size. lia. }
  destruct (Z.ltb_spec n 0) as [Hneg|Hpos]; rewrite take_length; lia.
Qed.

(** ** [ConnectionPool.__init__] *)

Section PoolInit.

Context {World Conn : Type}.

(** X4. Building a pool never waits: it calls the factory [maxsize] times (not
    at all for a [maxsize] below one) and holds what the calls returned, in
    order.  For a [maxsize] of one or more the new pool is full, so that a
    [put] with no [get] before it would wait; for a [maxsize] of zero or
    less the new pool is empty and has no bound. *)
Theorem new_pool_is_filled (factory : World -> Conn * World) (capacity : Z) (w : World) :
  let made := make_connections factory (Z.to_nat capacity) w in
  let pool := {| create := factory; maxsize := capacity; queue := made.1 |} in
  ConnectionPool_init factory capacity w = (Return pool, made.2)
  /\ Z.of_nat (List.length (queue pool)) = Z.max 0 capacity
  /\ pool_full pool = (0 <? capacity).
Proof.
  intros made pool.
  assert (Hlen : Z.of_nat (List.length (queue pool)) = Z.max 0 capacity).
  { unfold pool, made; cbn [queue]. rewrite make_connections_length. lia. }
  split; [|split; [exact Hlen|]].
  - unfold ConnectionPool_init. subst pool made.
    destruct (Z.ltb_spec capacity 0) as [Hneg|Hpos].
    + assert (Hzero : Z.to_nat capacity = 0%nat) by lia. rewrite Hzero. reflexivity.
    + rewrite pool_fill_makes by (cbn [queue maxsize List.length]; lia).
      reflexivity.
  - unfold pool_full. rewrite Hlen. cbn [maxsize pool].
    destruct (Z.ltb_spec 0 capacity) as [Hpos|Hneg]; cbn [andb]; [|reflexivity].
    apply Z.leb_le. lia.
Qed.

End PoolInit.

(** ** [Worker.ignoring_http_responses] *)

Section RetryLoopRule.

Context {World Conn : Type} {env : Collaborators World Conn}.
Context {R : Type} {truthy_R : Truthy R}.

#[local] Abbreviation State := (State World Conn).

Lemma connection_finally_calls (storage_url : PyVal) (hc : Conn) (st : State) :
  fn_calls (connection_finally storage_url hc st).2 = fn_calls st.
Proof. unfold connection_finally. repeat case_match; reflexivity. Qed.

Lemma connection_exit_calls (storage_url : PyVal) (hc : Conn) (how : BodyExit) (st : State) :
  fn_calls (connection_exit storage_url hc how st).2 = fn_calls st.
Proof.
  unfold connection_exit.
  destruct how as [|e].
  - pose proof (connection_finally_calls storage_url hc st).
    destruct (connection_finally storage_url hc st) as [[?|?|] ?]; assumption.
  - destruct (is_broken_connection e).
    + destruct (conn_close hc (outside st)) as [closing w1].
      destruct (conn_pools (set_outside w1 st) !! storage_url) as [pool|]; [|reflexivity].
      destruct (create pool (outside (set_outside w1 st))) as [hc1 w2].
      pose proof (connection_finally_calls storage_url hc1
                    (set_outside w2 (set_outside w1 st))).
      destruct (connection_finally storage_url hc1 _) as [[?|?|] ?]; assumption.
    + pose proof (connection_finally_calls storage_url hc st).
      destruct (connection_finally storage_url hc st) as [[?|?|] ?]; assumption.
Qed.

(** An attempt calls the storage function once or not at all. *)
Lemma attempt_calls (fn : StorageFn World Conn R) (call_info : PyDict)
  (args : gmap string ArgVal) (st : State) :
  (fn_calls st <= fn_calls (attempt fn call_info args st).2 <= S (fn_calls st))%nat.
Proof.
  unfold attempt. destruct (call_info !! "storage_url") as [storage_url|]; [|cbn; lia].
  unfold with_connection, connection_enter.
  destruct (conn_pools st !! storage_url) as [pool|]; [|cbn; lia].
  destruct (pool_get pool) as [[hc pool1]|]; [|cbn; lia].
  unfold call_fn.
  destruct (fn_call fn hc args (outside (set_pool storage_url pool1 st))) as [[r|e|] w].
  - pose proof (connection_exit_calls storage_url hc ExitNormally
                  (count_call (set_outside w (set_pool storage_url pool1 st)))) as H.
    destruct (connection_exit storage_url hc ExitNormally _) as [[?|?|] ?];
      cbn in *; lia.
  - pose proof (connection_exit_calls storage_url hc (ExitRaising e)
                  (count_call (set_outside w (set_pool storage_url pool1 st)))) as H.
    destruct (connection_exit storage_url hc (ExitRaising e) _) as [[[|]|?|] ?];
      cbn in *; lia.
  - cbn. lia.
Qed.

(** X5. Whatever the storage function does, [ignoring_http_responses] calls it
    at most [max_retries + 1] times (once, for a [max_retries] below one),
    and it returns only a value that is true: a false answer is never handed
    to the handler. *)
Theorem retry_loop_is_bounded (self : Worker) (statuses : list Z)
  (fn : StorageFn World Conn R) (call_info : PyDict) (extra_keys : gmap string ArgVal)
  (st : State) :
  let done := ignoring_http_responses self statuses fn call_info extra_keys st in
  (fn_calls st <= fn_calls done.2)%nat
  /\ Z.of_nat (fn_calls done.2) <= Z.of_nat (fn_calls st) + Z.max 0 (max_retries self) + 1
  /\ (forall r, done.1 = Return r -> truth r = true).
Proof.
  cbn zeta. unfold ignoring_http_responses.
  destruct (call_args call_info extra_keys) as [e|args]; cbn [fst snd].
  { split; [lia|]. split; [lia|]. discriminate. }
  split; [|split].
  - apply (retry_loop_keeps (fun s => (fn_calls st <= fn_calls s)%nat) self statuses fn
             call_info args) with (n := Z.to_nat (max_retries self + 1 - 0)); [|lia|lia].
    intros s Hs. pose proof (attempt_calls fn call_info args s). lia.
  - apply (retry_loop_rule self statuses fn call_info args
             (fun tries s => 0 <= tries <= Z.max 0 (max_retries self)
                             /\ Z.of_nat (fn_calls s) <= Z.of_nat (fn_calls st) + tries)
             (fun done => Z.of_nat (fn_calls done.2)
                          <= Z.of_nat (fn_calls st) + Z.max 0 (max_retries self) + 1))
      with (n := Z.to_nat (max_retries self + 1 - 0)); [|lia|lia].
    intros tries s [Htries Hcalls].
    pose proof (attempt_calls fn call_info args s) as Hatt.
    destruct (attempt fn call_info args s) as [[fn_results|e|] s1]; cbn [snd] in *.
    + destruct (results_truth fn_results); [lia|].
      destruct (decide (tries + 1 > max_retries self)); cbn [snd]; lia.
    + destruct e; cbn [snd]; try lia.
      * destruct (decide (tries + 1 > max_retries self)); cbn [snd]; lia.
      * destruct (decide (http_status ∈ statuses /\ tries + 1 <= max_retries self));
          cbn [snd]; lia.
    + lia.
  - apply (retry_loop_rule self statuses fn call_info args
             (fun _ _ => True)
             (fun done => forall r, done.1 = Return r -> truth r = true))
      with (n := Z.to_nat (max_retries self + 1 - 0)); [|lia|exact I].
    intros tries s _.
    destruct (attempt fn call_info args s) as [[fn_results|e|] s1].
    + destruct (results_truth fn_results) as [r|] eqn:Htruth.
      * intros r0 [= <-]. unfold results_truth in Htruth.
        destruct fn_results as [r1|]; [|discriminate].
        destruct (truth r1) eqn:Hr1; [|discriminate].
        now injection Htruth as <-.
      * destruct (decide (tries + 1 > max_retries self)); [discriminate|exact I].
    + destruct e; try discriminate.
      * destruct (decide (tries + 1 > max_retries self)); [discriminate|exact I].
      * destruct (decide (http_status ∈ statuses /\ tries + 1 <= max_retries self));
          [exact I|discriminate].
    + discriminate.
Qed.

End RetryLoopRule.

Section RetryOutcomes.

Context {World Conn : Type} {env : Collaborators World Conn}.
Context {R : Type} {truthy_R : Truthy R}.

#[local] Abbreviation State := (State World Conn).

Section AlwaysFails.

Variables (self : Worker) (statuses : list Z) (fn : StorageFn World Conn R).
Variables (call_info : PyDict) (args : gmap string ArgVal) (storage_url : PyVal).
Variable e : PyExc.
Hypothesis Hurl : call_info !! "storage_url" = Some storage_url.
Hypothesis Hfails : forall conn a w, (fn_call fn conn a w).1 = Raise e.
Hypothesis Hretryable :
  (exists msg, e = SocketError msg)
  \/ (exists msg http_status, e = ClientException msg http_status /\ http_status ∈ statuses).

Lemma failing_attempt (tries : Z) (st : State) :
  pool_ready storage_url st = true ->
  exists st1,
    pool_ready storage_url st1 = true
    /\ fn_calls st1 = S (fn_calls st)
    /\ retry_loop self statuses fn call_info args tries st
       = if decide (tries + 1 > max_retries self) then (Raise e, st1)
         else retry_loop self statuses fn call_info args (tries + 1) st1.
Proof.
  intros Hready.
  destruct (attempt_ready fn call_info args st storage_url Hurl Hready)
    as (pool & hc & rest & st1 & _ & _ & Hatt & Hcalls & _ & Hnext).
  rewrite Hfails in Hatt, Hnext.
  exists st1. split; [apply Hnext; discriminate|]. split; [exact Hcalls|].
  rewrite retry_loop_step.
  destruct Hretryable as [[msg ->]|(msg & http_status & -> & Hin)];
    cbn [is_broken_connection] in Hatt; rewrite Hatt.
  - reflexivity.
  - destruct (decide (tries + 1 > max_retries self)) as [Hgt|Hngt];
      destruct (decide (http_status ∈ statuses /\ tries + 1 <= max_retries self))
        as [[_ Hle]|Hnot]; try reflexivity; try lia.
    exfalso. apply Hnot. split; [exact Hin|lia].
Qed.

Lemma always_failing_exhausts (n : nat) :
  forall (tries : Z) (st : State),
    tries <= max_retries self -> n = Z.to_nat (max_retries self - tries) ->
    pool_ready storage_url st = true ->
    exists st',
      retry_loop self statuses fn call_info args tries st = (Raise e, st')
      /\ fn_calls st' = (fn_calls st + n + 1)%nat
      /\ pool_ready storage_url st' = true.
Proof.
  induction n as [|n IH]; intros tries st Hle Hn Hready;
    destruct (failing_attempt tries st Hready) as (st1 & Hready1 & Hcalls & Hloop);
    rewrite Hloop;
    destruct (decide (tries + 1 > max_retries self)) as [Hgt|Hngt]; try lia.
  - exists st1. split; [reflexivity|]. split; [lia|exact Hready1].
  - destruct (IH (tries + 1) st1) as (st' & Hloop' & Hcalls' & Hready');
      [lia|lia|exact Hready1|].
    exists st'. split; [exact Hloop'|]. split; [lia|exact Hready'].
Qed.

End AlwaysFails.

(** X6. A storage function that every time raises [socket.error], or a
    [ClientException] whose status is in the retryable set, is called
    exactly [max_retries + 1] times; then that exception is raised to the
    handler.  The pool ends ready, with a connection given back after each
    call.  So a delete of an object that stays missing (404 is in delete's
    set) ends as a failure after [max_retries + 1] attempts. *)
Theorem retryable_errors_exhaust_retries (self : Worker) (statuses : list Z)
  (fn : StorageFn World Conn R) (call_info : PyDict) (extra_keys args : gmap string ArgVal)
  (storage_url : PyVal) (st : State) (e : PyExc) :
  0 <= max_retries self ->
  call_info !! "storage_url" = Some storage_url ->
  call_args call_info extra_keys = inr args ->
  pool_ready storage_url st = true ->
  (forall conn a w, (fn_call fn conn a w).1 = Raise e) ->
  ((exists msg, e = SocketError msg)
   \/ (exists msg http_status,
         e = ClientException msg http_status /\ http_status ∈ statuses)) ->
  exists st',
    ignoring_http_responses self statuses fn call_info extra_keys st = (Raise e, st')
    /\ fn_calls st' = (fn_calls st + Z.to_nat (max_retries self) + 1)%nat
    /\ pool_ready storage_url st' = true.
Proof.
  intros Hpos Hurl Hargs Hready Hfails Hretryable.
  unfold ignoring_http_responses. rewrite Hargs.
  apply (always_failing_exhausts self statuses fn call_info args storage_url e Hurl
           Hfails Hretryable (Z.to_nat (max_retries self)) 0 st);
    [lia|f_equal; lia|exact Hready].
Qed.

(** X7. The first call decides at once in two cases.  When it returns a value
    that is true, that value is returned after this one call.  When it
    raises an exception that is neither a broken connection, nor
    [socket.error], nor [ClientException], the exception goes to the
    handler after this one call, whatever [max_retries] is.  In both cases
    the pool is ready again. *)
Theorem first_call_decides (self : Worker) (statuses : list Z)
  (fn : StorageFn World Conn R) (call_info : PyDict) (extra_keys args : gmap string ArgVal)
  (storage_url : PyVal) (st : State) :
  call_info !! "storage_url" = Some storage_url ->
  call_args call_info extra_keys = inr args ->
  pool_ready storage_url st = true ->
  (forall r,
     (forall conn, (fn_call fn conn args (outside st)).1 = Return r) ->
     truth r = true ->
     exists st',
       ignoring_http_responses self statuses fn call_info extra_keys st = (Return r, st')
       /\ fn_calls st' = S (fn_calls st)
       /\ pool_ready storage_url st' = true)
  /\ (forall e,
        (forall conn, (fn_call fn conn args (outside st)).1 = Raise e) ->
        is_broken_connection e = false ->
        (forall msg, e <> SocketError msg) ->
        (forall msg http_status, e <> ClientException msg http_status) ->
        exists st',
          ignoring_http_responses self statuses fn call_info extra_keys st = (Raise e, st')
          /\ fn_calls st' = S (fn_calls st)
          /\ pool_ready storage_url st' = true).
Proof.
  intros Hurl Hargs Hready.
  destruct (attempt_ready fn call_info args st storage_url Hurl Hready)
    as (pool & hc & rest & st1 & _ & _ & Hatt & Hcalls & _ & Hnext).
  unfold ignoring_http_responses. rewrite Hargs, retry_loop_step. split.
  - intros r Hret Htrue. rewrite (Hret hc) in Hatt, Hnext. rewrite Hatt.
    unfold results_truth. rewrite Htrue.
    exists st1. split; [reflexivity|]. split; [exact Hcalls|apply Hnext; discriminate].
  - intros e Hraise Hbroken Hsock Hclient. rewrite (Hraise hc) in Hatt, Hnext.
    rewrite Hbroken in Hatt. rewrite Hatt.
    exists st1. split; [|split; [exact Hcalls|apply Hnext; discriminate]].
    destruct e; try reflexivity.
    + exfalso. exact (Hsock _ eq_refl).
    + exfalso. exact (Hclient _ _ eq_refl).
Qed.

(** X8. [ignoring_http_responses] fails before it borrows a connection or
    calls the storage function, and leaves the state as it was: with
    [KeyError] for the first of [storage_url], [token], [container], [name]
    that the job lacks, and with [KeyError] for the endpoint when no pool
    was made for it.  On a pool that exists but is empty it waits, again
    without a call. *)
Theorem fails_before_calling (self : Worker) (statuses : list Z)
  (fn : StorageFn World Conn R) (call_info : PyDict) (extra_keys : gmap string ArgVal)
  (st : State) :
  let run := ignoring_http_responses self statuses fn call_info extra_keys st in
  (call_info !! "storage_url" = None -> run = (Raise (KeyError (VStr "storage_url")), st))
  /\ (is_Some (call_info !! "storage_url") -> call_info !! "token" = None ->
      run = (Raise (KeyError (VStr "token")), st))
  /\ (is_Some (call_info !! "storage_url") -> is_Some (call_info !! "token") ->
      call_info !! "container" = None ->
      run = (Raise (KeyError (VStr "container")), st))
  /\ (is_Some (call_info !! "storage_url") -> is_Some (call_info !! "token") ->
      is_Some (call_info !! "container") -> call_info !! "name" = None ->
      run = (Raise (KeyError (VStr "name")), st))
  /\ (forall storage_url args,
        call_info !! "storage_url" = Some storage_url ->
        call_args call_info extra_keys = inr args ->
        (conn_pools st !! storage_url = None -> run = (Raise (KeyError storage_url), st))
        /\ (forall pool, conn_pools st !! storage_url = Some pool -> queue pool = [] ->
            run = (Blocked, st))).
Proof.
  cbn zeta. unfold ignoring_http_responses, call_args.
  split; [intros ->; reflexivity|].
  split; [intros [url ->] ->; reflexivity|].
  split; [intros [url ->] [token ->] ->; reflexivity|].
  split; [intros [url ->] [token ->] [container ->] ->; reflexivity|].
  intros storage_url args Hurl Hargs. rewrite Hurl in *.
  destruct (call_info !! "token"); [|discriminate].
  destruct (call_info !! "container"); [|discriminate].
  destruct (call_info !! "name"); [|discriminate].
  split.
  - intros Hnone. rewrite retry_loop_step. unfold attempt. rewrite Hurl.
    unfold with_connection, connection_enter. rewrite Hnone. reflexivity.
  - intros pool Hpool Hempty. rewrite retry_loop_step. unfold attempt. rewrite Hurl.
    unfold with_connection, connection_enter, pool_get. rewrite Hpool, Hempty.
    reflexivity.
Qed.

End RetryOutcomes.

(** ** [Worker.handle_job] and [Worker.go] *)

Section OneResult.

Context {World Conn : Type} {env : Collaborators World Conn}.

#[local] Abbreviation State := (State World Conn).
#[local] Abbreviation Handled := (Handled World Conn).

(** X9. For every job and every state, [handle_job] queues exactly one record
    when it returns and none when it raises or waits.  When it picks no
    handler (the type names none, or the job has no type) it raises with the
    state and the job as they were. *)
Theorem one_result_per_handled_job (self : Worker) (job_data : PyDict) (st : State) :
  match handle_job self job_data st with
  | (Return _, _, st1) => exists r, result_queue st1 = result_queue st ++ [r]
  | (Raise _, _, st1) => result_queue st1 = result_queue st
  | (Blocked, _, st1) => result_queue st1 = result_queue st
  end
  /\ ((forall handler, pick_handler job_data <> inr (Some handler)) ->
      exists e, handle_job self job_data st = (Raise e, job_data, st)).
Proof.
  split.
  - pose proof (handle_job_at_queue recursion_limit self job_data st) as Hq.
    unfold handle_job.
    destruct (handle_job_at recursion_limit self job_data st)
      as [[[[]|e|] job_data1] st1]; exact Hq.
  - intros Hnone. rewrite handle_job_unfold.
    destruct (pick_handler job_data) as [e|[handler|]]; [eauto| |eauto].
    destruct (Hnone handler eq_refl).
Qed.

End OneResult.

Section IntakeLoop.

Context {World Conn : Type} {env : Collaborators World Conn}.

#[local] Abbreviation State := (State World Conn).

(** With a concurrency that is not negative, the pool of a job that names
    its endpoint is there after lines 142 to 147, which queue nothing and
    call no storage function. *)
Lemma ensure_pool_returns (self : Worker) (job_data : PyDict) (st : State)
  (storage_url : PyVal) :
  job_data !! "storage_url" = Some storage_url -> 0 <= concurrency self ->
  exists st1,
    ensure_pool self job_data st = (Return tt, st1)
    /\ result_queue st1 = result_queue st
    /\ fn_calls st1 = fn_calls st
    /\ is_Some (conn_pools st1 !! storage_url).
Proof.
  intros Hurl Hconc. unfold ensure_pool. rewrite Hurl.
  destruct (conn_pools st !! storage_url) as [pool|] eqn:Hpool.
  - exists st. rewrite Hpool. repeat split. eauto.
  - unfold ConnectionPool_init.
    rewrite pool_fill_makes by (cbn [queue maxsize List.length]; lia).
    eexists. split; [reflexivity|]. split; [reflexivity|]. split; [reflexivity|].
    rewrite lookup_set_pool. eauto.
Qed.

(** X10. [go] reads four keys of every job before it starts the job, and a
    job that lacks one ends [go] with [KeyError] for the first one missing,
    in the order [type], [container], [name], [storage_url], with nothing
    done for the job.  This holds for a no-op job as for any other. *)
Theorem go_needs_job_keys (self : Worker) (job : string) (inbox : list string)
  (st : State) (job_data : PyDict) :
  job <> ""%string -> 0 <= concurrency self -> msgpack_loads job = inr job_data ->
  let run := go self (job :: inbox) st in
  (job_data !! "type" = None -> run = (Raise (KeyError (VStr "type")), st))
  /\ (is_Some (job_data !! "type") -> job_data !! "container" = None ->
      run = (Raise (KeyError (VStr "container")), st))
  /\ (is_Some (job_data !! "type") -> is_Some (job_data !! "container") ->
      job_data !! "name" = None ->
      run = (Raise (KeyError (VStr "name")), st))
  /\ (is_Some (job_data !! "type") -> is_Some (job_data !! "container") ->
      is_Some (job_data !! "name") -> job_data !! "storage_url" = None ->
      run = (Raise (KeyError (VStr "storage_url")), st)).
Proof.
  intros Hne Hconc Hloads. cbn zeta. unfold go.
  destruct (Z.ltb_spec (concurrency self) 0) as [Hneg|_]; [lia|].
  cbn [go_loop]. destruct (String.eqb_spec job "") as [Hempty|_]; [contradiction|].
  unfold go_step, logged_keys, ensure_pool. rewrite Hloads.
  split; [intros ->; reflexivity|].
  split; [intros [? ->] ->; reflexivity|].
  split; [intros [? ->] [? ->] ->; reflexivity|].
  intros [? ->] [? ->] [? ->] ->. reflexivity.
Qed.

(** X11. A job whose type names no handler gets no result: its pool is made if
    the endpoint is new, the task started for it ends with the [NameError],
    and [go] goes on with the next message, the result queue as it was. *)
Theorem unknown_type_is_dropped (self : Worker) (job : string) (inbox : list string)
  (st : State) (job_data : PyDict) (storage_url : PyVal) :
  job <> ""%string -> 0 < concurrency self -> msgpack_loads job = inr job_data ->
  logged_keys job_data = None ->
  job_data !! "storage_url" = Some storage_url ->
  pick_handler job_data = inr None ->
  exists st1,
    ensure_pool self job_data st = (Return tt, st1)
    /\ go self (job :: inbox) st = go_loop self inbox st1
    /\ result_queue st1 = result_queue st
    /\ fn_calls st1 = fn_calls st.
Proof.
  intros Hne Hconc Hloads Hkeys Hurl Hpick.
  destruct (ensure_pool_returns self job_data st storage_url Hurl ltac:(lia))
    as (st1 & Hens & Hq & Hcalls & _).
  exists st1. split; [exact Hens|]. split; [|split; [exact Hq|exact Hcalls]].
  unfold go. destruct (Z.ltb_spec (concurrency self) 0) as [Hneg|_]; [lia|].
  cbn [go_loop]. destruct (String.eqb_spec job "") as [Hempty|_]; [contradiction|].
  unfold go_step. rewrite Hloads, Hkeys, Hens. unfold spawn_handle_job.
  destruct (Z.eqb_spec (concurrency self) 0) as [Hzero|_]; [lia|].
  rewrite handle_job_unfold, Hpick. reflexivity.
Qed.

Lemma go_loop_after_end (self : Worker) (post : list string) (pre : list string) :
  forall st : State,
    go_loop self (pre ++ ""%string :: post) st = go_loop self (pre ++ [""%string]) st.
Proof.
  induction pre as [|job pre IH]; intros st; cbn [app go_loop]; [reflexivity|].
  destruct (String.eqb job ""); [reflexivity|].
  destruct (go_step self job st) as [[[]|e|] st1]; [apply IH|reflexivity|reflexivity].
Qed.

Lemma go_loop_returns (self : Worker) (inbox : list string) :
  forall st : State, (go_loop self inbox st).1 = Return tt -> ""%string ∈ inbox.
Proof.
  induction inbox as [|job inbox IH]; intros st; cbn [go_loop]; [discriminate|].
  destruct (String.eqb_spec job "") as [->|Hne]; [intros _; left|].
  destruct (go_step self job st) as [[[]|e|] st1]; [|discriminate|discriminate].
  intros Hret. right. exact (IH st1 Hret).
Qed.

(** X12. [go] stops reading at the first empty message: what follows it has no
    effect; and [go] returns only if there was an empty message. *)
Theorem go_ends_at_empty_message (self : Worker) (pre post inbox : list string)
  (st : State) :
  go self (pre ++ ""%string :: post) st = go self (pre ++ [""%string]) st
  /\ ((go self inbox st).1 = Return tt -> ""%string ∈ inbox).
Proof.
  unfold go. destruct (concurrency self <? 0); [split; [reflexivity|discriminate]|].
  split; [apply go_loop_after_end|apply go_loop_returns].
Qed.

End IntakeLoop.

(** ** Runs that never wait *)

Section ReadyPools.

Context {World Conn : Type} {env : Collaborators World Conn}.

#[local] Abbreviation State := (State World Conn).
#[local] Abbreviation Handled := (Handled World Conn).

Lemma pool_ready_pools (storage_url : PyVal) (a b : State) :
  conn_pools a !! storage_url = conn_pools b !! storage_url ->
  pool_ready storage_url a = pool_ready storage_url b.
Proof. unfold pool_ready. now intros ->. Qed.

Lemma all_pools_ready_pools (a b : State) :
  conn_pools a = conn_pools b -> all_pools_ready a -> all_pools_ready b.
Proof.
  intros Heq Ha url Hsome. rewrite <- (pool_ready_pools url a b) by now rewrite Heq.
  apply Ha. now rewrite Heq.
Qed.

(** A handler that ends with [put_results] does not wait there, and the
    pools stay as they were. *)
Lemma ends_with_put_results_ready (self : Worker) (args : list PyDict) (kwargs : PyDict)
  (job_data : PyDict) (st : State) :
  all_pools_ready st ->
  (ends_with (put_results self args kwargs st) job_data).1.1 <> Blocked
  /\ all_pools_ready (ends_with (put_results self args kwargs st) job_data).2.
Proof.
  intros Hready. unfold ends_with; cbn [fst snd]. split.
  - destruct (put_results_cases self args kwargs st) as [(encoded & _ & ->)|(e & ->)];
      discriminate.
  - apply (all_pools_ready_pools st); [|exact Hready].
    symmetry. apply put_results_frame.
Qed.

(** An attempt with a storage function that comes back does not wait and
    leaves every pool ready. *)
Lemma attempt_keeps_ready {R : Type} (fn : StorageFn World Conn R) (call_info : PyDict)
  (args : gmap string ArgVal) (st : State) :
  comes_back fn -> all_pools_ready st ->
  (attempt fn call_info args st).1 <> Blocked
  /\ all_pools_ready (attempt fn call_info args st).2.
Proof.
  intros Hback Hready.
  destruct (call_info !! "storage_url") as [storage_url|] eqn:Hurl;
    [|unfold attempt; rewrite Hurl; split; [discriminate|exact Hready]].
  destruct (conn_pools st !! storage_url) as [pool|] eqn:Hpool.
  - destruct (attempt_ready fn call_info args st storage_url Hurl
                (Hready storage_url ltac:(rewrite Hpool; eauto)))
      as (pool0 & hc & rest & st1 & Hpool0 & Hq & Hatt & _ & _ & Hnext).
    destruct (Hnext (Hback hc args (outside st))) as (Hready1 & c & Hpools).
    rewrite Hatt; cbn [fst snd]. split.
    + pose proof (Hback hc args (outside st)) as Hb.
      destruct (fn_call fn hc args (outside st)).1 as [r|e|];
        [discriminate|destruct (is_broken_connection e); discriminate|contradiction].
    + intros url Hsome. destruct (decide (url = storage_url)) as [->|Hne];
        [exact Hready1|].
      rewrite (pool_ready_pools url st1 st)
        by (rewrite Hpools; now apply lookup_insert_ne).
      apply Hready. rewrite Hpools, lookup_insert_ne in Hsome by done. exact Hsome.
  - unfold attempt, with_connection, connection_enter. rewrite Hurl, Hpool.
    split; [discriminate|exact Hready].
Qed.

Lemma ignoring_http_responses_keeps_ready {R : Type} {truthy_R : Truthy R}
  (self : Worker) (statuses : list Z) (fn : StorageFn World Conn R) (call_info : PyDict)
  (extra_keys : gmap string ArgVal) (st : State) :
  comes_back fn -> all_pools_ready st ->
  (ignoring_http_responses self statuses fn call_info extra_keys st).1 <> Blocked
  /\ all_pools_ready (ignoring_http_responses self statuses fn call_info extra_keys st).2.
Proof.
  intros Hback Hready. unfold ignoring_http_responses.
  destruct (call_args call_info extra_keys) as [e|args];
    [split; [discriminate|exact Hready]|].
  apply (retry_loop_rule self statuses fn call_info args
           (fun _ s => all_pools_ready s)
           (fun done => done.1 <> Blocked /\ all_pools_ready done.2))
    with (n := Z.to_nat (max_retries self + 1 - 0)); [|lia|exact Hready].
  intros tries s Hs.
  destruct (attempt_keeps_ready fn call_info args s Hback Hs) as [Hnb Hr].
  destruct (attempt fn call_info args s) as [[fn_results|e|] s1]; cbn [fst snd] in *.
  - destruct (results_truth fn_results); [split; [discriminate|exact Hr]|].
    destruct (decide (tries + 1 > max_retries self)); [split; [discriminate|]|];
      exact Hr.
  - destruct e; try (split; [discriminate|exact Hr]).
    + destruct (decide (tries + 1 > max_retries self)); [split; [discriminate|]|];
        exact Hr.
    + destruct (decide (http_status ∈ statuses /\ tries + 1 <= max_retries self));
        [|split; [discriminate|]]; exact Hr.
  - contradiction.
Qed.

Lemma after_storage_call_ready {R : Type} (self : Worker) (job_data : PyDict)
  (responded : Outcome R * State) (headers_of : R -> PyDict) :
  responded.1 <> Blocked -> all_pools_ready responded.2 ->
  let handled : Handled :=
    match responded with
    | (Return r, st1) =>
        ends_with (_put_results_from_response self job_data (headers_of r) st1) job_data
    | (Raise e, st1) => (Raise e, job_data, st1)
    | (Blocked, st1) => (Blocked, job_data, st1)
    end in
  handled.1.1 <> Blocked /\ all_pools_ready handled.2.
Proof.
  destruct responded as [[r|e|] st1]; cbn [fst snd]; intros Hnb Hr; cbn zeta;
    [|split; [discriminate|exact Hr]|contradiction].
  now apply ends_with_put_results_ready.
Qed.

Section WithStorage.

Hypothesis Hput : comes_back put_object.
Hypothesis Hdelete : comes_back delete_object.
Hypothesis Hget : comes_back get_object.

Lemma handlers_keep_ready (recur : PyDict -> State -> Handled) (self : Worker)
  (handler : Handler) (job_data : PyDict) (st : State) :
  handler <> HJob -> all_pools_ready st ->
  (call_handler recur self handler job_data st).1.1 <> Blocked
  /\ all_pools_ready (call_handler recur self handler job_data st).2.
Proof.
  intros Hnot Hready. destruct handler; [contradiction| | | | |]; cbn [call_handler].
  - unfold handle_noop. now apply ends_with_put_results_ready.
  - unfold handle_upload_object.
    destruct (job_data !! "size") as [v|]; [|split; [discriminate|exact Hready]].
    destruct (py_int v) as [e|n]; [split; [discriminate|exact Hready]|].
    apply (after_storage_call_ready self _ _ (fun headers => headers));
      now apply ignoring_http_responses_keeps_ready.
  - unfold handle_update_object, handle_upload_object.
    destruct (job_data !! "size") as [v|]; [|split; [discriminate|exact Hready]].
    destruct (py_int v) as [e|n]; [split; [discriminate|exact Hready]|].
    apply (after_storage_call_ready self _ _ (fun headers => headers));
      now apply ignoring_http_responses_keeps_ready.
  - unfold handle_delete_object.
    apply (after_storage_call_ready self _ _ (fun headers => headers));
      now apply ignoring_http_responses_keeps_ready.
  - unfold handle_get_object.
    destruct (ignoring_http_responses_keeps_ready self [404; 503] get_object job_data
                {[ "resp_chunk_size" := AVal (VInt (2 ^ 16));
                   "toss_body" := AVal (VBool true) ]} st Hget Hready) as [Hnb Hr].
    pose proof (after_storage_call_ready self job_data _ fst Hnb Hr) as H.
    destruct (ignoring_http_responses self [404; 503] get_object job_data _ st)
      as [[[headers body]|e|] st1]; exact H.
Qed.

Lemma handle_job_at_keeps_ready (depth : nat) (self : Worker) :
  forall (job_data : PyDict) (st : State),
    all_pools_ready st ->
    (handle_job_at depth self job_data st).1.1 <> Blocked
    /\ all_pools_ready (handle_job_at depth self job_data st).2.
Proof.
  induction depth as [|depth IH]; intros job_data st Hready; cbn [handle_job_at];
    [split; [discriminate|exact Hready]|].
  unfold handle_job_body.
  destruct (pick_handler job_data) as [e|[handler|]];
    try (split; [discriminate|exact Hready]).
  assert (Hcall : (call_handler (handle_job_at depth self) self handler job_data st).1.1
                  <> Blocked
                  /\ all_pools_ready
                       (call_handler (handle_job_at depth self) self handler job_data st).2).
  { destruct handler; [now apply IH|..]; now apply handlers_keep_ready. }
  destruct (call_handler (handle_job_at depth self) self handler job_data st)
    as [[[[]|e|] job_data1] st1]; cbn [fst snd] in *; destruct Hcall as [Hnb Hr].
  - split; [discriminate|exact Hr].
  - now apply ends_with_put_results_ready.
  - contradiction.
Qed.

End WithStorage.

(** X13. If the three storage functions always come back and every pool is
    ready, [handle_job] never waits, whatever the job, and leaves every pool
    ready: each connection it borrowed has been given back or replaced. *)
Theorem handle_job_never_waits (self : Worker) (job_data : PyDict) (st : State) :
  comes_back put_object -> comes_back delete_object -> comes_back get_object ->
  all_pools_ready st ->
  (handle_job self job_data st).1.1 <> Blocked
  /\ all_pools_ready (handle_job self job_data st).2.
Proof.
  intros Hput Hdelete Hget Hready.
  now apply handle_job_at_keeps_ready.
Qed.

End ReadyPools.

Section SequentialRun.

Context {World Conn : Type} {env : Collaborators World Conn}.

#[local] Abbreviation State := (State World Conn).

Lemma ensure_pool_keeps_ready (self : Worker) (job_data : PyDict) (st : State) :
  0 < concurrency self -> is_Some (job_data !! "storage_url") -> all_pools_ready st ->
  exists st1,
    ensure_pool self job_data st = (Return tt, st1)
    /\ result_queue st1 = result_queue st
    /\ all_pools_ready st1.
Proof.
  intros Hconc [storage_url Hurl] Hready. unfold ensure_pool. rewrite Hurl.
  destruct (conn_pools st !! storage_url) as [pool|] eqn:Hpool.
  - exists st. repeat split. exact Hready.
  - unfold ConnectionPool_init.
    rewrite pool_fill_makes by (cbn [queue maxsize List.length]; lia).
    cbn [create queue maxsize app].
    eexists. split; [reflexivity|]. split; [reflexivity|].
    intros url Hsome. destruct (decide (url = storage_url)) as [->|Hne].
    + unfold pool_ready. rewrite lookup_set_pool. cbn [queue set_queue maxsize].
      pose proof (make_connections_length (http_connection storage_url)
                    (Z.to_nat (concurrency self)) (outside st)) as Hlen.
      destruct (make_connections (http_connection storage_url)
                  (Z.to_nat (concurrency self)) (outside st)).1 as [|hc conns];
        cbn [List.length] in *; [lia|].
      apply Z.leb_le. lia.
    + unfold set_pool, set_conn_pools, set_outside in *. cbn [conn_pools] in *.
      rewrite lookup_insert_ne in Hsome by done.
      rewrite <- (Hready url Hsome). unfold pool_ready; cbn [conn_pools].
      now rewrite lookup_insert_ne by done.
Qed.

(** The record [put_results] makes of one dict is one msgpack can carry
    when the dict, the keywords and the worker's id are. *)
Lemma record_packable (self : Worker) (d kwargs : PyDict) (now : Z) :
  packable (worker_id self) = true -> packable_dict d -> packable_dict kwargs ->
  packable_dict
    (add_dicts [d]
       ({[ "completed_at" := VFloat now; "worker_id" := worker_id self ]} ∪ kwargs)).
Proof.
  intros Hid Hd Hk. unfold add_dicts, packable_dict; cbn [foldl].
  repeat apply map_Forall_union_2; try assumption.
  - apply map_Forall_insert_2; [reflexivity|].
    apply map_Forall_singleton. exact Hid.
  - apply map_Forall_empty.
Qed.

(** The dict a handler leaves is one msgpack can carry when the job was. *)
Lemma handlers_job_fits (recur : PyDict -> State -> Handled World Conn) (self : Worker)
  (handler : Handler) (job_data : PyDict) (st : State) :
  handler <> HJob -> job_fits job_data ->
  packable_dict (call_handler recur self handler job_data st).1.2.
Proof.
  intros Hnot [Hjob Hsize].
  assert (Hupload : forall letter,
            packable_dict (handle_upload_object self job_data letter st).1.2).
  { intros letter. unfold handle_upload_object.
    destruct (job_data !! "size") as [v|] eqn:Hv; [|exact Hjob].
    destruct (py_int v) as [e|n] eqn:Hn; [exact Hjob|].
    assert (Hjob1 : packable_dict (<["size" := VInt n]> job_data))
      by (apply map_Forall_insert_2; [exact (Hsize v n eq_refl Hn)|exact Hjob]).
    destruct (ignoring_http_responses self [503] put_object _ _ st) as [[headers|e|] st1];
      exact Hjob1. }
  destruct handler; [contradiction| | | | |]; cbn [call_handler].
  - exact Hjob.
  - apply Hupload.
  - apply Hupload.
  - unfold handle_delete_object.
    destruct (ignoring_http_responses self [404; 503] delete_object _ _ st)
      as [[headers|e|] st1]; exact Hjob.
  - unfold handle_get_object.
    destruct (ignoring_http_responses self [404; 503] get_object _ _ st)
      as [[[headers body]|e|] st1]; exact Hjob.
Qed.

(** With an encoder that takes what msgpack can carry, [handle_job] does
    not raise once it has picked a handler: an exception of the handler ends
    in the failure record. *)
Lemma handle_job_at_fits (self : Worker) :
  encoder_takes_packable -> packable (worker_id self) = true ->
  forall (depth : nat) (job_data : PyDict) (st : State),
    job_fits job_data ->
    packable_dict (handle_job_at depth self job_data st).1.2
    /\ (has_handler job_data = true ->
        forall e, (handle_job_at (S depth) self job_data st).1.1 <> Raise e).
Proof.
  intros Hencoder Hid.
  assert (Hbody : forall (recur : PyDict -> State -> Handled World Conn) job_data st,
            job_fits job_data ->
            (forall jd s, job_fits jd -> packable_dict (recur jd s).1.2) ->
            packable_dict (handle_job_body recur self job_data st).1.2
            /\ (has_handler job_data = true ->
                forall e, (handle_job_body recur self job_data st).1.1 <> Raise e)).
  { intros recur job_data st Hfits Hrecur. unfold handle_job_body, has_handler.
    destruct (pick_handler job_data) as [e|[handler|]];
      [split; [exact (proj1 Hfits)|discriminate]|
      |split; [exact (proj1 Hfits)|discriminate]].
    assert (Hcall : packable_dict (call_handler recur self handler job_data st).1.2).
    { destruct handler; [now apply Hrecur|..]; now apply handlers_job_fits. }
    destruct (call_handler recur self handler job_data st) as [[[[]|e|] job_data1] st1];
      cbn [fst snd] in Hcall.
    - split; [exact Hcall|discriminate].
    - unfold ends_with. rewrite put_results_pushes by reflexivity.
      destruct (Hencoder
                  (add_dicts [job_data1]
                     ({[ "completed_at" := VFloat (time_time (outside st1)).1;
                         "worker_id" := worker_id self ]}
                      ∪ {[ "exception" := VStr (repr_exc e);
                           "traceback" := VStr (format_exc e) ]})))
        as [encoded ->].
      { apply record_packable; [exact Hid|exact Hcall|].
        apply map_Forall_insert_2; [reflexivity|].
        apply map_Forall_singleton. reflexivity. }
      split; [exact Hcall|discriminate].
    - split; [exact Hcall|discriminate]. }
  induction depth as [|depth IH]; intros job_data st Hfits.
  - split; [exact (proj1 Hfits)|].
    change (handle_job_at 1 self job_data st)
      with (handle_job_body (handle_job_at 0 self) self job_data st).
    apply Hbody; [exact Hfits|]. intros jd s Hjd. exact (proj1 Hjd).
  - assert (Hrecur : forall jd s, job_fits jd ->
              packable_dict (handle_job_at depth self jd s).1.2)
      by (intros jd s Hjd; exact (proj1 (IH jd s Hjd))).
    split.
    + change (handle_job_at (S depth) self job_data st)
        with (handle_job_body (handle_job_at depth self) self job_data st).
      apply Hbody; assumption.
    + change (handle_job_at (S (S depth)) self job_data st)
        with (handle_job_body (handle_job_at (S depth) self) self job_data st).
      apply Hbody; [exact Hfits|].
      intros jd s Hjd.
      change (handle_job_at (S depth) self jd s)
        with (handle_job_body (handle_job_at depth self) self jd s).
      apply Hbody; assumption.
Qed.

Lemma handle_job_counts (self : Worker) (job_data : PyDict) (st : State) :
  comes_back put_object -> comes_back delete_object -> comes_back get_object ->
  encoder_takes_packable -> packable (worker_id self) = true ->
  all_pools_ready st -> job_fits job_data ->
  List.length (result_queue (handle_job self job_data st).2)
  = (List.length (result_queue st) + (if has_handler job_data then 1 else 0))%nat
  /\ all_pools_ready (handle_job self job_data st).2.
Proof.
  intros Hput Hdelete Hget Hencoder Hid Hready Hfits.
  destruct (handle_job_at_keeps_ready Hput Hdelete Hget recursion_limit self job_data st
              Hready) as [Hnb Hr].
  pose proof (handle_job_at_queue recursion_limit self job_data st) as Hq.
  pose proof (handle_job_unfold self job_data st) as Hunfold.
  pose proof (proj2 (handle_job_at_fits self Hencoder Hid (Nat.pred recursion_limit)
                       job_data st Hfits)) as Hnoraise.
  change (S (Nat.pred recursion_limit)) with recursion_limit in Hnoraise.
  unfold has_handler in *. unfold handle_job in *.
  split; [|exact Hr].
  destruct (pick_handler job_data) as [e|[handler|]].
  - rewrite Hunfold; cbn [snd]. lia.
  - destruct (handle_job_at recursion_limit self job_data st)
      as [[[[]|e|] job_data1] st1]; cbn [fst snd queue_grows_on_return] in *.
    + destruct Hq as [r ->]. rewrite length_app. reflexivity.
    + destruct (Hnoraise eq_refl e eq_refl).
    + contradiction.
  - rewrite Hunfold; cbn [snd]. lia.
Qed.

(** X14. When the storage functions always come back, the encoder takes what
    msgpack can carry and the concurrency is at least one, [go] run over
    accepted messages and then an empty one, each job finishing before the
    next message is read, returns.  If every job is one msgpack can carry
    back, with its [size] converted, and so is the worker's id, [go] has
    queued one record for each job that has a handler, none for the others,
    and the pools are all ready. *)
Theorem sequential_run_queues_one_record_per_job (self : Worker)
  (jobs : list (string * PyDict)) (post : list string) (st : State) :
  0 < concurrency self ->
  comes_back put_object -> comes_back delete_object -> comes_back get_object ->
  encoder_takes_packable -> packable (worker_id self) = true ->
  all_pools_ready st ->
  Forall (fun job => accepted job.1 job.2 /\ job_fits job.2) jobs ->
  exists st',
    go self (jobs.*1 ++ ""%string :: post) st = (Return tt, st')
    /\ List.length (result_queue st')
       = (List.length (result_queue st)
          + List.length (List.filter (fun job => has_handler job.2) jobs))%nat
    /\ all_pools_ready st'.
Proof.
  intros Hconc Hput Hdelete Hget Hencoder Hid Hready Hjobs. unfold go.
  destruct (Z.ltb_spec (concurrency self) 0) as [Hneg|_]; [lia|].
  revert st Hready. induction Hjobs as [|[job job_data] jobs Hjob Hjobs IH];
    intros st Hready.
  - exists st. cbn. split; [reflexivity|]. split; [lia|exact Hready].
  - destruct Hjob as ((Hne & Hloads & Hkeys & Hurl) & Hfits). cbn [fst snd] in *.
    destruct (ensure_pool_keeps_ready self job_data st Hconc Hurl Hready)
      as (st1 & Hens & Hq1 & Hready1).
    destruct (handle_job_counts self job_data st1 Hput Hdelete Hget Hencoder Hid Hready1
                Hfits) as [Hcount Hready2].
    destruct (IH _ Hready2) as (st' & Hgo & Hlen & Hready').
    exists st'. split; [|split; [|exact Hready']].
    + cbn [fmap list_fmap fst app go_loop].
      destruct (String.eqb_spec job "") as [Hempty|_]; [contradiction|].
      unfold go_step. rewrite Hloads, Hkeys, Hens. unfold spawn_handle_job.
      destruct (Z.eqb_spec (concurrency self) 0) as [Hzero|_]; [lia|].
      exact Hgo.
    + rewrite Hlen, Hcount, Hq1. cbn [List.filter snd].
      destruct (has_handler job_data); cbn [List.length]; lia.
Qed.

End SequentialRun.

(** ** What the records hold *)

Section Records.

Context {World Conn : Type} {env : Collaborators World Conn}.

#[local] Abbreviation State := (State World Conn).
#[local] Abbreviation Handled := (Handled World Conn).

Lemma response_record_keeps (self : Worker) (object_info resp_headers : PyDict) (now : Z)
  (key : string) :
  key ∉ ["completed_at"; "worker_id"; "first_byte_latency"; "last_byte_latency";
         "trans_id"]%string ->
  add_dicts [object_info]
    ({[ "completed_at" := VFloat now; "worker_id" := worker_id self ]}
     ∪ {[ "first_byte_latency" :=
            dict_get resp_headers "x-swiftstack-first-byte-latency" VNone;
          "last_byte_latency" :=
            dict_get resp_headers "x-swiftstack-last-byte-latency" VNone;
          "trans_id" := dict_get resp_headers "x-trans-id" VNone ]}) !! key
  = object_info !! key.
Proof.
  intros Hkey.
  assert (Hne : forall k : string,
            k ∈ ["completed_at"; "worker_id"; "first_byte_latency"; "last_byte_latency";
                 "trans_id"]%string -> k <> key).
  { intros k Hk ->. exact (Hkey Hk). }
  apply add_dicts_positional. apply lookup_union_None. split.
  - rewrite lookup_insert_ne by (apply Hne; repeat constructor).
    apply lookup_singleton_ne. apply Hne; repeat constructor.
  - rewrite !lookup_insert_ne by (apply Hne; repeat constructor).
    apply lookup_singleton_ne. apply Hne; repeat constructor.
Qed.

(** X15. The record of a job whose storage call succeeded is the job's dict as
    the handler left it, under every key but the five that [put_results]
    and [_put_results_from_response] write.  [completed_at] is the reading
    of the clock, taken in the world that the answering storage call left,
    and [worker_id] is the worker's id, whatever the job held under these
    names. *)
Theorem success_record_keeps_the_job (self : Worker) (handler : Handler)
  (job_data job_data1 : PyDict) (st st1 : State) :
  handler ∈ [HUploadObject; HUpdateObject; HDeleteObject; HGetObject] ->
  run_handler self handler job_data st = (Return tt, job_data1, st1) ->
  exists conn args w resp_headers w1 result encoded,
    storage_answers handler conn args w resp_headers w1
    /\ msgpack_dumps result = inr encoded
    /\ result_queue st1 = result_queue st ++ [encoded]
    /\ result !! "completed_at" = Some (VFloat (time_time w1).1)
    /\ outside st1 = (time_time w1).2
    /\ result !! "worker_id" = Some (worker_id self)
    /\ (forall key : string,
          key ∉ ["completed_at"; "worker_id"; "first_byte_latency"; "last_byte_latency";
                 "trans_id"]%string ->
          result !! key = job_data1 !! key).
Proof.
  intros Hin Hret.
  destruct (run_handler_returns _ _ _ _ _ _ Hin Hret)
    as (conn & args & w & headers & w1 & encoded & Hans & _ & Hd & Hq & Hw).
  exists conn, args, w, headers, w1. eexists. exists encoded.
  split; [exact Hans|]. split; [exact Hd|]. split; [exact Hq|].
  split; [unfold add_dicts; apply lookup_union_Some_l, lookup_union_Some_l; reflexivity|].
  split; [exact Hw|].
  split; [unfold add_dicts; apply lookup_union_Some_l, lookup_union_Some_l; reflexivity|].
  intros key Hkey. now apply response_record_keeps.
Qed.

(** X16. An upload or update writes [int(size)] back into the job's dict before
    anything else, so the dict the caller holds, and with it the record that
    is queued for the job, failure or success, has the converted size. *)
Theorem upload_converts_size_in_place (self : Worker) (handler : Handler)
  (job_data : PyDict) (st : State) (v : PyVal) (n : Z) :
  handler = HUploadObject \/ handler = HUpdateObject ->
  pick_handler job_data = inr (Some handler) ->
  job_data !! "size" = Some v -> py_int v = inr n ->
  (handle_job self job_data st).1.2 = <["size" := VInt n]> job_data
  /\ ((handle_job self job_data st).1.1 = Return tt ->
      exists result encoded,
        msgpack_dumps result = inr encoded
        /\ result_queue (handle_job self job_data st).2 = result_queue st ++ [encoded]
        /\ result !! "size" = Some (VInt n)).
Proof.
  intros Hhandler Hpick Hsize Hint. rewrite handle_job_unfold, Hpick.
  assert (Hrun : exists letter,
            run_handler self handler job_data st
            = match
                ignoring_http_responses self [503] put_object
                  (<["size" := VInt n]> job_data)
                  {[ "content_length" := AVal (VInt n);
                     "contents" := AReader (Reader.init letter n) ]} st
              with
              | (Return headers, st1) =>
                  ends_with
                    (_put_results_from_response self (<["size" := VInt n]> job_data)
                       headers st1)
                    (<["size" := VInt n]> job_data)
              | (Raise e, st1) => (Raise e, <["size" := VInt n]> job_data, st1)
              | (Blocked, st1) => (Blocked, <["size" := VInt n]> job_data, st1)
              end).
  { destruct Hhandler as [-> | ->]; eexists; unfold run_handler; cbn [call_handler];
      unfold handle_update_object, handle_upload_object; rewrite Hsize, Hint;
      reflexivity. }
  destruct Hrun as [letter Hrun]. rewrite Hrun.
  pose proof (ignoring_http_responses_queue self [503] put_object
                (<["size" := VInt n]> job_data)
                {[ "content_length" := AVal (VInt n);
                   "contents" := AReader (Reader.init letter n) ]} st) as Hq.
  assert (Hfailure : forall e (s : State),
            result_queue s = result_queue st ->
            let done :=
              ends_with
                (put_results self [<["size" := VInt n]> job_data]
                   {[ "exception" := VStr (repr_exc e);
                      "traceback" := VStr (format_exc e) ]} s)
                (<["size" := VInt n]> job_data) in
            done.1.2 = <["size" := VInt n]> job_data
            /\ (done.1.1 = Return tt ->
                exists result encoded,
                  msgpack_dumps result = inr encoded
                  /\ result_queue done.2 = result_queue st ++ [encoded]
                  /\ result !! "size" = Some (VInt n))).
  { intros e s Hs done. subst done. unfold ends_with.
    rewrite put_results_pushes by reflexivity.
    destruct (msgpack_dumps _) as [e1|encoded] eqn:Hd; cbn [fst snd];
      (split; [reflexivity|]); [discriminate|].
    intros _. eexists. exists encoded. split; [exact Hd|].
    split; [cbn; now rewrite Hs|].
    destruct (failure_record_fields self (<["size" := VInt n]> job_data)
                (time_time (outside s)).1 e) as (_ & _ & _ & _ & Hother).
    rewrite Hother
      by (intros Hin; rewrite !elem_of_cons, elem_of_nil in Hin;
          destruct Hin as [|[|[|[|[]]]]]; discriminate).
    apply lookup_insert_eq. }
  destruct (ignoring_http_responses self [503] put_object _ _ st)
    as [[headers|e|] st1]; cbn [fst snd] in Hq.
  - unfold _put_results_from_response, ends_with at 1.
    rewrite put_results_pushes by reflexivity.
    destruct (msgpack_dumps _) as [e1|encoded] eqn:Hd; cbn [fst snd].
    + apply Hfailure. cbn. exact Hq.
    + split; [reflexivity|]. intros _. eexists. exists encoded. split; [exact Hd|].
      split; [cbn; now rewrite Hq|].
      rewrite response_record_keeps
        by (intros Hin; rewrite !elem_of_cons, elem_of_nil in Hin;
            destruct Hin as [|[|[|[|[|[]]]]]]; discriminate).
      apply lookup_insert_eq.
  - apply Hfailure. exact Hq.
  - split; [reflexivity|]. discriminate.
Qed.

(** X17. An upload or update whose job has no [size], or a [size] that [int]
    rejects, fails before any connection is borrowed: [handle_job] ends
    with the call of [put_results] for the failure record of that exception,
    made in the state as it was.  So it returns, having only queued that
    record, when the encoder takes the record. *)
Theorem upload_without_size_fails_at_once (self : Worker) (handler : Handler)
  (job_data : PyDict) (st : State) :
  handler = HUploadObject \/ handler = HUpdateObject ->
  pick_handler job_data = inr (Some handler) ->
  forall e,
    (job_data !! "size" = None /\ e = KeyError (VStr "size"))
    \/ (exists v, job_data !! "size" = Some v /\ py_int v = inl e) ->
    handle_job self job_data st
    = ends_with
        (put_results self [job_data]
           {[ "exception" := VStr (repr_exc e); "traceback" := VStr (format_exc e) ]} st)
        job_data
    /\ forall encoded,
         msgpack_dumps
           (add_dicts [job_data]
              ({[ "completed_at" := VFloat (time_time (outside st)).1;
                  "worker_id" := worker_id self ]}
               ∪ {[ "exception" := VStr (repr_exc e);
                    "traceback" := VStr (format_exc e) ]})) = inr encoded ->
         handle_job self job_data st
         = (Return tt, job_data,
            push_result encoded (set_outside (time_time (outside st)).2 st)).
Proof.
  intros Hhandler Hpick e Hsize.
  assert (Hrun : run_handler self handler job_data st = (Raise e, job_data, st)).
  { destruct Hhandler as [-> | ->]; unfold run_handler; cbn [call_handler];
      unfold handle_update_object, handle_upload_object;
      destruct Hsize as [[-> ->]|(v & -> & ->)]; reflexivity. }
  rewrite handle_job_unfold, Hpick, Hrun. split; [reflexivity|].
  intros encoded Hd. unfold ends_with. rewrite put_results_pushes, Hd by reflexivity.
  reflexivity.
Qed.

(** A job of type [job] touches neither the pools nor the storage, keeps
    its dict, and does not wait, at any depth of the stack. *)
Lemma job_type_job_frame (self : Worker) (job_data : PyDict) :
  pick_handler job_data = inr (Some HJob) ->
  forall (depth : nat) (st : State),
    let done := handle_job_at depth self job_data st in
    done.1.2 = job_data /\ done.1.1 <> Blocked
    /\ conn_pools done.2 = conn_pools st /\ fn_calls done.2 = fn_calls st.
Proof.
  intros Hpick. induction depth as [|depth IH]; intros st; cbn zeta.
  - cbn [handle_job_at fst snd]. repeat split. discriminate.
  - change (handle_job_at (S depth) self job_data st)
      with (handle_job_body (handle_job_at depth self) self job_data st).
    unfold handle_job_body. rewrite Hpick. cbn [call_handler].
    destruct (IH st) as (Hjob & Hnb & Hpools & Hcalls).
    destruct (handle_job_at depth self job_data st) as [[[[]|e|] job_data1] st1];
      cbn [fst snd] in *; [repeat split; assumption| |contradiction].
    subst job_data1. unfold ends_with; cbn [fst snd].
    destruct (put_results_frame self [job_data]
                {[ "exception" := VStr (repr_exc e);
                   "traceback" := VStr (format_exc e) ]} st1) as [Hp Hc].
    split; [reflexivity|]. split.
    + destruct (put_results_cases self [job_data]
                  {[ "exception" := VStr (repr_exc e);
                     "traceback" := VStr (format_exc e) ]} st1)
        as [(encoded & _ & ->)|(e1 & ->)]; discriminate.
    + split; [now rewrite Hp|now rewrite Hc].
Qed.

(** X18. A job whose type is [job] names [handle_job] itself.  The calls nest
    until the interpreter refuses one; that [RuntimeError] is caught like
    any exception of a handler and answered with the failure record.  No
    storage call is made, no pool is touched, the job's dict stays as it
    was and nothing waits; and when the encoder takes the record, every
    call returns, with this one record queued. *)
Theorem job_type_job_ends_in_one_record (self : Worker) (job_data : PyDict) (st : State) :
  pick_handler job_data = inr (Some HJob) ->
  let done := handle_job self job_data st in
  done.1.2 = job_data /\ done.1.1 <> Blocked
  /\ conn_pools done.2 = conn_pools st /\ fn_calls done.2 = fn_calls st
  /\ exists msg,
       forall encoded,
         msgpack_dumps
           (add_dicts [job_data]
              ({[ "completed_at" := VFloat (time_time (outside st)).1;
                  "worker_id" := worker_id self ]}
               ∪ {[ "exception" := VStr (repr_exc (RuntimeError msg));
                    "traceback" := VStr (format_exc (RuntimeError msg)) ]}))
         = inr encoded ->
         done
         = (Return tt, job_data,
            push_result encoded (set_outside (time_time (outside st)).2 st)).
Proof.
  intros Hpick done.
  destruct (job_type_job_frame self job_data Hpick recursion_limit st)
    as (Hjob & Hnb & Hpools & Hcalls).
  split; [exact Hjob|]. split; [exact Hnb|]. split; [exact Hpools|].
  split; [exact Hcalls|].
  exists "maximum recursion depth exceeded"%string. intros encoded Hd.
  unfold done, handle_job. rewrite recursion_limit_S.
  induction (Nat.pred recursion_limit) as [|depth IH].
  - cbn [handle_job_at]. unfold handle_job_body. rewrite Hpick. cbn [call_handler].
    unfold ends_with. rewrite put_results_pushes, Hd by reflexivity. reflexivity.
  - change (handle_job_at (S (S depth)) self job_data st)
      with (handle_job_body (handle_job_at (S depth) self) self job_data st).
    unfold handle_job_body at 1. rewrite Hpick. cbn [call_handler].
    rewrite IH. reflexivity.
Qed.

End Records.

(** ** [Worker._result_writer] *)

(** X19. However the puts of the handlers and the turns of the writer
    interleave, what was sent followed by what still waits is what was there
    followed by the results put, in the order they were put: the writer
    sends each result once, none is lost, and none overtakes another. *)
Theorem writer_sends_in_put_order (events : list ChannelEvent) (ch : Channel) :
  sent (run_channel events ch) ++ pending (run_channel events ch)
  = sent ch ++ pending ch ++ puts_of events.
Proof.
  revert ch; induction events as [|[r|] events IH]; intros ch;
    cbn [run_channel puts_of].
  - now rewrite app_nil_r.
  - rewrite IH. unfold channel_put; cbn [sent pending]. now rewrite <- !app_assoc.
  - unfold writer_turn. destruct (pending ch) as [|result rest] eqn:Hp.
    + rewrite IH, Hp. reflexivity.
    + rewrite IH; cbn [sent pending]. now rewrite <- !app_assoc.
Qed.

(** ** No-op jobs *)

Section Noop.

Context {World Conn : Type} {env : Collaborators World Conn}.

#[local] Abbreviation State := (State World Conn).

(** X20. A job whose [noop] is true is handled by [handle_noop] whatever its
    type is, and also when it has no type and no pool exists: [handle_job]
    makes no storage call, touches no pool, keeps the job's dict and does
    not wait.  The record of [handle_noop] has both latencies [0.0],
    [trans_id] [None] and the worker's id, also when the job brought values
    under these names; when the encoder takes it, [handle_job] returns with
    this one record queued. *)
Theorem noop_job_makes_no_call (self : Worker) (job_data : PyDict) (st : State) :
  truthy (dict_get job_data "noop" (VBool false)) = true ->
  let done := handle_job self job_data st in
  done.1.2 = job_data /\ done.1.1 <> Blocked
  /\ conn_pools done.2 = conn_pools st
  /\ fn_calls done.2 = fn_calls st
  /\ exists result,
       result !! "first_byte_latency" = Some (VFloat float_zero)
       /\ result !! "last_byte_latency" = Some (VFloat float_zero)
       /\ result !! "trans_id" = Some VNone
       /\ result !! "worker_id" = Some (worker_id self)
       /\ forall encoded,
            msgpack_dumps result = inr encoded ->
            done
            = (Return tt, job_data,
               push_result encoded (set_outside (time_time (outside st)).2 st)).
Proof.
  intros Hnoop done.
  assert (Hdone : done
                  = match
                      ends_with
                        (put_results self [job_data]
                           {[ "first_byte_latency" := VFloat float_zero;
                              "last_byte_latency" := VFloat float_zero;
                              "trans_id" := VNone ]} st)
                        job_data
                    with
                    | (Raise e, job_data1, st1) =>
                        ends_with
                          (put_results self [job_data1]
                             {[ "exception" := VStr (repr_exc e);
                                "traceback" := VStr (format_exc e) ]} st1)
                          job_data1
                    | handled => handled
                    end).
  { unfold done. rewrite handle_job_unfold. unfold pick_handler. rewrite Hnoop.
    reflexivity. }
  assert (Hframe : done.1.2 = job_data /\ done.1.1 <> Blocked
                   /\ conn_pools done.2 = conn_pools st /\ fn_calls done.2 = fn_calls st).
  { rewrite Hdone. unfold ends_with at 2; cbn [fst snd].
    destruct (put_results_frame self [job_data]
                {[ "first_byte_latency" := VFloat float_zero;
                   "last_byte_latency" := VFloat float_zero;
                   "trans_id" := VNone ]} st) as [Hp Hc].
    destruct (put_results self [job_data] _ st) as [[[]|e|] st1] eqn:Hput;
      cbn [fst snd] in *.
    - repeat split; [discriminate|exact Hp|exact Hc].
    - unfold ends_with; cbn [fst snd].
      destruct (put_results_frame self [job_data]
                  {[ "exception" := VStr (repr_exc e);
                     "traceback" := VStr (format_exc e) ]} st1) as [Hp1 Hc1].
      split; [reflexivity|]. split.
      + destruct (put_results_cases self [job_data]
                    {[ "exception" := VStr (repr_exc e);
                       "traceback" := VStr (format_exc e) ]} st1)
          as [(encoded & _ & ->)|(e1 & ->)]; discriminate.
      + split; [now rewrite Hp1|now rewrite Hc1].
    - pose proof (put_results_queue self [job_data]
                    {[ "first_byte_latency" := VFloat float_zero;
                       "last_byte_latency" := VFloat float_zero;
                       "trans_id" := VNone ]} st) as Hnever.
      rewrite Hput in Hnever. contradiction. }
  destruct Hframe as (Hjob & Hnb & Hpools & Hcalls).
  split; [exact Hjob|]. split; [exact Hnb|]. split; [exact Hpools|].
  split; [exact Hcalls|].
  exists (add_dicts [job_data]
            ({[ "completed_at" := VFloat (time_time (outside st)).1;
                "worker_id" := worker_id self ]}
             ∪ {[ "first_byte_latency" := VFloat float_zero;
                  "last_byte_latency" := VFloat float_zero;
                  "trans_id" := VNone ]})).
  split; [apply add_dicts_kwarg; reflexivity|].
  split; [apply add_dicts_kwarg; reflexivity|].
  split; [apply add_dicts_kwarg; reflexivity|].
  split; [unfold add_dicts; apply lookup_union_Some_l, lookup_union_Some_l; reflexivity|].
  intros encoded Hd. rewrite Hdone. unfold ends_with at 2.
  rewrite put_results_pushes by reflexivity.
  rewrite Hd. reflexivity.
Qed.

End Noop.

(** ** Pools last *)

Section PoolsLast.

Context {World Conn : Type} {env : Collaborators World Conn}.

#[local] Abbreviation State := (State World Conn).
#[local] Abbreviation ConnectionPool := (ConnectionPool World Conn).
#[local] Abbreviation Handled := (Handled World Conn).

Lemma pools_kept_refl (pools : gmap PyVal ConnectionPool) : pools_kept pools pools.
Proof. intros url pool Hpool. exists pool. done. Qed.

Lemma pools_kept_trans (a b c : gmap PyVal ConnectionPool) :
  pools_kept a b -> pools_kept b c -> pools_kept a c.
Proof.
  intros Hab Hbc url pool Hpool.
  destruct (Hab url pool Hpool) as (pool1 & H1 & Hc1 & Hm1).
  destruct (Hbc url pool1 H1) as (pool2 & H2 & Hc2 & Hm2).
  exists pool2. split; [exact H2|]. split; congruence.
Qed.

Lemma pools_kept_requeue (storage_url : PyVal) (pool : ConnectionPool) (conns : list Conn)
  (st : State) :
  conn_pools st !! storage_url = Some pool ->
  pools_kept (conn_pools st) (conn_pools (set_pool storage_url (set_queue conns pool) st)).
Proof.
  intros Hpool url p Hp. unfold set_pool, set_conn_pools; cbn [conn_pools].
  destruct (decide (url = storage_url)) as [->|Hne].
  - rewrite lookup_insert_eq. rewrite Hpool in Hp. injection Hp as <-.
    eexists. split; [reflexivity|]. split; reflexivity.
  - rewrite lookup_insert_ne by done. exists p. done.
Qed.

Lemma pools_kept_new (storage_url : PyVal) (pool : ConnectionPool) (st : State) :
  conn_pools st !! storage_url = None ->
  pools_kept (conn_pools st) (conn_pools (set_pool storage_url pool st)).
Proof.
  intros Hnone url p Hp. unfold set_pool, set_conn_pools; cbn [conn_pools].
  destruct (decide (url = storage_url)) as [->|Hne]; [congruence|].
  rewrite lookup_insert_ne by done. exists p. done.
Qed.

Lemma connection_finally_kept (storage_url : PyVal) (hc : Conn) (st : State) :
  pools_kept (conn_pools st) (conn_pools (connection_finally storage_url hc st).2).
Proof.
  unfold connection_finally.
  destruct (conn_pools st !! storage_url) as [pool|] eqn:Hpool; [|apply pools_kept_refl].
  unfold pool_put. destruct (pool_full pool); [apply pools_kept_refl|].
  now apply pools_kept_requeue.
Qed.

Lemma connection_exit_kept (storage_url : PyVal) (hc : Conn) (how : BodyExit) (st : State) :
  pools_kept (conn_pools st) (conn_pools (connection_exit storage_url hc how st).2).
Proof.
  unfold connection_exit.
  destruct how as [|e].
  - pose proof (connection_finally_kept storage_url hc st).
    destruct (connection_finally storage_url hc st) as [[?|?|] ?]; assumption.
  - destruct (is_broken_connection e).
    + destruct (conn_close hc (outside st)) as [closing w1].
      destruct (conn_pools (set_outside w1 st) !! storage_url) as [pool|];
        [|apply pools_kept_refl].
      destruct (create pool (outside (set_outside w1 st))) as [hc1 w2].
      pose proof (connection_finally_kept storage_url hc1
                    (set_outside w2 (set_outside w1 st))).
      destruct (connection_finally storage_url hc1 _) as [[?|?|] ?]; assumption.
    + pose proof (connection_finally_kept storage_url hc st).
      destruct (connection_finally storage_url hc st) as [[?|?|] ?]; assumption.
Qed.

Lemma attempt_kept {R : Type} (fn : StorageFn World Conn R) (call_info : PyDict)
  (args : gmap string ArgVal) (st : State) :
  pools_kept (conn_pools st) (conn_pools (attempt fn call_info args st).2).
Proof.
  unfold attempt. destruct (call_info !! "storage_url") as [storage_url|];
    [|apply pools_kept_refl].
  unfold with_connection, connection_enter.
  destruct (conn_pools st !! storage_url) as [pool|] eqn:Hpool; [|apply pools_kept_refl].
  unfold pool_get. destruct (queue pool) as [|hc rest]; [apply pools_kept_refl|].
  pose proof (pools_kept_requeue storage_url pool rest st Hpool) as Hborrow.
  pose proof (call_fn_frame fn args hc (set_pool storage_url (set_queue rest pool) st))
    as Hframe.
  destruct (call_fn fn args hc (set_pool storage_url (set_queue rest pool) st))
    as [[r|e|] st2]; cbn [snd] in Hframe.
  - pose proof (connection_exit_kept storage_url hc ExitNormally st2) as Hexit.
    rewrite Hframe in Hexit.
    destruct (connection_exit storage_url hc ExitNormally st2) as [[?|?|] ?];
      exact (pools_kept_trans _ _ _ Hborrow Hexit).
  - pose proof (connection_exit_kept storage_url hc (ExitRaising e) st2) as Hexit.
    rewrite Hframe in Hexit.
    destruct (connection_exit storage_url hc (ExitRaising e) st2) as [[[|]|?|] ?];
      exact (pools_kept_trans _ _ _ Hborrow Hexit).
  - cbn [snd]. rewrite Hframe. exact Hborrow.
Qed.

Lemma ignoring_http_responses_kept {R : Type} {truthy_R : Truthy R} (self : Worker)
  (statuses : list Z) (fn : StorageFn World Conn R) (call_info : PyDict)
  (extra_keys : gmap string ArgVal) (st : State) :
  pools_kept (conn_pools st)
    (conn_pools (ignoring_http_responses self statuses fn call_info extra_keys st).2).
Proof.
  unfold ignoring_http_responses.
  destruct (call_args call_info extra_keys) as [e|args]; [apply pools_kept_refl|].
  apply (retry_loop_keeps (fun s => pools_kept (conn_pools st) (conn_pools s)) self
           statuses fn call_info args) with (n := Z.to_nat (max_retries self + 1 - 0));
    [|lia|apply pools_kept_refl].
  intros s Hs. exact (pools_kept_trans _ _ _ Hs (attempt_kept fn call_info args s)).
Qed.

Lemma after_storage_call_kept {R : Type} (self : Worker) (st : State) (job_data : PyDict)
  (responded : Outcome R * State) (headers_of : R -> PyDict) :
  pools_kept (conn_pools st) (conn_pools responded.2) ->
  let handled : Handled :=
    match responded with
    | (Return r, st1) =>
        ends_with (_put_results_from_response self job_data (headers_of r) st1) job_data
    | (Raise e, st1) => (Raise e, job_data, st1)
    | (Blocked, st1) => (Blocked, job_data, st1)
    end in
  pools_kept (conn_pools st) (conn_pools handled.2).
Proof.
  destruct responded as [[r|e|] st1]; cbn [snd]; intros Hk; cbn zeta; cbn [snd];
    try exact Hk.
  unfold _put_results_from_response, ends_with; cbn [snd].
  now rewrite (proj1 (put_results_frame _ _ _ _)).
Qed.

Lemma handlers_kept (recur : PyDict -> State -> Handled) (self : Worker)
  (handler : Handler) (job_data : PyDict) (st : State) :
  handler <> HJob ->
  pools_kept (conn_pools st) (conn_pools (call_handler recur self handler job_data st).2).
Proof.
  intros Hnot. destruct handler; [contradiction| | | | |]; cbn [call_handler].
  - unfold handle_noop, ends_with; cbn [snd].
    rewrite (proj1 (put_results_frame _ _ _ _)). apply pools_kept_refl.
  - unfold handle_upload_object.
    destruct (job_data !! "size") as [v|]; [|apply pools_kept_refl].
    destruct (py_int v) as [e|n]; [apply pools_kept_refl|].
    apply (after_storage_call_kept self st _ _ (fun headers => headers)).
    apply ignoring_http_responses_kept.
  - unfold handle_update_object, handle_upload_object.
    destruct (job_data !! "size") as [v|]; [|apply pools_kept_refl].
    destruct (py_int v) as [e|n]; [apply pools_kept_refl|].
    apply (after_storage_call_kept self st _ _ (fun headers => headers)).
    apply ignoring_http_responses_kept.
  - unfold handle_delete_object.
    apply (after_storage_call_kept self st _ _ (fun headers => headers)).
    apply ignoring_http_responses_kept.
  - unfold handle_get_object.
    pose proof (after_storage_call_kept self st job_data
                  (ignoring_http_responses self [404; 503] get_object job_data
                     {[ "resp_chunk_size" := AVal (VInt (2 ^ 16));
                        "toss_body" := AVal (VBool true) ]} st)
                  fst (ignoring_http_responses_kept _ _ _ _ _ _)) as H.
    destruct (ignoring_http_responses self [404; 503] get_object job_data _ st)
      as [[[headers body]|e|] st1]; exact H.
Qed.

Lemma handle_job_at_kept (depth : nat) (self : Worker) :
  forall (job_data : PyDict) (st : State),
    pools_kept (conn_pools st) (conn_pools (handle_job_at depth self job_data st).2).
Proof.
  induction depth as [|depth IH]; intros job_data st; cbn [handle_job_at];
    [apply pools_kept_refl|].
  unfold handle_job_body.
  destruct (pick_handler job_data) as [e|[handler|]]; try apply pools_kept_refl.
  assert (Hcall : pools_kept (conn_pools st)
                    (conn_pools
                       (call_handler (handle_job_at depth self) self handler job_data st).2)).
  { destruct handler; [apply IH|..]; apply handlers_kept; discriminate. }
  destruct (call_handler (handle_job_at depth self) self handler job_data st)
    as [[[[]|e|] job_data1] st1]; cbn [snd] in *; try exact Hcall.
  unfold ends_with; cbn [snd]. now rewrite (proj1 (put_results_frame _ _ _ _)).
Qed.

Lemma go_step_kept (self : Worker) (job : string) (st : State) :
  pools_kept (conn_pools st) (conn_pools (go_step self job st).2).
Proof.
  unfold go_step. destruct (msgpack_loads job) as [e|job_data]; [apply pools_kept_refl|].
  destruct (logged_keys job_data); [apply pools_kept_refl|].
  assert (Hens : pools_kept (conn_pools st) (conn_pools (ensure_pool self job_data st).2)).
  { unfold ensure_pool. destruct (job_data !! "storage_url") as [storage_url|];
      [|apply pools_kept_refl].
    destruct (conn_pools st !! storage_url) as [pool|] eqn:Hpool;
      [apply pools_kept_refl|].
    destruct (ConnectionPool_init (http_connection storage_url) (concurrency self)
                (outside st)) as [[pool|e|] w]; try apply pools_kept_refl.
    exact (pools_kept_new storage_url pool (set_outside w st) Hpool). }
  destruct (ensure_pool self job_data st) as [[[]|e|] st1]; cbn [snd] in *;
    try exact Hens.
  unfold spawn_handle_job. destruct (concurrency self =? 0); [exact Hens|].
  cbn [snd]. apply (pools_kept_trans _ _ _ Hens). apply handle_job_at_kept.
Qed.

(** X21. [handle_job] and [go] never remove a pool and never change the factory
    or the capacity of one: an endpoint that has a pool keeps it. *)
Theorem pools_are_kept (self : Worker) (job_data : PyDict) (inbox : list string)
  (st : State) :
  pools_kept (conn_pools st) (conn_pools (handle_job self job_data st).2)
  /\ pools_kept (conn_pools st) (conn_pools (go self inbox st).2).
Proof.
  split; [apply handle_job_at_kept|].
  unfold go. destruct (concurrency self <? 0); [apply pools_kept_refl|].
  revert st. induction inbox as [|job inbox IH]; intros st; cbn [go_loop];
    [apply pools_kept_refl|].
  destruct (String.eqb job ""); [apply pools_kept_refl|].
  pose proof (go_step_kept self job st) as Hstep.
  destruct (go_step self job st) as [[[]|e|] st1]; cbn [snd] in *; try exact Hstep.
  exact (pools_kept_trans _ _ _ Hstep (IH st1)).
Qed.

End PoolsLast.

(** ** The statuses each handler retries *)

Section HandlerStatuses.

Context {World Conn : Type} {env : Collaborators World Conn}.

#[local] Abbreviation State := (State World Conn).

Lemma call_args_with_keys (call_info : PyDict) (extra_keys : gmap string ArgVal) :
  is_Some (call_info !! "storage_url") -> is_Some (call_info !! "token") ->
  is_Some (call_info !! "container") -> is_Some (call_info !! "name") ->
  exists args, call_args call_info extra_keys = inr args.
Proof.
  intros [? H1] [? H2] [? H3] [? H4]. unfold call_args. rewrite H1, H2, H3, H4. eauto.
Qed.

(** The number of calls when every call raises one [ClientException]. *)
Lemma client_error_calls {R : Type} {truthy_R : Truthy R} (self : Worker)
  (statuses : list Z) (fn : StorageFn World Conn R) (call_info : PyDict)
  (extra_keys : gmap string ArgVal) (storage_url : PyVal) (st : State)
  (msg : string) (http_status : Z) :
  0 <= max_retries self ->
  call_info !! "storage_url" = Some storage_url ->
  is_Some (call_info !! "token") -> is_Some (call_info !! "container") ->
  is_Some (call_info !! "name") ->
  pool_ready storage_url st = true ->
  (forall conn a w, (fn_call fn conn a w).1 = Raise (ClientException msg http_status)) ->
  exists st',
    ignoring_http_responses self statuses fn call_info extra_keys st
    = (Raise (ClientException msg http_status), st')
    /\ fn_calls st'
       = (fn_calls st
          + (if bool_decide (http_status ∈ statuses)
             then Z.to_nat (max_retries self) + 1 else 1))%nat.
Proof.
  intros Hpos Hurl Htoken Hcontainer Hname Hready Hraises.
  destruct (call_args_with_keys call_info extra_keys ltac:(rewrite Hurl; eauto)
              Htoken Hcontainer Hname) as [args Hargs].
  unfold ignoring_http_responses. rewrite Hargs.
  destruct (bool_decide (http_status ∈ statuses)) eqn:Hin.
  - apply bool_decide_eq_true in Hin.
    destruct (always_failing_exhausts self statuses fn call_info args storage_url
                (ClientException msg http_status) Hurl Hraises
                ltac:(right; eauto) (Z.to_nat (max_retries self)) 0 st)
      as (st' & Hloop & Hcalls & _); [lia|f_equal; lia|exact Hready|].
    exists st'. split; [exact Hloop|lia].
  - apply bool_decide_eq_false in Hin.
    destruct (attempt_ready fn call_info args st storage_url Hurl Hready)
      as (pool & hc & rest & st1 & _ & _ & Hatt & Hcalls & _ & _).
    rewrite Hraises in Hatt. cbn [is_broken_connection] in Hatt.
    exists st1. split; [|lia].
    rewrite retry_loop_step, Hatt.
    destruct (decide (http_status ∈ statuses /\ 0 + 1 <= max_retries self)) as [[H _]|_];
      [contradiction|reflexivity].
Qed.

(** X22. An upload or update retries a [ClientException] only for status 503;
    a delete or get retries it for 404 and 503.  When every call of the
    handler's storage function raises one [ClientException], the handler
    raises it after [max_retries + 1] calls if its status is one the handler
    retries, and after a single call if not. *)
Theorem handlers_retry_their_statuses (self : Worker) (handler : Handler)
  (job_data : PyDict) (storage_url : PyVal) (st : State) (msg : string) (http_status : Z) :
  0 <= max_retries self ->
  job_data !! "storage_url" = Some storage_url ->
  is_Some (job_data !! "token") -> is_Some (job_data !! "container") ->
  is_Some (job_data !! "name") ->
  (handler = HUploadObject \/ handler = HUpdateObject ->
   exists v n, job_data !! "size" = Some v /\ py_int v = inr n) ->
  pool_ready storage_url st = true ->
  storage_always_raises handler (ClientException msg http_status) ->
  exists job_data1 st1,
    run_handler self handler job_data st
    = (Raise (ClientException msg http_status), job_data1, st1)
    /\ fn_calls st1
       = (fn_calls st
          + (if bool_decide (http_status ∈ retried_statuses handler)
             then Z.to_nat (max_retries self) + 1 else 1))%nat.
Proof.
  intros Hpos Hurl Htoken Hcontainer Hname Hsize Hready Hraises.
  unfold run_handler.
  destruct handler; cbn [call_handler storage_always_raises retried_statuses] in *;
    try contradiction.
  - destruct (Hsize (or_introl eq_refl)) as (v & n & Hv & Hn).
    unfold handle_upload_object. rewrite Hv, Hn.
    destruct (client_error_calls self [503] put_object (<["size" := VInt n]> job_data)
                {[ "content_length" := AVal (VInt n);
                   "contents" := AReader (Reader.init upload_letter n) ]}
                storage_url st msg http_status Hpos)
      as (st' & Hrun & Hcalls);
      try (rewrite lookup_insert_ne by done; assumption); try assumption.
    rewrite Hrun. eauto.
  - destruct (Hsize (or_intror eq_refl)) as (v & n & Hv & Hn).
    unfold handle_update_object, handle_upload_object. rewrite Hv, Hn.
    destruct (client_error_calls self [503] put_object (<["size" := VInt n]> job_data)
                {[ "content_length" := AVal (VInt n);
                   "contents" := AReader (Reader.init "B" n) ]}
                storage_url st msg http_status Hpos)
      as (st' & Hrun & Hcalls);
      try (rewrite lookup_insert_ne by done; assumption); try assumption.
    rewrite Hrun. eauto.
  - unfold handle_delete_object.
    destruct (client_error_calls self [404; 503] delete_object job_data ∅
                storage_url st msg http_status Hpos Hurl Htoken Hcontainer Hname Hready
                Hraises) as (st' & Hrun & Hcalls).
    rewrite Hrun. eauto.
  - unfold handle_get_object.
    destruct (client_error_calls self [404; 503] get_object job_data
                {[ "resp_chunk_size" := AVal (VInt (2 ^ 16));
                   "toss_body" := AVal (VBool true) ]}
                storage_url st msg http_status Hpos Hurl Htoken Hcontainer Hname Hready
                Hraises) as (st' & Hrun & Hcalls).
    rewrite Hrun. eauto.
Qed.

End HandlerStatuses.

(** ** The further theorems at work on the example environment *)

Lemma example_pools_ready : all_pools_ready Example.state0.
Proof.
  intros storage_url [pool Hpool].
  unfold Example.state0, Example.state_with_pool in Hpool. cbn [conn_pools] in Hpool.
  apply lookup_singleton_Some in Hpool as [<- _]. by_evaluation.
Defined.

Lemma example_storage_comes_back (script : nat -> Outcome PyDict)
  (decode : string -> PyExc + PyDict) :
  (forall k, script k <> Blocked) ->
  comes_back (put_object (Collaborators := Example.env script decode))
  /\ comes_back (delete_object (Collaborators := Example.env script decode))
  /\ comes_back (get_object (Collaborators := Example.env script decode)).
Proof.
  intros Hscript. repeat split; intros conn args w; cbn; try apply Hscript.
  specialize (Hscript (Example.served w)).
  destruct (script (Example.served w)); cbn; [discriminate|discriminate|contradiction].
Defined.

Lemma example_encoder_takes_packable (script : nat -> Outcome PyDict)
  (decode : string -> PyExc + PyDict) :
  encoder_takes_packable (env := Example.env script decode).
Proof.
  intros d Hd. exists (Example.show_dict d). cbn. unfold Example.pack.
  rewrite (bool_decide_eq_true_2 _ Hd). reflexivity.
Defined.

Lemma example_job_fits (script : nat -> Outcome PyDict) (decode : string -> PyExc + PyDict)
  (type : string) :
  job_fits (env := Example.env script decode) (Example.job type).
Proof.
  split.
  - unfold Example.job, packable_dict.
    repeat (apply map_Forall_insert_2; [reflexivity|]).
    apply map_Forall_empty.
  - intros v n Hv Hn. unfold Example.job in Hv.
    rewrite !lookup_insert_ne in Hv by done.
    apply lookup_singleton_Some in Hv as [_ <-].
    cbn in Hn. injection Hn as <-. reflexivity.
Defined.

Lemma retry_loop_is_bounded_witness :
  let run :=
    ignoring_http_responses (env := Example.env_ok) (Example.worker 2) [404; 503]
      (delete_object (Collaborators := Example.env_ok)) (Example.job "delete_object") ∅
      Example.state0 in
  run.1 = Return Example.headers /\ truth Example.headers = true.
Proof.
  cbn zeta.
  assert (Hrun : (ignoring_http_responses (env := Example.env_ok) (Example.worker 2)
                    [404; 503] (delete_object (Collaborators := Example.env_ok))
                    (Example.job "delete_object") ∅ Example.state0).1
                 = Return Example.headers) by by_evaluation.
  split; [exact Hrun|].
  exact (proj2 (proj2 (retry_loop_is_bounded (env := Example.env_ok) (Example.worker 2)
                         [404; 503] (delete_object (Collaborators := Example.env_ok))
                         (Example.job "delete_object") ∅ Example.state0))
           Example.headers Hrun).
Defined.

Lemma retryable_errors_exhaust_retries_witness :
  0 <= max_retries (Example.worker 2)
  /\ pool_ready Example.url Example.state0 = true
  /\ exists st',
       ignoring_http_responses (env := Example.env_404) (Example.worker 2) [404; 503]
         (delete_object (Collaborators := Example.env_404)) (Example.job "delete_object")
         ∅ Example.state0
       = (Raise (ClientException "Object DELETE failed" 404), st')
       /\ fn_calls st' = 3%nat.
Proof.
  assert (Hpos : 0 <= max_retries (Example.worker 2)) by (cbn; lia).
  assert (Hready : pool_ready Example.url Example.state0 = true) by by_evaluation.
  split; [exact Hpos|]. split; [exact Hready|].
  assert (Hin : 404 ∈ [404; 503]) by repeat constructor.
  destruct (retryable_errors_exhaust_retries (env := Example.env_404) (Example.worker 2)
              [404; 503] (delete_object (Collaborators := Example.env_404))
              (Example.job "delete_object") ∅ Example.delete_args Example.url
              Example.state0 (ClientException "Object DELETE failed" 404)
              Hpos ltac:(by_evaluation) ltac:(by_evaluation) Hready
              (fun conn a w => eq_refl)
              (or_intror (ex_intro _ "Object DELETE failed"%string
                            (ex_intro _ 404 (conj eq_refl Hin)))))
    as (st' & Hrun & Hcalls & _).
  exists st'. split; [exact Hrun|exact Hcalls].
Defined.

Lemma first_call_decides_witness :
  pool_ready Example.url Example.state0 = true
  /\ truth Example.headers = true
  /\ exists st',
       ignoring_http_responses (env := Example.env_ok) (Example.worker 2) [404; 503]
         (delete_object (Collaborators := Example.env_ok)) (Example.job "delete_object")
         ∅ Example.state0
       = (Return Example.headers, st')
       /\ fn_calls st' = 1%nat.
Proof.
  assert (Hready : pool_ready Example.url Example.state0 = true) by by_evaluation.
  assert (Htrue : truth Example.headers = true) by by_evaluation.
  split; [exact Hready|]. split; [exact Htrue|].
  destruct (proj1 (first_call_decides (env := Example.env_ok) (Example.worker 2)
                     [404; 503] (delete_object (Collaborators := Example.env_ok))
                     (Example.job "delete_object") ∅ Example.delete_args Example.url
                     Example.state0 ltac:(by_evaluation) ltac:(by_evaluation) Hready)
              Example.headers (fun conn => eq_refl) Htrue)
    as (st' & Hrun & Hcalls & _).
  exists st'. split; [exact Hrun|exact Hcalls].
Defined.

Lemma fails_before_calling_witness :
  conn_pools (Example.empty_state Example.world0) !! Example.url = None
  /\ ignoring_http_responses (env := Example.env_ok) (Example.worker 2) [404; 503]
       (delete_object (Collaborators := Example.env_ok)) (Example.job "delete_object") ∅
       (Example.empty_state Example.world0)
     = (Raise (KeyError Example.url), Example.empty_state Example.world0).
Proof.
  assert (Hnone : conn_pools (Example.empty_state Example.world0) !! Example.url = None)
    by reflexivity.
  split; [exact Hnone|].
  exact (proj1 (proj2 (proj2 (proj2 (proj2
           (fails_before_calling (env := Example.env_ok) (Example.worker 2) [404; 503]
              (delete_object (Collaborators := Example.env_ok))
              (Example.job "delete_object") ∅ (Example.empty_state Example.world0)))))
           Example.url Example.delete_args ltac:(by_evaluation) ltac:(by_evaluation))
           Hnone).
Defined.

Lemma go_needs_job_keys_witness :
  Example.decode_bare "noop" = inr {[ "type" := VStr "noop" ]}
  /\ go (env := Example.env_bare) (Example.worker 2) ["noop"; ""]%string
       (Example.empty_state Example.world0)
     = (Raise (KeyError (VStr "container")), Example.empty_state Example.world0).
Proof.
  split; [reflexivity|].
  assert (Htype : is_Some (({[ "type" := VStr "noop" ]} : PyDict) !! "type"))
    by (exists (VStr "noop"); reflexivity).
  assert (Hcontainer : ({[ "type" := VStr "noop" ]} : PyDict) !! "container" = None)
    by reflexivity.
  assert (Hne : "noop"%string <> ""%string) by discriminate.
  assert (Hconc : 0 <= concurrency (Example.worker 2)) by (cbn; lia).
  exact (proj1 (proj2 (go_needs_job_keys (env := Example.env_bare) (Example.worker 2)
                         "noop" [""%string] (Example.empty_state Example.world0)
                         {[ "type" := VStr "noop" ]} Hne Hconc eq_refl))
           Htype Hcontainer).
Defined.

Lemma unknown_type_is_dropped_witness :
  pick_handler (Example.job "no_such_type") = inr None
  /\ exists st1,
       go (env := Example.env_intake) (Example.worker 2) ["no_such_type"; ""]%string
         (Example.empty_state Example.world0)
       = go_loop (env := Example.env_intake) (Example.worker 2) [""%string] st1
       /\ result_queue st1 = [].
Proof.
  assert (Hpick : pick_handler (Example.job "no_such_type") = inr None) by by_evaluation.
  split; [exact Hpick|].
  assert (Hne : "no_such_type"%string <> ""%string) by discriminate.
  assert (Hconc : 0 < concurrency (Example.worker 2)) by (cbn; lia).
  assert (Hkeys : logged_keys (Example.job "no_such_type") = None) by by_evaluation.
  assert (Hurl : Example.job "no_such_type" !! "storage_url" = Some Example.url)
    by by_evaluation.
  destruct (unknown_type_is_dropped (env := Example.env_intake) (Example.worker 2)
              "no_such_type" [""%string] (Example.empty_state Example.world0)
              (Example.job "no_such_type") Example.url
              Hne Hconc eq_refl Hkeys Hurl Hpick)
    as (st1 & _ & Hgo & Hq & _).
  exists st1. split; [exact Hgo|exact Hq].
Defined.

Lemma go_ends_at_empty_message_witness :
  (go (env := Example.env_intake) (Example.worker 2) ["delete_object"; ""]%string
     (Example.empty_state Example.world0)).1 = Return tt
  /\ ""%string ∈ ["delete_object"; ""]%string.
Proof.
  assert (Hret : (go (env := Example.env_intake) (Example.worker 2)
                    ["delete_object"; ""]%string
                    (Example.empty_state Example.world0)).1 = Return tt)
    by by_evaluation.
  split; [exact Hret|].
  exact (proj2 (go_ends_at_empty_message (env := Example.env_intake) (Example.worker 2)
                  [] [] ["delete_object"; ""]%string
                  (Example.empty_state Example.world0)) Hret).
Defined.

Lemma handle_job_never_waits_witness :
  all_pools_ready Example.state0
  /\ (handle_job (env := Example.env_404) (Example.worker 2)
        (Example.job "delete_object") Example.state0).1.1 <> Blocked.
Proof.
  split; [exact example_pools_ready|].
  destruct (example_storage_comes_back Example.always_404 Example.no_messages
              ltac:(intros k; discriminate)) as (Hput & Hdelete & Hget).
  exact (proj1 (handle_job_never_waits (env := Example.env_404) (Example.worker 2)
                  (Example.job "delete_object") Example.state0 Hput Hdelete Hget
                  example_pools_ready)).
Defined.

Lemma sequential_run_queues_one_record_per_job_witness :
  0 < concurrency (Example.worker 2)
  /\ exists st',
       go (env := Example.env_intake) (Example.worker 2)
         ["delete_object"; "no_such_type"; "get_object"; ""]%string
         (Example.empty_state Example.world0)
       = (Return tt, st')
       /\ List.length (result_queue st') = 2%nat.
Proof.
  assert (Hconc : 0 < concurrency (Example.worker 2)) by (cbn; lia).
  split; [exact Hconc|].
  destruct (example_storage_comes_back Example.always_ok Example.decode_type
              ltac:(intros k; discriminate)) as (Hput & Hdelete & Hget).
  assert (Haccepted : forall type : string,
            type <> ""%string ->
            accepted (env := Example.env_intake) type (Example.job type)).
  { intros type Hne. split; [exact Hne|]. split; [reflexivity|].
    split; [reflexivity|]. eexists. reflexivity. }
  assert (Hjob : forall type : string,
            type <> ""%string ->
            accepted (env := Example.env_intake) type (Example.job type)
            /\ job_fits (env := Example.env_intake) (Example.job type)).
  { intros type Hne. split; [exact (Haccepted type Hne)|].
    exact (example_job_fits Example.always_ok Example.decode_type type). }
  assert (Hjobs : Forall (fun job : string * PyDict =>
                            accepted (env := Example.env_intake) job.1 job.2
                            /\ job_fits (env := Example.env_intake) job.2)
                    [("delete_object"%string, Example.job "delete_object");
                     ("no_such_type"%string, Example.job "no_such_type");
                     ("get_object"%string, Example.job "get_object")]).
  { repeat constructor; apply Hjob; discriminate. }
  assert (Hready : all_pools_ready (Example.empty_state Example.world0)).
  { intros storage_url [pool Hpool]. discriminate Hpool. }
  destruct (sequential_run_queues_one_record_per_job (env := Example.env_intake)
              (Example.worker 2) _
              [] (Example.empty_state Example.world0) Hconc Hput Hdelete Hget
              (example_encoder_takes_packable Example.always_ok Example.decode_type)
              eq_refl Hready Hjobs)
    as (st' & Hgo & Hlen & _).
  exists st'. split; [exact Hgo|exact Hlen].
Defined.

Lemma success_record_keeps_the_job_witness :
  HDeleteObject ∈ [HUploadObject; HUpdateObject; HDeleteObject; HGetObject]
  /\ exists result encoded w1,
       msgpack_dumps (Collaborators := Example.env_ok) result = inr encoded
       /\ result_queue
            (run_handler (env := Example.env_ok) (Example.worker 0) HDeleteObject
               (Example.job "delete_object") Example.state0).2
          = result_queue Example.state0 ++ [encoded]
       /\ result !! "completed_at" = Some (VFloat (Example.read_clock w1).1)
       /\ result !! "name" = Some (VStr "obj").
Proof.
  assert (Hin : HDeleteObject ∈ [HUploadObject; HUpdateObject; HDeleteObject; HGetObject])
    by repeat constructor.
  split; [exact Hin|].
  assert (Hret :
    run_handler (env := Example.env_ok) (Example.worker 0) HDeleteObject
      (Example.job "delete_object") Example.state0
    = (Return tt, Example.job "delete_object",
       (run_handler (env := Example.env_ok) (Example.worker 0) HDeleteObject
          (Example.job "delete_object") Example.state0).2))
    by by_evaluation.
  destruct (success_record_keeps_the_job (env := Example.env_ok) (Example.worker 0)
              HDeleteObject _ _ _ _ Hin Hret)
    as (conn & args & w & resp_headers & w1 & result & encoded
        & _ & Hd & Hq & Hclock & _ & _ & Hkeeps).
  exists result, encoded, w1. split; [exact Hd|]. split; [exact Hq|].
  split; [exact Hclock|].
  rewrite Hkeeps; [reflexivity|].
  intros Hkey. rewrite !elem_of_cons, elem_of_nil in Hkey.
  destruct Hkey as [|[|[|[|[|[]]]]]]; discriminate.
Defined.

Lemma upload_converts_size_in_place_witness :
  let job_data := <["size" := VBool true]> (Example.job "upload_object") in
  pick_handler job_data = inr (Some HUploadObject)
  /\ Example.to_int (VBool true) = inr 1
  /\ (handle_job (env := Example.env_ok) (Example.worker 0) job_data Example.state0).1.2
     = <["size" := VInt 1]> job_data.
Proof.
  cbn zeta.
  assert (Hpick : pick_handler (<["size" := VBool true]> (Example.job "upload_object"))
                  = inr (Some HUploadObject)) by by_evaluation.
  split; [exact Hpick|]. split; [reflexivity|].
  exact (proj1 (upload_converts_size_in_place (env := Example.env_ok) (Example.worker 0)
                  HUploadObject (<["size" := VBool true]> (Example.job "upload_object"))
                  Example.state0 (VBool true) 1 (or_introl eq_refl) Hpick
                  ltac:(by_evaluation) eq_refl)).
Defined.

Lemma upload_without_size_fails_at_once_witness :
  let job_data := delete "size" (Example.job "update_object") in
  job_data !! "size" = None
  /\ handle_job (env := Example.env_ok) (Example.worker 0) job_data Example.state0
     = ends_with
         (put_results (env := Example.env_ok) (Example.worker 0) [job_data]
            {[ "exception" := VStr (Example.show_exc (KeyError (VStr "size")));
               "traceback" :=
                 VStr ("Traceback (most recent call last): "
                       +:+ Example.show_exc (KeyError (VStr "size"))) ]}
            Example.state0)
         job_data.
Proof.
  cbn zeta.
  assert (Hsize : delete "size" (Example.job "update_object") !! "size" = None)
    by by_evaluation.
  split; [exact Hsize|].
  assert (Hpick : pick_handler (delete "size" (Example.job "update_object"))
                  = inr (Some HUpdateObject)) by by_evaluation.
  exact (proj1 (upload_without_size_fails_at_once (env := Example.env_ok)
                  (Example.worker 0) HUpdateObject
                  (delete "size" (Example.job "update_object")) Example.state0
                  (or_intror eq_refl) Hpick (KeyError (VStr "size"))
                  (or_introl (conj Hsize eq_refl)))).
Defined.

Lemma job_type_job_ends_in_one_record_witness :
  pick_handler (Example.job "job") = inr (Some HJob)
  /\ fn_calls (handle_job (env := Example.env_ok) (Example.worker 0) (Example.job "job")
                 Example.state0).2
     = fn_calls Example.state0.
Proof.
  assert (Hpick : pick_handler (Example.job "job") = inr (Some HJob)) by by_evaluation.
  split; [exact Hpick|].
  exact (proj1 (proj2 (proj2 (proj2
           (job_type_job_ends_in_one_record (env := Example.env_ok) (Example.worker 0)
              (Example.job "job") Example.state0 Hpick))))).
Defined.

Lemma handlers_retry_their_statuses_witness :
  storage_always_raises (env := Example.env_404) HDeleteObject
    (ClientException "Object DELETE failed" 404)
  /\ exists job_data1 st1,
       run_handler (env := Example.env_404) (Example.worker 2) HDeleteObject
         (Example.job "delete_object") Example.state0
       = (Raise (ClientException "Object DELETE failed" 404), job_data1, st1)
       /\ fn_calls st1 = 3%nat.
Proof.
  assert (Hraises : storage_always_raises (env := Example.env_404) HDeleteObject
                      (ClientException "Object DELETE failed" 404))
    by (intros conn args w; reflexivity).
  split; [exact Hraises|].
  assert (Hpos : 0 <= max_retries (Example.worker 2)) by (cbn; lia).
  assert (Hurl : Example.job "delete_object" !! "storage_url" = Some Example.url)
    by by_evaluation.
  assert (Htoken : is_Some (Example.job "delete_object" !! "token"))
    by (exists (VStr "tok"); by_evaluation).
  assert (Hcontainer : is_Some (Example.job "delete_object" !! "container"))
    by (exists (VStr "c"); by_evaluation).
  assert (Hname : is_Some (Example.job "delete_object" !! "name"))
    by (exists (VStr "obj"); by_evaluation).
  assert (Hready : pool_ready Example.url Example.state0 = true) by by_evaluation.
  destruct (handlers_retry_their_statuses (env := Example.env_404) (Example.worker 2)
              HDeleteObject (Example.job "delete_object") Example.url Example.state0
              "Object DELETE failed" 404 Hpos Hurl Htoken Hcontainer Hname
              ltac:(intros [H|H]; discriminate H) Hready Hraises)
    as (job_data1 & st1 & Hrun & Hcalls).
  exists job_data1, st1. split; [exact Hrun|exact Hcalls].
Defined.

Lemma noop_job_makes_no_call_witness :
  truthy (dict_get ({[ "noop" := VInt 1; "trans_id" := VStr "tx" ]} : PyDict) "noop"
            (VBool false)) = true
  /\ fn_calls (handle_job (env := Example.env_ok) (Example.worker 2)
                 {[ "noop" := VInt 1; "trans_id" := VStr "tx" ]}
                 (Example.empty_state Example.world0)).2
     = fn_calls (Example.empty_state Example.world0).
Proof.
  assert (Hnoop : truthy (dict_get ({[ "noop" := VInt 1; "trans_id" := VStr "tx" ]} : PyDict)
                            "noop" (VBool false)) = true) by reflexivity.
  split; [exact Hnoop|].
  exact (proj1 (proj2 (proj2 (proj2 (noop_job_makes_no_call (env := Example.env_ok)
                                       (Example.worker 2)
                                       {[ "noop" := VInt 1; "trans_id" := VStr "tx" ]}
                                       (Example.empty_state Example.world0) Hnoop))))).
Defined.

(** ** A failure record that is lost *)

(** The example encoder refuses a dict that holds an integer msgpack
    cannot carry. *)
Lemma pack_refuses (d : PyDict) (key : string) (n : Z) :
  d !! key = Some (VInt n) -> packable (VInt n) = false ->
  Example.pack d = inl (OtherException "OverflowError" "Integer value out of range").
Proof.
  intros Hkey Hn. unfold Example.pack.
  destruct (bool_decide (packable_dict d)) eqn:Hd; [|reflexivity].
  apply bool_decide_eq_true in Hd. rewrite (Hd key (VInt n) Hkey) in Hn. discriminate Hn.
Qed.

(** C1, at the input where the code breaks it.  An upload job whose [size]
    is the string [18446744073709551616] is handled while the service
    refuses uploads with status 500.  The handler has written [int(size)],
    which is [2 ^ 64], into the job's dict, and raises the
    [ClientException] after one call.  [handle_job] catches it and calls
    [put_results] for the failure record, which holds the dict with that
    size; the encoder raises [OverflowError] inside the [except] clause, so
    [handle_job] raises and no record is queued for the job. *)
Theorem failure_record_lost_on_overflow :
  let job_data1 := <["size" := VInt (2 ^ 64)]> Example.huge_upload in
  let done :=
    handle_job (env := Example.env_put_refused) (Example.worker 0) Example.huge_upload
      Example.state0 in
  pick_handler Example.huge_upload = inr (Some HUploadObject)
  /\ (exists st1,
        run_handler (env := Example.env_put_refused) (Example.worker 0) HUploadObject
          Example.huge_upload Example.state0
        = (Raise (ClientException "Object PUT failed" 500), job_data1, st1)
        /\ fn_calls st1 = 1%nat)
  /\ done.1
     = (Raise (OtherException "OverflowError" "Integer value out of range"), job_data1)
  /\ result_queue done.2 = []
  /\ fn_calls done.2 = 1%nat.
Proof.
  intros job_data1 done.
  pose (e := ClientException "Object PUT failed" 500).
  assert (Hpick : pick_handler Example.huge_upload = inr (Some HUploadObject))
    by by_evaluation.
  assert (Hsize : Example.huge_upload !! "size" = Some (VStr "18446744073709551616"))
    by by_evaluation.
  assert (Hint : py_int (Collaborators := Example.env_put_refused)
                   (VStr "18446744073709551616") = inr (2 ^ 64)) by by_evaluation.
  assert (Hurl : job_data1 !! "storage_url" = Some Example.url) by by_evaluation.
  assert (Htoken : is_Some (job_data1 !! "token")) by (exists (VStr "tok"); by_evaluation).
  assert (Hcontainer : is_Some (job_data1 !! "container"))
    by (exists (VStr "c"); by_evaluation).
  assert (Hname : is_Some (job_data1 !! "name")) by (exists (VStr "obj"); by_evaluation).
  assert (Hready : pool_ready Example.url Example.state0 = true) by by_evaluation.
  assert (Hpos : 0 <= max_retries (Example.worker 0)) by (cbn; lia).
  destruct (client_error_calls (env := Example.env_put_refused) (Example.worker 0) [503]
              (put_object (Collaborators := Example.env_put_refused)) job_data1
              {[ "content_length" := AVal (VInt (2 ^ 64));
                 "contents" := AReader (Reader.init upload_letter (2 ^ 64)) ]}
              Example.url Example.state0 "Object PUT failed" 500
              Hpos Hurl Htoken Hcontainer Hname Hready (fun conn a w => eq_refl))
    as (st1 & Hloop & Hcalls).
  assert (Hone : fn_calls st1 = 1%nat) by (rewrite Hcalls; reflexivity).
  pose proof (ignoring_http_responses_queue (env := Example.env_put_refused)
                (Example.worker 0) [503]
                (put_object (Collaborators := Example.env_put_refused)) job_data1
                {[ "content_length" := AVal (VInt (2 ^ 64));
                   "contents" := AReader (Reader.init upload_letter (2 ^ 64)) ]}
                Example.state0) as Hqueue.
  rewrite Hloop in Hqueue. cbn [snd] in Hqueue.
  assert (Hrun : run_handler (env := Example.env_put_refused) (Example.worker 0)
                   HUploadObject Example.huge_upload Example.state0
                 = (Raise e, job_data1, st1)).
  { unfold run_handler; cbn [call_handler]. unfold handle_upload_object.
    rewrite Hsize, Hint. fold job_data1. rewrite Hloop. reflexivity. }
  split; [exact Hpick|]. split; [exists st1; split; [exact Hrun|exact Hone]|].
  assert (Hdone : done
                  = (Raise (OtherException "OverflowError" "Integer value out of range"),
                     job_data1,
                     set_outside
                       (time_time (Collaborators := Example.env_put_refused)
                          (outside st1)).2 st1)).
  { unfold done. rewrite handle_job_unfold, Hpick, Hrun. unfold ends_with.
    rewrite put_results_pushes by reflexivity.
    destruct (failure_record_fields (env := Example.env_put_refused) (Example.worker 0)
                job_data1
                (time_time (Collaborators := Example.env_put_refused) (outside st1)).1 e)
      as (_ & _ & _ & _ & Hother).
    change (msgpack_dumps (Collaborators := Example.env_put_refused)) with Example.pack.
    rewrite (pack_refuses _ "size" (2 ^ 64)); [reflexivity| |reflexivity].
    rewrite Hother
      by (intros Hin; rewrite !elem_of_cons, elem_of_nil in Hin;
          destruct Hin as [|[|[|[|[]]]]]; discriminate).
    apply lookup_insert_eq. }
  rewrite Hdone. cbn [fst snd result_queue fn_calls set_outside].
  split; [reflexivity|]. split; [exact Hqueue|exact Hone].
Qed.
